(** * Rent-roll ingestion pipeline: a shallow embedding and its properties

    The development embeds the document ingestion and extraction pipeline
    of the repository ([src/document_parser.py], [src/utils/ocr_utils.py],
    [src/utils/text_processing.py], and the text splitter of
    [src/storage_manager.py]) and proves properties of it.

    Conventions of the embedding:
    - a Python [str] is a [string]; characters are the code points 0..255;
    - a Python [float] or [Decimal] is the exact rational it denotes ([Q]);
    - a Python [dict] with string keys is a [gmap string pyval];
    - a raised exception is the left injection of a sum type;
    - the PDF, OCR and file-system libraries are a record of the answers
      they give for one path ([pdf_env]). *)

From Stdlib Require Import ZArith QArith Qreduction Ascii String List Bool Lia.
From stdpp Require Import base option list strings gmap fin_maps.

Local Open Scope Z_scope.
Local Open Scope string_scope.

Set Default Proof Using "Type".

(* ===================================================================== *)
(** ** Characters and strings *)
(* ===================================================================== *)

Abbreviation chars := (list ascii).

Definition code (c : ascii) : nat := nat_of_ascii c.

Definition in_range (lo hi : nat) (c : ascii) : bool :=
  (lo <=? code c)%nat && (code c <=? hi)%nat.

(** [str.isspace] on the code points below 256: TAB..CR, FS..US, space,
    NEL and the no-break space. [str.strip()] and the pattern class [\s]
    both use it. *)
Definition is_space (c : ascii) : bool :=
  in_range 9 13 c || in_range 28 32 c
  || (code c =? 133)%nat || (code c =? 160)%nat.

(** The decimal digits; below 256 the pattern class [\d] has no others. *)
Definition is_digit (c : ascii) : bool := in_range 48 57 c.

Definition is_upper_az (c : ascii) : bool := in_range 65 90 c.
Definition is_lower_az (c : ascii) : bool := in_range 97 122 c.

(** [str.isalpha] on one character below 256. *)
Definition is_alpha (c : ascii) : bool :=
  is_upper_az c || is_lower_az c
  || (code c =? 170)%nat || (code c =? 181)%nat || (code c =? 186)%nat
  || in_range 192 214 c || in_range 216 246 c || in_range 248 255 c.

(** [str.lower] on one character below 256. *)
Definition lower_char (c : ascii) : ascii :=
  if is_upper_az c || in_range 192 214 c || in_range 216 222 c
  then ascii_of_nat (code c + 32) else c.

(** Case folding of the letters A..Z and a..z only. *)
Definition az_lower (c : ascii) : ascii :=
  if is_upper_az c then ascii_of_nat (code c + 32) else c.
Definition az_upper (c : ascii) : ascii :=
  if is_lower_az c then ascii_of_nat (code c - 32) else c.

Definition s2l (s : string) : chars := list_ascii_of_string s.
Definition l2s (l : chars) : string := string_of_list_ascii l.

Fixpoint drop_while {A} (p : A -> bool) (l : list A) : list A :=
  match l with
  | [] => []
  | x :: l' => if p x then drop_while p l' else l
  end.

(** [s.strip()] *)
Definition strip_l (l : chars) : chars :=
  rev (drop_while is_space (rev (drop_while is_space l))).
Definition strip (s : string) : string := l2s (strip_l (s2l s)).

(** [not s.strip()] *)
Definition is_blank (s : string) : bool :=
  match strip_l (s2l s) with [] => true | _ => false end.

Fixpoint is_prefix (p l : chars) : bool :=
  match p, l with
  | [], _ => true
  | a :: p', b :: l' => if ascii_dec a b then is_prefix p' l' else false
  | _ :: _, [] => false
  end.

(** [sub in s] *)
Fixpoint contains_l (sub l : chars) : bool :=
  is_prefix sub l ||
  match l with
  | [] => false
  | _ :: l' => contains_l sub l'
  end.
Definition contains (sub s : string) : bool := contains_l (s2l sub) (s2l s).

(** [s.replace(old, new)] for a non-empty [old]: occurrences are replaced
    from the left and do not overlap. Every call of the source passes a
    non-empty literal for [old]. *)
Fixpoint replace_go (fuel : nat) (old new l : chars) : chars :=
  match fuel with
  | O => l
  | S fuel' =>
      match l with
      | [] => []
      | c :: l' =>
          if is_prefix old l
          then new ++ replace_go fuel' old new (skipn (length old) l)
          else c :: replace_go fuel' old new l'
      end
  end.
Definition replace_l (old new l : chars) : chars :=
  match old with
  | [] => l
  | _ => replace_go (length l) old new l
  end.
Definition replace (old new s : string) : string :=
  l2s (replace_l (s2l old) (s2l new) (s2l s)).

(** [s.lower()] *)
Definition lower (s : string) : string := l2s (map lower_char (s2l s)).

(** [s.isalpha()]: non-empty and every character alphabetic. *)
Definition isalpha (s : string) : bool :=
  match s2l s with
  | [] => false
  | l => forallb is_alpha l
  end.

Definition newline : ascii := ascii_of_nat 10.

(** [s.split('\n')]: always at least one piece. *)
Fixpoint split_nl (cur : chars) (l : chars) : list chars :=
  match l with
  | [] => [rev cur]
  | c :: l' =>
      if ascii_dec c newline then rev cur :: split_nl [] l'
      else split_nl (c :: cur) l'
  end.
Definition split_lines (s : string) : list string :=
  map l2s (split_nl [] (s2l s)).

(** [sep.join(parts)] *)
Fixpoint join (sep : string) (parts : list string) : string :=
  match parts with
  | [] => ""
  | [p] => p
  | p :: rest => p ++ sep ++ join sep rest
  end.

Definition nl : string := String newline "".

(** Decimal rendering of a natural number, as in [f"{n}"]. *)
Definition digit_char (n : nat) : ascii := ascii_of_nat (48 + n).
Fixpoint nat_digits (fuel n : nat) (acc : chars) : chars :=
  match fuel with
  | O => acc
  | S fuel' =>
      let acc' := digit_char (n mod 10) :: acc in
      if (n <? 10)%nat then acc' else nat_digits fuel' (n / 10) acc'
  end.
Definition str_of_nat (n : nat) : string := l2s (nat_digits (S n) n []).

(** Value of a digit string, most significant digit first. *)
Definition digit_val (c : ascii) : Z := Z.of_nat (code c) - 48.
Definition digits_val (l : chars) : Z :=
  fold_left (fun acc c => 10 * acc + digit_val c) l 0.

(* ===================================================================== *)
(** ** Regular expressions with Python's backtracking semantics *)
(* ===================================================================== *)

(** Character classes. *)
Inductive cclass :=
| CLit (c : ascii)              (* a literal character *)
| CRange (lo hi : ascii)        (* [lo-hi] *)
| CDigit                        (* \d *)
| CSpace                        (* \s *)
| CUnion (a b : cclass).        (* two items of one bracket expression *)

Inductive regex :=
| REps
| RChar (cc : cclass)
| RSeq (r1 r2 : regex)
| RAlt (r1 r2 : regex)          (* r1|r2, r1 tried first *)
| RStar (r : regex)             (* r*, greedy *)
| RGroup (n : nat) (r : regex). (* capturing group number n *)

(** r? , r+ , r{n} and r{m,m+extra}, all greedy. *)
Definition ROpt (r : regex) : regex := RAlt r REps.
Definition RPlus (r : regex) : regex := RSeq r (RStar r).
Fixpoint RRep (n : nat) (r : regex) : regex :=
  match n with
  | O => REps
  | S n' => RSeq r (RRep n' r)
  end.
Fixpoint RUpTo (extra : nat) (r : regex) : regex :=
  match extra with
  | O => REps
  | S e => ROpt (RSeq r (RUpTo e r))
  end.
Definition RBetween (m n : nat) (r : regex) : regex :=
  RSeq (RRep m r) (RUpTo (n - m) r).

Fixpoint RLit_l (l : chars) : regex :=
  match l with
  | [] => REps
  | c :: l' => RSeq (RChar (CLit c)) (RLit_l l')
  end.
Definition RLit (s : string) : regex := RLit_l (s2l s).

Fixpoint cc_match (cc : cclass) (c : ascii) : bool :=
  match cc with
  | CLit a => if ascii_dec a c then true else false
  | CRange lo hi => in_range (code lo) (code hi) c
  | CDigit => is_digit c
  | CSpace => is_space c
  | CUnion a b => cc_match a c || cc_match b c
  end.

(** With [re.IGNORECASE] a class also accepts the other case of a letter.
    The patterns of the source contain only the letters A..Z and a..z, and
    below 256 no other character folds onto one of those. *)
Definition char_ok (icase : bool) (cc : cclass) (c : ascii) : bool :=
  cc_match cc c ||
  (icase && (cc_match cc (az_lower c) || cc_match cc (az_upper c))).

(** The captured groups, most recent first. *)
Abbreviation groups := (list (nat * chars)).

Fixpoint group_get (n : nat) (g : groups) : option chars :=
  match g with
  | [] => None
  | (m, t) :: g' => if (n =? m)%nat then Some t else group_get n g'
  end.

Section Matcher.
Context {R : Type}.
Variable icase : bool.

(** [rmatch r s g k] matches [r] at the start of [s] and hands the rest
    of the input and the groups to the continuation [k]; when [k] fails
    the matcher backtracks into [r]. An iteration of a star that consumes
    nothing is cut, so the input length is enough fuel for a star. *)
Fixpoint rmatch (r : regex) (s : chars) (g : groups)
    (k : chars -> groups -> option R) {struct r} : option R :=
  match r with
  | REps => k s g
  | RChar cc =>
      match s with
      | c :: s' => if char_ok icase cc c then k s' g else None
      | [] => None
      end
  | RSeq r1 r2 => rmatch r1 s g (fun s' g' => rmatch r2 s' g' k)
  | RAlt r1 r2 =>
      match rmatch r1 s g k with
      | Some x => Some x
      | None => rmatch r2 s g k
      end
  | RStar r' =>
      (fix loop (n : nat) (s : chars) (g : groups) {struct n} : option R :=
         match n with
         | O => k s g
         | S n' =>
             match rmatch r' s g
                     (fun s' g' =>
                        if (length s' <? length s)%nat
                        then loop n' s' g' else None) with
             | Some x => Some x
             | None => k s g
             end
         end) (length s) s g
  | RGroup n r' =>
      rmatch r' s g
        (fun s' g' => k s' ((n, firstn (length s - length s') s) :: g'))
  end.
End Matcher.

(** One match: where it starts (as the suffix of the input beginning
    there), what follows it, and its groups. *)
Record rematch := {
  m_start : chars;
  m_rest : chars;
  m_groups : groups
}.

Definition m_text (m : rematch) : chars :=
  firstn (length (m_start m) - length (m_rest m)) (m_start m).

(** [m.group(n)], the empty text when the group took no part. *)
Definition m_group (n : nat) (m : rematch) : string :=
  match group_get n (m_groups m) with
  | Some t => l2s t
  | None => ""
  end.

(** [pattern.match(s)]: a match at the very start. *)
Definition re_match_l (icase : bool) (r : regex) (s : chars) : option rematch :=
  rmatch icase r s []
    (fun s' g => Some {| m_start := s; m_rest := s'; m_groups := g |}).

(** [pattern.search(s)]: the leftmost match. *)
Fixpoint re_search_l (icase : bool) (r : regex) (s : chars) : option rematch :=
  match re_match_l icase r s with
  | Some m => Some m
  | None =>
      match s with
      | [] => None
      | _ :: s' => re_search_l icase r s'
      end
  end.

(** [pattern.finditer(s)]: successive matches that do not overlap. After an
    empty match the scan resumes one character further. *)
Fixpoint re_finditer_l (fuel : nat) (icase : bool) (r : regex) (s : chars)
    : list rematch :=
  match fuel with
  | O => []
  | S fuel' =>
      match re_search_l icase r s with
      | None => []
      | Some m =>
          m :: (if (length (m_rest m) <? length (m_start m))%nat
                then re_finditer_l fuel' icase r (m_rest m)
                else match m_start m with
                     | [] => []
                     | _ :: s' => re_finditer_l fuel' icase r s'
                     end)
      end
  end.

(** A compiled pattern: the expression and its flag. *)
Record pattern := { p_regex : regex; p_icase : bool }.

Definition search (p : pattern) (s : string) : option rematch :=
  re_search_l (p_icase p) (p_regex p) (s2l s).

(** [pattern.findall(s)] for a pattern with exactly one group: the texts
    of group 1. *)
Definition findall (p : pattern) (s : string) : list string :=
  map (m_group 1)
      (re_finditer_l (S (length (s2l s))) (p_icase p) (p_regex p) (s2l s)).

(* ===================================================================== *)
(** ** The compiled patterns of [FinancialDataExtractor.__init__] *)
(* ===================================================================== *)

Definition d_ : regex := RChar CDigit.
Definition s_ : regex := RChar CSpace.
Definition AZ : regex := RChar (CRange "A" "Z").
Definition az : regex := RChar (CRange "a" "z").
Definition ch (c : ascii) : regex := RChar (CLit c).

Fixpoint seq (rs : list regex) : regex :=
  match rs with
  | [] => REps
  | [r] => r
  | r :: rs' => RSeq r (seq rs')
  end.

(** unit_number; group 1 is the whole of  \d{2}-\d{3}|\d{1,3}[A-Z]?\d{0,3} *)
Definition re_unit_number : regex :=
  RGroup 1 (RAlt (seq [RRep 2 d_; ch "-"; RRep 3 d_])
                 (seq [RBetween 1 3 d_; ROpt AZ; RBetween 0 3 d_])).

(** unit_type; group 1 is the whole of  MBL\d+AC\d+|[A-Z]{2,4}\d+[A-Z]*\d* *)
Definition re_unit_type : regex :=
  RGroup 1 (RAlt (seq [RLit "MBL"; RPlus d_; RLit "AC"; RPlus d_])
                 (seq [RBetween 2 4 AZ; RPlus d_; RStar AZ; RStar d_])).

(** rent_amount;  \$?\s*  and then group 1,  [0-9,]+\.?\d{0,2} *)
Definition re_rent_amount : regex :=
  seq [ROpt (ch "$"); RStar s_;
       RGroup 1 (seq [RPlus (RChar (CUnion (CRange "0" "9") (CLit ",")));
                      ROpt (ch "."); RBetween 0 2 d_])].

(** square_feet; group 1,  \d+(?:,\d{3})* , and then
    \s*(?:sq\.?\s*ft\.?|sqft|square\s*feet) *)
Definition re_square_feet : regex :=
  seq [RGroup 1 (seq [RPlus d_; RStar (RSeq (ch ",") (RRep 3 d_))]);
       RStar s_;
       RAlt (seq [RLit "sq"; ROpt (ch "."); RStar s_; RLit "ft"; ROpt (ch ".")])
            (RAlt (RLit "sqft")
                  (seq [RLit "square"; RStar s_; RLit "feet"]))].

(** date; group 1 is the whole of  \d{1,2}\/\d{1,2}\/\d{2,4} *)
Definition re_date : regex :=
  RGroup 1 (seq [RBetween 1 2 d_; ch "/"; RBetween 1 2 d_; ch "/";
                 RBetween 2 4 d_]).

(** tenant_name; group 1 is the whole of
    [A-Z][a-z]+(?:\s+[A-Z][a-z]+)*(?:\s*,\s*[A-Z][a-z]+)* *)
Definition re_tenant_name : regex :=
  RGroup 1 (seq [AZ; RPlus az;
                 RStar (seq [RPlus s_; AZ; RPlus az]);
                 RStar (seq [RStar s_; ch ","; RStar s_; AZ; RPlus az])]).

(** occupancy_status; group 1 is the whole of
    Occupied|Vacant|Available|Rented|Notice *)
Definition re_occupancy_status : regex :=
  RGroup 1 (RAlt (RLit "Occupied") (RAlt (RLit "Vacant")
           (RAlt (RLit "Available") (RAlt (RLit "Rented") (RLit "Notice"))))).

(** lease_status; group 1 is the whole of  No Notice|Notice|Unrented|Rented *)
Definition re_lease_status : regex :=
  RGroup 1 (RAlt (RLit "No Notice") (RAlt (RLit "Notice")
           (RAlt (RLit "Unrented") (RLit "Rented")))).

(** [re.compile(pattern, re.IGNORECASE)] *)
Definition compile_icase (r : regex) : pattern :=
  {| p_regex := r; p_icase := true |}.

Definition pat_unit_number := compile_icase re_unit_number.
Definition pat_unit_type := compile_icase re_unit_type.
Definition pat_rent_amount := compile_icase re_rent_amount.
Definition pat_square_feet := compile_icase re_square_feet.
Definition pat_date := compile_icase re_date.
Definition pat_tenant_name := compile_icase re_tenant_name.
Definition pat_occupancy_status := compile_icase re_occupancy_status.
Definition pat_lease_status := compile_icase re_lease_status.

(* ===================================================================== *)
(** ** Python values, records and exceptions *)
(* ===================================================================== *)

(** [datetime.date] *)
Record date := { d_year : Z; d_month : Z; d_day : Z }.

(** The values a field of a record can hold. *)
Inductive pyval :=
| VNone
| VStr (s : string)
| VInt (n : Z)
| VFloat (q : Q)
| VDecimal (q : Q)
| VDate (d : date)
| VList (l : list string).

(** A record of the pipeline: a dict from field names to values. *)
Abbreviation pydict := (gmap string pyval).

(** The exceptions the embedded code can raise. *)
Inductive exn :=
| FileNotFoundError
| RuntimeError
| ValueError
| TypeError.

(** The four failure conditions of the error taxonomy. *)
Inductive condition :=
| NotFound
| InvalidDocument
| OcrBackendUnavailable
| NoTextExtracted.

(** The condition an exception leaving [process_document] signals:
    [FileNotFoundError("PDF file not found")], [RuntimeError("Tesseract OCR
    is not available")] and [ValueError("No text could be extracted")].
    [TypeError] is not part of the taxonomy. *)
Definition signals (e : exn) : option condition :=
  match e with
  | FileNotFoundError => Some NotFound
  | RuntimeError => Some OcrBackendUnavailable
  | ValueError => Some NoTextExtracted
  | TypeError => None
  end.

Definition result (A : Type) : Type := exn + A.
Definition ret {A} (x : A) : result A := inr x.
Definition raise {A} (e : exn) : result A := inl e.
Definition bind {A B} (m : result A) (f : A -> result B) : result B :=
  match m with
  | inl e => inl e
  | inr x => f x
  end.

Notation "x <- m ;; f" := (bind m (fun x => f))
  (at level 100, m at next level, right associativity).

(** Sequencing a list of fallible computations, left to right. *)
Fixpoint mapM {A B} (f : A -> result B) (l : list A) : result (list B) :=
  match l with
  | [] => ret []
  | x :: l' => y <- f x ;; ys <- mapM f l' ;; ret (y :: ys)
  end.

Definition Qlt_bool (x y : Q) : bool := negb (Qle_bool y x).
Definition Qgt_bool (x y : Q) : bool := Qlt_bool y x.
Definition Qz (n : Z) : Q := inject_Z n.

(** Truth value of a value in a condition ([if v:], [not v], [a and b]). *)
Definition truthy (v : pyval) : bool :=
  match v with
  | VNone => false
  | VStr s => negb (String.eqb s "")
  | VInt n => negb (n =? 0)%Z
  | VFloat q => negb (Qeq_bool q 0)
  | VDecimal q => negb (Qeq_bool q 0)
  | VDate _ => true
  | VList l => match l with [] => false | _ => true end
  end.

(** [d.get(k)] in a condition. *)
Definition get_truthy (d : pydict) (k : string) : bool :=
  match d !! k with
  | Some v => truthy v
  | None => false
  end.

(** [d.get(k) == s] for a string literal [s]. *)
Definition get_is_str (d : pydict) (k s : string) : bool :=
  match d !! k with
  | Some (VStr t) => String.eqb t s
  | _ => false
  end.

(** A number written in plain decimal notation: optional sign, digits,
    optional point and digits, at least one digit, surrounding whitespace
    allowed. This is the part of the syntax of [float(str)] the embedding
    covers; the texts the extraction patterns capture all fall in it. *)
Definition split_point (l : chars) : chars * option chars :=
  (fix go (pre l : chars) : chars * option chars :=
     match l with
     | [] => (rev pre, None)
     | c :: l' =>
         if ascii_dec c "."%char then (rev pre, Some l')
         else go (c :: pre) l'
     end) [] l.

Definition unsigned_decimal (l : chars) : option Q :=
  let '(ip, fp) := split_point l in
  let fp := match fp with Some f => f | None => [] end in
  if forallb is_digit ip && forallb is_digit fp
     && negb ((length ip + length fp =? 0)%nat)
  then Some (Qred (Qmake (digits_val (ip ++ fp))
                         (Z.to_pos (10 ^ Z.of_nat (length fp)))))
  else None.

Definition parse_decimal (s : string) : option Q :=
  match strip_l (s2l s) with
  | "-"%char :: l => option_map Qopp (unsigned_decimal l)
  | "+"%char :: l => unsigned_decimal l
  | l => unsigned_decimal l
  end.

Definition parse_integer (s : string) : option Z :=
  let digits l :=
    match l with
    | [] => None
    | _ => if forallb is_digit l then Some (digits_val l) else None
    end in
  match strip_l (s2l s) with
  | "-"%char :: l => option_map Z.opp (digits l)
  | "+"%char :: l => digits l
  | l => digits l
  end.

(** [float(s)] for a string: [ValueError] when it is not a number. *)
Definition float_of_str (s : string) : result Q :=
  match parse_decimal s with
  | Some q => ret q
  | None => raise ValueError
  end.

(** [float(v)] *)
Definition py_float (v : pyval) : result Q :=
  match v with
  | VStr s => float_of_str s
  | VInt n => ret (Qz n)
  | VFloat q => ret q
  | VDecimal q => ret q
  | VNone | VDate _ | VList _ => raise TypeError
  end.

(** Truncation toward zero. *)
Definition Qtrunc (q : Q) : Z := Z.quot (Qnum q) (Z.pos (Qden q)).

(** [int(v)] *)
Definition py_int (v : pyval) : result Z :=
  match v with
  | VStr s => match parse_integer s with
              | Some n => ret n
              | None => raise ValueError
              end
  | VInt n => ret n
  | VFloat q => ret (Qtrunc q)
  | VDecimal q => ret (Qtrunc q)
  | VNone | VDate _ | VList _ => raise TypeError
  end.

(** [a + b] on numbers; [float + Decimal] is a [TypeError], as is any
    operand that is not a number. *)
Definition py_add (a b : pyval) : result pyval :=
  match a, b with
  | VInt x, VInt y => ret (VInt (x + y))
  | VInt x, VFloat y => ret (VFloat (Qz x + y))
  | VFloat x, VInt y => ret (VFloat (x + Qz y))
  | VFloat x, VFloat y => ret (VFloat (x + y))
  | VInt x, VDecimal y => ret (VDecimal (Qz x + y))
  | VDecimal x, VInt y => ret (VDecimal (x + Qz y))
  | VDecimal x, VDecimal y => ret (VDecimal (x + y))
  | _, _ => raise TypeError
  end.

(** [sum(l)]: starts from the integer 0. *)
Definition py_sum (l : list pyval) : result pyval :=
  fold_left (fun acc v => a <- acc ;; py_add a v) l (ret (VInt 0)).

(** [v / n] for a positive integer [n] (a length). *)
Definition py_div_len (v : pyval) (n : nat) : result pyval :=
  match v with
  | VInt x => ret (VFloat (Qz x / Qz (Z.of_nat n)))
  | VFloat x => ret (VFloat (x / Qz (Z.of_nat n)))
  | VDecimal x => ret (VDecimal (x / Qz (Z.of_nat n)))
  | _ => raise TypeError
  end.

(** [max(l)] of a non-empty list: the first of the largest elements. *)
Definition py_max (l : list Q) : option Q :=
  match l with
  | [] => None
  | x :: l' => Some (fold_left (fun m y => if Qlt_bool m y then y else m) l' x)
  end.

(** Equality and hashability of dict keys. *)
Definition hashable (v : pyval) : bool :=
  match v with
  | VList _ => false
  | _ => true
  end.

Definition date_eqb (a b : date) : bool :=
  ((d_year a =? d_year b) && (d_month a =? d_month b)
   && (d_day a =? d_day b))%Z.

Definition num_of (v : pyval) : option Q :=
  match v with
  | VInt n => Some (Qz n)
  | VFloat q | VDecimal q => Some q
  | _ => None
  end.

Definition py_eqb (a b : pyval) : bool :=
  match a, b with
  | VNone, VNone => true
  | VStr s, VStr t => String.eqb s t
  | VDate d, VDate e => date_eqb d e
  | VList l, VList m => if decide (l = m) then true else false
  | _, _ =>
      match num_of a, num_of b with
      | Some x, Some y => Qeq_bool x y
      | _, _ => false
      end
  end.

(* ===================================================================== *)
(** ** [datetime.strptime] for the formats of [parse_date] *)
(* ===================================================================== *)

(** The directives that occur in the six formats. *)
Inductive directive :=
| Dm                (* %m *)
| Dd                (* %d *)
| DY                (* %Y *)
| Dy                (* %y *)
| DLit (c : ascii). (* a literal character of the format *)

Abbreviation date_format := (list directive).

Definition r19 : regex := RChar (CRange "1" "9").

(** The expression [strptime] builds for a directive. The named groups
    m, d, Y and y are numbered 1, 2, 3 and 4:
    m is 1[0-2]|0[1-9]|[1-9], d is 3[0-1]|[1-2]\d|0[1-9]|[1-9]| [1-9],
    Y is \d\d\d\d and y is \d\d. *)
Definition re_directive (d : directive) : regex :=
  match d with
  | Dm => RGroup 1 (RAlt (RSeq (ch "1") (RChar (CRange "0" "2")))
                   (RAlt (RSeq (ch "0") r19) r19))
  | Dd => RGroup 2 (RAlt (RSeq (ch "3") (RChar (CRange "0" "1")))
                   (RAlt (RSeq (RChar (CRange "1" "2")) d_)
                   (RAlt (RSeq (ch "0") r19)
                   (RAlt r19 (RSeq (ch " ") r19)))))
  | DY => RGroup 3 (RRep 4 d_)
  | Dy => RGroup 4 (RRep 2 d_)
  | DLit c => ch c
  end.

Definition re_format (fmt : date_format) : regex := seq (map re_directive fmt).

Definition is_leap (y : Z) : bool :=
  ((y mod 4 =? 0) && (negb (y mod 100 =? 0) || (y mod 400 =? 0)))%Z.

Definition days_in_month (y m : Z) : Z :=
  if (m =? 2)%Z then (if is_leap y then 29 else 28)
  else if ((m =? 4) || (m =? 6) || (m =? 9) || (m =? 11))%Z then 30
  else 31.

(** [datetime.date(y, m, d)]: [ValueError] outside the calendar. *)
Definition mk_date (y m d : Z) : result date :=
  if ((1 <=? y) && (y <=? 9999) && (1 <=? m) && (m <=? 12)
      && (1 <=? d) && (d <=? days_in_month y m))%Z
  then ret {| d_year := y; d_month := m; d_day := d |}
  else raise ValueError.

(** [int(text)] of a group of digits, a leading space allowed. *)
Definition group_int (t : chars) : Z := digits_val (drop_while is_space t).

(** [datetime.strptime(s, fmt).date()]: the expression of the format is
    matched at the start of [s], ignoring case; text left over after the
    match, a missing match and a date outside the calendar are each a
    [ValueError]. A two-digit year up to 68 is in the 2000s, above in the
    1900s. *)
Definition strptime (s : string) (fmt : date_format) : result date :=
  match re_match_l true (re_format fmt) (s2l s) with
  | None => raise ValueError
  | Some m =>
      match m_rest m with
      | _ :: _ => raise ValueError
      | [] =>
          let g := m_groups m in
          let year :=
            match group_get 3 g, group_get 4 g with
            | Some t, _ => group_int t
            | None, Some t =>
                let y := group_int t in
                if (y <=? 68)%Z then 2000 + y else 1900 + y
            | None, None => 1900
            end in
          let month :=
            match group_get 1 g with Some t => group_int t | None => 1 end in
          let day :=
            match group_get 2 g with Some t => group_int t | None => 1 end in
          mk_date year month day
      end
  end.

Definition fmt_mdY_slash : date_format := [Dm; DLit "/"; Dd; DLit "/"; DY].
Definition fmt_mdY_dash : date_format := [Dm; DLit "-"; Dd; DLit "-"; DY].
Definition fmt_mdy_slash : date_format := [Dm; DLit "/"; Dd; DLit "/"; Dy].
Definition fmt_mdy_dash : date_format := [Dm; DLit "-"; Dd; DLit "-"; Dy].
Definition fmt_Ymd_dash : date_format := [DY; DLit "-"; Dm; DLit "-"; Dd].
Definition fmt_dmY_slash : date_format := [Dd; DLit "/"; Dm; DLit "/"; DY].

(** [date_formats] of [parse_date], in the order they are tried. *)
Definition date_formats : list date_format :=
  [ fmt_mdY_slash;   (* '%m/%d/%Y' *)
    fmt_mdY_dash;    (* '%m-%d-%Y' *)
    fmt_mdy_slash;   (* '%m/%d/%y' *)
    fmt_mdy_dash;    (* '%m-%d-%y' *)
    fmt_Ymd_dash;    (* '%Y-%m-%d' *)
    fmt_dmY_slash ]. (* '%d/%m/%Y' *)

Definition year_ok (d : date) : bool :=
  ((2000 <=? d_year d) && (d_year d <=? 2030))%Z.

(** The loop of [parse_date]: a format that raises [ValueError] is skipped,
    and so is one whose year is out of range; any other exception would
    leave the function. *)
Fixpoint parse_date_loop (stripped : string) (fmts : list date_format)
    : result (option date) :=
  match fmts with
  | [] => ret None
  | fmt :: rest =>
      match strptime stripped fmt with
      | inr parsed_date =>
          if year_ok parsed_date then ret (Some parsed_date)
          else parse_date_loop stripped rest
      | inl ValueError => parse_date_loop stripped rest
      | inl e => raise e
      end
  end.

(** [FinancialDataExtractor.parse_date] *)
Definition parse_date (date_str : string) : result (option date) :=
  if String.eqb date_str "" then ret None
  else parse_date_loop (strip date_str) date_formats.

(* ===================================================================== *)
(** ** [FinancialDataExtractor]: extraction from lines *)
(* ===================================================================== *)

Definition set_field (k : string) (v : pyval) (d : pydict) : pydict :=
  <[k := v]> d.

(** [if o: d[k] = f(o)] *)
Definition set_when {A} (o : option A) (k : string) (f : A -> pyval)
    (d : pydict) : pydict :=
  match o with
  | Some x => set_field k (f x) d
  | None => d
  end.

(** The amounts the table-row strategy keeps: every captured text is
    converted with [float(match.replace(',', ''))], a [ValueError] skips
    it, and only an amount above 100 is appended. *)
Definition table_amounts (rent_matches : list string) : list Q :=
  omap (fun m =>
          match float_of_str (replace "," "" m) with
          | inr amount => if Qgt_bool amount 100 then Some amount else None
          | inl _ => None
          end) rent_matches.

(** The amounts the line fallback keeps: as above without the test. *)
Definition line_amounts (rent_matches : list string) : list Q :=
  omap (fun m =>
          match float_of_str (replace "," "" m) with
          | inr amount => Some amount
          | inl _ => None
          end) rent_matches.

Definition non_names : list string :=
  ["Unit"; "Rent"; "Total"; "Notice"; "Occupied"; "Vacant"; "Status"].

(** The status keywords of [_parse_table_row], case-sensitive. *)
Definition table_status (line : string) : string :=
  if contains "Vacant" line || contains "Available" line then "vacant"
  else if contains "Occupied" line || contains "Rented" line then "occupied"
  else "unknown".

(** The dates of a row that [parse_date] accepts, in textual order. *)
Fixpoint parse_dates (date_matches : list string) : result (list date) :=
  match date_matches with
  | [] => ret []
  | date_str :: rest =>
      parsed_date <- parse_date date_str ;;
      parsed_dates <- parse_dates rest ;;
      ret (match parsed_date with
           | Some d => d :: parsed_dates
           | None => parsed_dates
           end)
  end.

(** The body of the [try] block of [_parse_table_row]. The two searches
    for the occupancy and lease status patterns of the source are left
    out: their results are never read. *)
Definition parse_table_row_body (line : string) : result (option pydict) :=
  let record : pydict := ∅ in
  (* unit number *)
  let record :=
    set_when (search pat_unit_number line) "unit_number"
             (fun m => VStr (m_group 1 m)) record in
  (* unit type *)
  let record :=
    set_when (search pat_unit_type line) "unit_type"
             (fun m => VStr (m_group 1 m)) record in
  (* rent amounts: the largest one above 100 *)
  let rent_matches := findall pat_rent_amount line in
  let record :=
    set_when (py_max (table_amounts rent_matches)) "rent_amount"
             VFloat record in
  (* occupancy status *)
  let record := set_field "status" (VStr (table_status line)) record in
  (* tenant name *)
  let record :=
    match search pat_tenant_name line with
    | Some tenant_match =>
        if get_is_str record "status" "occupied" then
          let tenant_name := strip (m_group 1 tenant_match) in
          if negb (existsb (fun word => contains word tenant_name) non_names)
          then set_field "tenant_name" (VStr tenant_name) record
          else record
        else record
    | None => record
    end in
  (* dates *)
  parsed_dates <- parse_dates (findall pat_date line) ;;
  let record :=
    match parsed_dates with
    | d0 :: d1 :: _ =>
        set_field "lease_end" (VDate d1)
                  (set_field "lease_start" (VDate d0) record)
    | [d0] => set_field "lease_start" (VDate d0) record
    | [] => record
    end in
  (* only a record with the essential data is returned *)
  ret (if get_truthy record "unit_number"
          && (get_truthy record "rent_amount" || get_truthy record "status")
       then Some record else None).

(** [_parse_table_row]: any exception of the body gives [None]. *)
Definition _parse_table_row (line : string) : option pydict :=
  match parse_table_row_body line with
  | inr r => r
  | inl _ => None
  end.

(** The status keywords of [_extract_from_line], on the lowered line. *)
Definition line_status (line : string) : option string :=
  if contains "vacant" (lower line) || contains "available" (lower line)
  then Some "vacant"
  else if contains "occupied" (lower line) || contains "rented" (lower line)
  then Some "occupied"
  else None.

Definition dict_nonempty (d : pydict) : bool :=
  match map_to_list d with
  | [] => false
  | _ => true
  end.

(** [_extract_from_line]: the fallback strategy. *)
Definition _extract_from_line (line : string) : option pydict :=
  let data : pydict := ∅ in
  (* unit number *)
  let data :=
    set_when (search pat_unit_number line) "unit_number"
             (fun m => VStr (m_group 1 m)) data in
  (* rent amount: the largest amount *)
  let rent_matches := findall pat_rent_amount line in
  let data :=
    set_when (py_max (line_amounts rent_matches)) "rent_amount" VFloat data in
  (* square feet *)
  let data :=
    match search pat_square_feet line with
    | Some sqft_match =>
        match py_int (VStr (replace "," "" (m_group 1 sqft_match))) with
        | inr n => set_field "area_sqft" (VInt n) data
        | inl _ => data
        end
    | None => data
    end in
  (* dates *)
  let data :=
    match findall pat_date line with
    | [] => data
    | date_matches => set_field "dates" (VList date_matches) data
    end in
  (* tenant name *)
  let data :=
    set_when (search pat_tenant_name line) "tenant_name"
             (fun m => VStr (m_group 1 m)) data in
  (* occupancy status *)
  let data := set_when (line_status line) "status" VStr data in
  if dict_nonempty data then Some data else None.

(** [_extract_table_data] *)
Definition is_table_line (line : string) : bool :=
  match search pat_unit_number line, findall pat_rent_amount line with
  | Some _, _ :: _ => true
  | _, _ => false
  end.

Definition _extract_table_data (text : string) : list pydict :=
  omap (fun line =>
          let line := strip line in
          if String.eqb line "" then None
          else if is_table_line line then
            match _parse_table_row line with
            | Some record => if dict_nonempty record then Some record else None
            | None => None
            end
          else None)
       (split_lines text).

(* ===================================================================== *)
(** ** [FinancialDataExtractor]: consolidation *)
(* ===================================================================== *)

(** One step of the inner loop of [_consolidate_data], for one key:
    [if value and (key not in acc or not acc[key]): acc[key] = value]. *)
Definition merge_field (old new : option pyval) : option pyval :=
  match new with
  | Some value =>
      if truthy value
         && negb (match old with Some o => truthy o | None => false end)
      then Some value else old
  | None => old
  end.

(** The inner loop over [point.items()]; the keys are independent. *)
Definition merge_point (acc point : pydict) : pydict :=
  merge merge_field acc point.

(** [units]: a dict from unit numbers to records, in insertion order. *)
Abbreviation units_dict := (list (pyval * pydict)).

Definition units_has (u : pyval) (units : units_dict) : bool :=
  existsb (fun e => py_eqb (fst e) u) units.

Definition units_merge (u : pyval) (point : pydict) (units : units_dict)
    : units_dict :=
  let units := if units_has u units then units else (units ++ [(u, ∅)])%list in
  map (fun e => if py_eqb (fst e) u then (fst e, merge_point (snd e) point)
                else e) units.

(** The grouping loop; a unit number that cannot be hashed raises. *)
Fixpoint group_points (data_points : list pydict) (units : units_dict)
    : result units_dict :=
  match data_points with
  | [] => ret units
  | point :: rest =>
      match point !! "unit_number" with
      | Some unit_num =>
          if truthy unit_num then
            if hashable unit_num
            then group_points rest (units_merge unit_num point units)
            else raise TypeError
          else group_points rest units
      | None => group_points rest units
      end
  end.

Definition default_status (unit_data : pydict) : pydict :=
  match unit_data !! "status" with
  | Some _ => unit_data
  | None =>
      set_field "status"
        (VStr (if get_truthy unit_data "tenant_name"
               then "occupied" else "vacant")) unit_data
  end.

(** [_consolidate_data] *)
Definition _consolidate_data (data_points : list pydict)
    : result (list pydict) :=
  units <- group_points data_points [] ;;
  ret (omap (fun e =>
               let unit_data := snd e in
               if get_truthy unit_data "unit_number"
               then Some (default_status unit_data) else None) units).

(** The fallback loop of [extract_structured_data] over the numbered
    lines. *)
Fixpoint fallback_points (line_num : nat) (lines : list string)
    : list pydict :=
  match lines with
  | [] => []
  | line :: rest =>
      let line := strip line in
      let others := fallback_points (S line_num) rest in
      if String.eqb line "" || (length (s2l line) <? 10)%nat then others
      else
        match _extract_from_line line with
        | Some data_point =>
            set_field "raw_text" (VStr line)
              (set_field "source_line" (VInt (Z.of_nat line_num + 1))
                         data_point) :: others
        | None => others
        end
  end.

(** [extract_structured_data] *)
Definition extract_structured_data (text : string) : result (list pydict) :=
  match _extract_table_data text with
  | [] => _consolidate_data (fallback_points 0 (split_lines text))
  | table_data => ret table_data
  end.

(* ===================================================================== *)
(** ** [FinancialDataExtractor]: validation and summary *)
(* ===================================================================== *)

(** What [logger.warning] records during validation. *)
Inductive warning :=
| UnusualRent (rent : Q) (unit_number : pyval)
| UnusualArea (area : Z) (unit_number : pyval).

Definition artifacts : list string := ["$"; ","; "rent"; "total"; "unit"].

(** The artifact loop: [tenant_name.replace(artifact, '').strip()] for
    each artifact in turn. *)
Definition remove_artifacts (tenant_name : string) : string :=
  fold_left (fun name artifact => strip (replace artifact "" name))
            artifacts tenant_name.

Definition name_ok (tenant_name : string) : bool :=
  (2 <? length (s2l tenant_name))%nat && isalpha (replace " " "" tenant_name).

Definition field_or_none (d : pydict) (k : string) : pyval :=
  match d !! k with
  | Some v => v
  | None => VNone
  end.

Section Validation.
(** [str(v)] for a value that is not a string; its exact rendering is
    left open. *)
Variable repr_other : pyval -> string.

Definition py_str (v : pyval) : string :=
  match v with
  | VStr s => s
  | _ => repr_other v
  end.

(** The rent block: [ValueError] and [TypeError] null the field. *)
Definition validate_rent (record : pydict) : result (pydict * list warning) :=
  if get_truthy record "rent_amount" then
    match py_float (field_or_none record "rent_amount") with
    | inr rent =>
        let log :=
          if Qlt_bool rent 0 || Qgt_bool rent 50000
          then [UnusualRent rent (field_or_none record "unit_number")]
          else [] in
        ret (set_field "rent_amount" (VDecimal rent) record, log)
    | inl ValueError | inl TypeError =>
        ret (set_field "rent_amount" VNone record, [])
    | inl e => raise e
    end
  else ret (record, []).

(** The area block. *)
Definition validate_area (record : pydict) : result (pydict * list warning) :=
  if get_truthy record "area_sqft" then
    match py_int (field_or_none record "area_sqft") with
    | inr area =>
        let log :=
          if ((area <? 100) || (10000 <? area))%Z
          then [UnusualArea area (field_or_none record "unit_number")]
          else [] in
        ret (set_field "area_sqft" (VInt area) record, log)
    | inl ValueError | inl TypeError =>
        ret (set_field "area_sqft" VNone record, [])
    | inl e => raise e
    end
  else ret (record, []).

(** The tenant-name block. *)
Definition validate_tenant (record : pydict) : pydict :=
  if get_truthy record "tenant_name" then
    let tenant_name :=
      remove_artifacts
        (strip (py_str (field_or_none record "tenant_name"))) in
    if name_ok tenant_name
    then set_field "tenant_name" (VStr tenant_name) record
    else set_field "tenant_name" VNone record
  else record.

(** The status block. *)
Definition validate_status (record : pydict) : pydict :=
  if get_truthy record "status" then record
  else set_field "status"
         (VStr (if get_truthy record "tenant_name"
                then "occupied" else "vacant")) record.

(** The body of the loop for a record that has a unit number. *)
Definition validate_record (record : pydict)
    : result (pydict * list warning) :=
  r1 <- validate_rent record ;;
  r2 <- validate_area (fst r1) ;;
  ret (validate_status (validate_tenant (fst r2)),
       (snd r1 ++ snd r2)%list).

(** [validate_extracted_data], with the warnings it logs. *)
Fixpoint validate_extracted_data (data : list pydict)
    : result (list pydict * list warning) :=
  match data with
  | [] => ret ([], [])
  | record :: rest =>
      if negb (get_truthy record "unit_number")
      then validate_extracted_data rest
      else
        r <- validate_record record ;;
        rs <- validate_extracted_data rest ;;
        ret (fst r :: fst rs, (snd r ++ snd rs)%list)
  end.
End Validation.

(** The records that count as occupied: [record.get('status') == 'occupied']. *)
Definition is_occupied (record : pydict) : bool :=
  get_is_str record "status" "occupied".

Definition count_occupied (data : list pydict) : nat :=
  length (filter (fun r => is_occupied r = true) data).

(** [[float(r['rent_amount']) for r in data if r.get('rent_amount')]] *)
Definition rent_amounts_of (data : list pydict) : result (list Q) :=
  mapM (fun r => py_float (field_or_none r "rent_amount"))
       (filter (fun r => get_truthy r "rent_amount" = true) data).

(** [[r['area_sqft'] for r in data if r.get('area_sqft')]] *)
Definition areas_of (data : list pydict) : list pyval :=
  map (fun r => field_or_none r "area_sqft")
      (filter (fun r => get_truthy r "area_sqft" = true) data).

(** [sum(l) if l else 0] and [sum(l) / len(l) if l else 0] *)
Definition sum_or_zero (l : list pyval) : result pyval :=
  match l with
  | [] => ret (VInt 0)
  | _ => py_sum l
  end.
Definition avg_or_zero (l : list pyval) : result pyval :=
  match l with
  | [] => ret (VInt 0)
  | _ => s <- py_sum l ;; py_div_len s (length l)
  end.

(** [occupied_units / total_units * 100] *)
Definition occupancy_rate_of (occupied_units total_units : nat) : pyval :=
  if (0 <? total_units)%nat
  then VFloat (Qz (Z.of_nat occupied_units) / Qz (Z.of_nat total_units) * 100)
  else VInt 0.

(** [extract_summary_statistics] *)
Definition extract_summary_statistics (data : list pydict) : result pydict :=
  match data with
  | [] => ret ∅
  | _ =>
      let total_units := length data in
      let occupied_units := count_occupied data in
      let vacant_units := (Z.of_nat total_units - Z.of_nat occupied_units)%Z in
      rent_amounts <- rent_amounts_of data ;;
      let rents := map VFloat rent_amounts in
      let areas := areas_of data in
      total_rent <- sum_or_zero rents ;;
      average_rent <- avg_or_zero rents ;;
      total_area <- sum_or_zero areas ;;
      average_area <- avg_or_zero areas ;;
      ret (set_field "average_area" average_area
          (set_field "total_area" total_area
          (set_field "average_rent" average_rent
          (set_field "total_rent" total_rent
          (set_field "occupancy_rate"
                     (occupancy_rate_of occupied_units total_units)
          (set_field "vacant_units" (VInt vacant_units)
          (set_field "occupied_units" (VInt (Z.of_nat occupied_units))
          (set_field "total_units" (VInt (Z.of_nat total_units)) ∅))))))))
  end.

(** [summary.get(k, 0)] *)
Definition get_or_zero (summary : pydict) (k : string) : pyval :=
  match summary !! k with
  | Some v => v
  | None => VInt 0
  end.

(* ===================================================================== *)
(** ** [OCRProcessor] and [DocumentParser] *)
(* ===================================================================== *)

(** A page as [pdfplumber] shows it: the result of [extract_text()]
    ([None] or a string) and of [extract_tables()] (tables of rows of
    cells, a cell being [None] or a string). *)
Record plumber_page := {
  pp_text : option string;
  pp_tables : list (list (list (option string)))
}.

(** What the libraries answer for one path.
    - [path_exists]: [Path(pdf_path).exists()];
    - [fitz_pages]: [fitz.open]; [None] when it raises, else for each page
      what [page.get_text()] returns, [None] when that call raises;
    - [plumber_pages]: [pdfplumber.open] and its page calls; [None] when
      any of them raises;
    - [tesseract_ok]: [pytesseract.get_tesseract_version()] returns;
    - [page_images]: [pdf2image.convert_from_path]; [None] when it raises,
      else for each page image what [pytesseract.image_to_string] returns
      for the preprocessed image, [None] when recognition raises. *)
Record pdf_env := {
  path_exists : bool;
  fitz_pages : option (list (option string));
  plumber_pages : option (list plumber_page);
  tesseract_ok : bool;
  page_images : option (list (option string))
}.

Definition page_marker (n : nat) : string :=
  "--- Page " ++ str_of_nat n ++ " ---".

(** The texts of a list of pages, [None] as soon as one access raises. *)
Fixpoint page_texts (pages : list (option string)) : option (list string) :=
  match pages with
  | [] => Some []
  | None :: _ => None
  | Some t :: rest => option_map (cons t) (page_texts rest)
  end.

Definition stripped_length (text : string) : nat := length (s2l (strip text)).

(** [is_machine_readable]: false for no page, else whether the first
    [min(3, total_pages)] pages hold more than 20 characters after
    stripping; false on any exception. *)
Definition is_machine_readable (env : pdf_env) : bool :=
  match fitz_pages env with
  | None => false
  | Some doc =>
      let total_pages := length doc in
      if (total_pages =? 0)%nat then false
      else
        let pages_to_check := Nat.min 3 total_pages in
        match page_texts (firstn pages_to_check doc) with
        | None => false
        | Some texts =>
            let text_length :=
              fold_left (fun acc text => (acc + stripped_length text)%nat)
                        texts 0%nat in
            (20 <? text_length)%nat
        end
  end.

(** Numbering from [start], as [enumerate] does. *)
Fixpoint enumerate_from {A} (start : nat) (l : list A) : list (nat * A) :=
  match l with
  | [] => []
  | x :: l' => (start, x) :: enumerate_from (S start) l'
  end.

Definition blank_line : string := nl ++ nl.

(** [extract_text_pymupdf]: the pages with content, each under its
    marker; the empty text on any exception. *)
Definition extract_text_pymupdf (env : pdf_env) : string :=
  match fitz_pages env with
  | None => ""
  | Some doc =>
      match page_texts doc with
      | None => ""
      | Some texts =>
          join blank_line
            (omap (fun '(page_num, text) =>
                     if is_blank text then None
                     else Some (page_marker (page_num + 1) ++ nl ++ text))
                  (enumerate_from 0 texts))
      end
  end.

Definition cell_truthy (cell : option string) : bool :=
  match cell with
  | Some c => negb (String.eqb c "")
  | None => false
  end.

Definition cell_text (cell : option string) : string :=
  match cell with
  | Some c => if String.eqb c "" then "" else c
  | None => ""
  end.

(** The rows of one table; a row without a non-empty cell is skipped. *)
Definition table_rows_text (table : list (list (option string))) : string :=
  fold_left
    (fun acc row =>
       if existsb cell_truthy row
       then acc ++ join " | " (map cell_text row) ++ nl
       else acc) table "".

Definition tables_text (tables : list (list (list (option string))))
    : string :=
  match tables with
  | [] => ""
  | _ =>
      fold_left
        (fun acc '(table_idx, table) =>
           acc ++ nl ++ "Table " ++ str_of_nat (table_idx + 1) ++ ":" ++ nl
               ++ table_rows_text table)
        (enumerate_from 0 tables) (nl ++ "=== TABLES ===" ++ nl)
  end.

Definition plumber_page_content (i : nat) (page : plumber_page) : string :=
  let page_content := page_marker (i + 1) ++ nl in
  let page_content :=
    match pp_text page with
    | Some text =>
        if String.eqb text "" then page_content
        else page_content ++ text ++ nl
    | None => page_content
    end in
  page_content ++ tables_text (pp_tables page).

(** [extract_text_pdfplumber]: text and tables of every page that has
    more than its marker; the empty text on any exception. *)
Definition extract_text_pdfplumber (env : pdf_env) : string :=
  match plumber_pages env with
  | None => ""
  | Some pages =>
      join blank_line
        (omap (fun '(i, page) =>
                 let page_content := plumber_page_content i page in
                 if String.eqb (strip page_content) (page_marker (i + 1))
                 then None else Some page_content)
              (enumerate_from 0 pages))
  end.

(** [OCRProcessor.extract_text_from_image]: stripped, empty on exception. *)
Definition extract_text_from_image (image : option string) : string :=
  match image with
  | Some text => strip text
  | None => ""
  end.

(** [OCRProcessor.pdf_to_images]: no image on exception. *)
Definition pdf_to_images (env : pdf_env) : list (option string) :=
  match page_images env with
  | Some images => images
  | None => []
  end.

(** [OCRProcessor.extract_text_from_pdf] *)
Definition extract_text_from_pdf (env : pdf_env) : string :=
  match pdf_to_images env with
  | [] => ""
  | images =>
      join blank_line
        (omap (fun '(i, image) =>
                 let text := extract_text_from_image image in
                 if String.eqb text "" then None
                 else Some (page_marker (i + 1) ++ nl ++ text))
              (enumerate_from 0 images))
  end.

(** [OCRProcessor.is_tesseract_available] *)
Definition is_tesseract_available (env : pdf_env) : bool := tesseract_ok env.

(** [validate_pdf_file]: the file exists, opens and has a page. The upload
    handler rejects a file for which this is false. *)
Definition validate_pdf_file (env : pdf_env) : bool :=
  if negb (path_exists env) then false
  else match fitz_pages env with
       | Some doc => (0 <? length doc)%nat
       | None => false
       end.

(** The text recovery of [process_document]: everything up to and
    including the test for an empty text. *)
Definition recover (env : pdf_env) : result string :=
  if negb (path_exists env) then raise FileNotFoundError
  else
    text <-
      (if is_machine_readable env then
         let text := extract_text_pdfplumber env in
         if is_blank text then ret (extract_text_pymupdf env) else ret text
       else if negb (is_tesseract_available env) then raise RuntimeError
       else ret (extract_text_from_pdf env)) ;;
    if is_blank text then raise ValueError else ret text.

Section Pipeline.
Variable repr_other : pyval -> string.

(** [process_document] *)
Definition process_document (env : pdf_env)
    : result (string * list pydict) :=
  text <- recover env ;;
  structured_data <- extract_structured_data text ;;
  validated <- validate_extracted_data repr_other structured_data ;;
  let validated_data := fst validated in
  _ <- match validated_data with
       | [] => ret ∅
       | _ => extract_summary_statistics validated_data
       end ;;
  ret (text, validated_data).
End Pipeline.

(** ['MBL' in v] and the like: substring for a string, membership for a
    list, [TypeError] for anything else. *)
Definition py_in (sub : string) (v : pyval) : result bool :=
  match v with
  | VStr s => ret (contains sub s)
  | VList l => ret (if decide (sub ∈ l) then true else false)
  | _ => raise TypeError
  end.

Definition get_default (d : pydict) (k : string) (default : pyval) : pyval :=
  match d !! k with
  | Some v => v
  | None => default
  end.

(** [isinstance(v, (int, float))] with the number it holds. *)
Definition int_or_float (v : pyval) : option Q :=
  match v with
  | VInt n => Some (Qz n)
  | VFloat q => Some q
  | _ => None
  end.

Definition rent_bracket (rent_amount : Q) : option string :=
  if Qgt_bool rent_amount 2000 then Some "3BR"
  else if Qgt_bool rent_amount 1500 then Some "2BR"
  else if Qgt_bool rent_amount 1000 then Some "1BR"
  else if Qgt_bool rent_amount 0 then Some "Studio"
  else None.

Definition area_bracket (area_sqft : Q) : option string :=
  if Qgt_bool area_sqft 1200 then Some "3BR"
  else if Qgt_bool area_sqft 800 then Some "2BR"
  else if Qgt_bool area_sqft 500 then Some "1BR"
  else if Qgt_bool area_sqft 0 then Some "Studio"
  else None.

(** The part of [_infer_unit_type] after the explicit type. *)
Definition infer_from_numbers (rent_amount area_sqft : pyval) : string :=
  match match int_or_float rent_amount with
        | Some r => rent_bracket r
        | None => None
        end with
  | Some t => t
  | None =>
      match match int_or_float area_sqft with
            | Some a => area_bracket a
            | None => None
            end with
      | Some t => t
      | None => "Unknown"
      end
  end.

(** [_infer_unit_type] *)
Definition _infer_unit_type (data : pydict) : result pyval :=
  let unit_type_raw := get_default data "unit_type" (VStr "") in
  let rent_amount := get_default data "rent_amount" (VInt 0) in
  let area_sqft := get_default data "area_sqft" (VInt 0) in
  if truthy unit_type_raw && negb (py_eqb unit_type_raw (VStr "Unknown")) then
    has_mbl <- py_in "MBL" unit_type_raw ;;
    if has_mbl then
      has2 <- py_in "2" unit_type_raw ;;
      if has2 then ret (VStr "2BR")
      else
        has3 <- py_in "3" unit_type_raw ;;
        if has3 then ret (VStr "3BR")
        else
          has1 <- py_in "1" unit_type_raw ;;
          if has1 then ret (VStr "1BR") else ret unit_type_raw
    else ret unit_type_raw
  else ret (VStr (infer_from_numbers rent_amount area_sqft)).

(* ===================================================================== *)
(** ** Documents and records used in the examples *)
(* ===================================================================== *)

(** A file that opens and has no page; no OCR engine is installed. *)
Definition zero_page_env : pdf_env :=
  {| path_exists := true;
     fitz_pages := Some [];
     plumber_pages := Some [];
     tesseract_ok := false;
     page_images := Some [] |}.

(** The same file on a machine with an OCR engine. *)
Definition zero_page_ocr_env : pdf_env :=
  {| path_exists := true;
     fitz_pages := Some [];
     plumber_pages := Some [];
     tesseract_ok := true;
     page_images := Some [] |}.

(** A four-page document whose first page has a text layer and whose last
    page cannot be read: the classifier, which looks at three pages, finds
    it machine-readable, and both direct extractions fail. *)
Definition blank_text_env : pdf_env :=
  {| path_exists := true;
     fitz_pages := Some [Some "Rent roll, printed on recycled paper";
                         Some ""; Some ""; None];
     plumber_pages := None;
     tesseract_ok := true;
     page_images := Some [Some "  "] |}.

(** A scanned page on which recognition finds nothing. *)
Definition scanned_blank_env : pdf_env :=
  {| path_exists := true;
     fitz_pages := Some [Some ""];
     plumber_pages := Some [{| pp_text := None; pp_tables := [] |}];
     tesseract_ok := true;
     page_images := Some [Some "   "] |}.

(** A machine-readable one-page rent roll. *)
Definition rent_roll_line : string := "02-105  MBL3AC60  $1,306.00  Vacant".
Definition rent_roll_env : pdf_env :=
  {| path_exists := true;
     fitz_pages := Some [Some rent_roll_line];
     plumber_pages :=
       Some [{| pp_text := Some rent_roll_line; pp_tables := [] |}];
     tesseract_ok := false;
     page_images := None |}.

Definition no_repr : pyval -> string := fun _ => "".

(* ===================================================================== *)
(** ** Notions used to state the properties *)
(* ===================================================================== *)

(** A record carries an explicit unit type [s]: a non-empty string other
    than "Unknown". *)
Definition explicit_type (data : pydict) (s : string) : Prop :=
  data !! "unit_type" = Some (VStr s) /\ s <> "" /\ s <> "Unknown".

(** A record carries no explicit unit type: the field is absent, empty,
    null or "Unknown". *)
Definition no_explicit_type (data : pydict) : Prop :=
  truthy (get_default data "unit_type" (VStr "")) = false
  \/ data !! "unit_type" = Some (VStr "Unknown").

(** The field [k] holds the int or float [q]; an absent field counts as
    the integer 0, as [data.get(k, 0)] does. *)
Definition plain_number (data : pydict) (k : string) (q : Q) : Prop :=
  int_or_float (get_default data k (VInt 0)) = Some q.

(** The field [k] gives no positive int or float: it is absent, null, or
    an int or float that is not above 0. *)
Definition no_positive_number (data : pydict) (k : string) : Prop :=
  data !! k = Some VNone
  \/ (exists q, plain_number data k q /\ (q <= 0)%Q).

Definition with_field (k : string) (v : pyval) : pydict := {[ k := v ]}.

(** A record with an MBL code and one with another explicit code. *)
Definition mbl_record : pydict :=
  <["rent_amount" := VFloat 1511]> (with_field "unit_type" (VStr "MBL2AC60")).
Definition other_code_record : pydict :=
  <["rent_amount" := VInt 1800]> (with_field "unit_type" (VStr "AB12")).






(** A record the summarizer can add up: a rent that is present is a
    number and an area that is present is an integer, as validation leaves
    them. *)
Definition is_number (v : pyval) : Prop := exists q, num_of v = Some q.
Definition summary_ready (r : pydict) : Prop :=
  (get_truthy r "rent_amount" = true ->
   is_number (field_or_none r "rent_amount"))
  /\ (get_truthy r "area_sqft" = true ->
      exists n, r !! "area_sqft" = Some (VInt n)).



(** A value that is an int or a float. *)
Definition int_or_float_val (v : pyval) : Prop :=
  exists q, int_or_float v = Some q.


(** [q] is a largest element of [l]. *)
Definition largest_in (q : Q) (l : list Q) : Prop :=
  In q l /\ forall a, In a l -> (a <= q)%Q.


(** The name contains none of the structural words. *)
Definition clear_of_non_names (name : string) : Prop :=
  forall word, In word non_names -> contains word name = false.

Definition small_fees_line : string := "Fee $50.00 and $20.00".
Definition header_line : string := "Total Rent Status".
Definition tenant_line : string := "Ann Lee 02-101 $1,200.00 Occupied".

(** Tests used to run the embedding on an example. *)
Definition is_some {A} (o : option A) : bool :=
  match o with Some _ => true | None => false end.
Definition is_ok {A} (m : result A) : bool :=
  match m with inr _ => true | inl _ => false end.

(** The record of a table row before the tenant and date steps. *)
Definition row_base (line : string) : pydict :=
  set_field "status" (VStr (table_status line))
    (set_when (py_max (table_amounts (findall pat_rent_amount line)))
              "rent_amount" VFloat
       (set_when (search pat_unit_type line) "unit_type"
                 (fun m => VStr (m_group 1 m))
          (set_when (search pat_unit_number line) "unit_number"
                    (fun m => VStr (m_group 1 m)) ∅))).

(** What the tenant step of a table row adds. *)
Definition row_tenant (line : string) : option string :=
  match search pat_tenant_name line with
  | Some m =>
      if String.eqb (table_status line) "occupied"
         && negb (existsb (fun word => contains word (strip (m_group 1 m)))
                          non_names)
      then Some (strip (m_group 1 m)) else None
  | None => None
  end.

(** The first non-empty value of field [k] in a list of field-sets. *)
Definition first_truthy (k : string) (ps : list pydict) : option pyval :=
  head (omap (fun p => match p !! k with
                       | Some v => if truthy v then Some v else None
                       | None => None
                       end) ps).

(** The field-sets of unit [u], in extraction order. *)
Definition points_of (u : string) (points : list pydict) : list pydict :=
  List.filter (fun p => get_is_str p "unit_number" u) points.

(** First-non-empty-wins: among the field-sets of unit [u], in extraction
    order, the first non-empty value of field [k]. *)
Definition first_nonempty (u k : string) (points : list pydict)
    : option pyval :=
  first_truthy k (points_of u points).

(** The unit number of a field-set, when it has one, is a string. *)
Definition string_unit (p : pydict) : Prop :=
  forall v, p !! "unit_number" = Some v -> truthy v = true ->
            exists s, v = VStr s.

Definition unit_of (r : pydict) : option pyval := r !! "unit_number".

(** The only record of a result, if it has exactly one. *)
Definition only_record (m : result (list pydict)) : option pydict :=
  match m with
  | inr [r] => Some r
  | _ => None
  end.

Definition rent_point (u : string) (rent : Z) : pydict :=
  <["rent_amount" := VInt rent]> (with_field "unit_number" (VStr u)).
Definition conflicting_points : list pydict :=
  [rent_point "01-101" 1500; rent_point "01-101" 1600].

(** What holds of every entry of [units]: the key is a non-empty string
    and the record under it carries it as unit number. *)
Definition entry_ok (e : pyval * pydict) : Prop :=
  exists s, fst e = VStr s /\ s <> "" /\ snd e !! "unit_number" = Some (VStr s).
Definition units_ok (units : units_dict) : Prop :=
  Forall entry_ok units /\ NoDup (map fst units).

(** The map step of [units_merge]. *)
Definition units_upd (s : string) (point : pydict) (units : units_dict)
    : units_dict :=
  map (fun e => if py_eqb (fst e) (VStr s)
                then (fst e, merge_point (snd e) point) else e) units.

(** The last step of [_consolidate_data] for one entry of [units]. *)
Definition consolidated_entry (e : pyval * pydict) : option pydict :=
  if get_truthy (snd e) "unit_number"
  then Some (default_status (snd e)) else None.

(** What a match of an expression is, as a relation: [rsem icase r a g g']
    holds when [r] can consume exactly the text [a], taking the groups
    from [g] to [g']. *)
Inductive rsem (icase : bool) : regex -> chars -> groups -> groups -> Prop :=
| S_eps g : rsem icase REps [] g g
| S_char cc c g :
    char_ok icase cc c = true -> rsem icase (RChar cc) [c] g g
| S_seq r1 r2 a b g g1 g2 :
    rsem icase r1 a g g1 -> rsem icase r2 b g1 g2 ->
    rsem icase (RSeq r1 r2) (a ++ b) g g2
| S_alt_l r1 r2 a g g1 :
    rsem icase r1 a g g1 -> rsem icase (RAlt r1 r2) a g g1
| S_alt_r r1 r2 a g g1 :
    rsem icase r2 a g g1 -> rsem icase (RAlt r1 r2) a g g1
| S_star_nil r g : rsem icase (RStar r) [] g g
| S_star_cons r a b g g1 g2 :
    rsem icase r a g g1 -> rsem icase (RStar r) b g1 g2 ->
    rsem icase (RStar r) (a ++ b) g g2
| S_group n r a g g1 :
    rsem icase r a g g1 -> rsem icase (RGroup n r) a g ((n, a) :: g1).

(** The texts of the date directives. *)
Definition all_digits (l : chars) : Prop := forallb is_digit l = true.
Definition one_or_two (l : chars) : Prop := length l = 1%nat \/ length l = 2%nat.
Definition month_text (l : chars) : Prop := one_or_two l /\ all_digits l.
Definition day_char (c : ascii) : bool :=
  is_digit c || (if ascii_dec c " " then true else false).
Definition day_text (l : chars) : Prop :=
  one_or_two l /\ forallb day_char l = true.
Definition year4_text (l : chars) : Prop := length l = 4%nat /\ all_digits l.
Definition year2_text (l : chars) : Prop := length l = 2%nat /\ all_digits l.

(** The year of a two-digit year text. *)
Definition century (y : Z) : Z := if (y <=? 68)%Z then 2000 + y else 1900 + y.

(** How a text that a format accepts is laid out, with the year it
    gives: month, day and four-digit year around a separator; the same
    with a two-digit year; or year first. *)
Inductive date_shape : chars -> Z -> Prop :=
| Shape_Y4 a b y sep :
    is_digit sep = false -> year4_text y ->
    date_shape (a ++ sep :: b ++ sep :: y) (group_int y)
| Shape_y2 m d y sep :
    is_digit sep = false -> month_text m -> year2_text y ->
    date_shape (m ++ sep :: d ++ sep :: y) (century (group_int y))
| Shape_Ymd y m d :
    year4_text y -> month_text m -> day_text d ->
    date_shape (y ++ "-"%char :: m ++ "-"%char :: d) (group_int y).

(** Every character a class accepts, ignoring case, satisfies [P]; a
    check over the 256 characters. *)
Definition class_within (P : ascii -> bool) (cc : cclass) : bool :=
  forallb (fun n => implb (char_ok true cc (ascii_of_nat n))
                          (P (ascii_of_nat n)))
          (List.seq 0 256).

(* ===================================================================== *)
(** ** Notions for the further properties *)
(* ===================================================================== *)

(** The text contains a decimal digit. *)
Definition has_digit (s : string) : bool := existsb is_digit (s2l s).

(** A continuation that never gives up. *)
Definition total_k {R} (k : chars -> groups -> option R) : Prop :=
  forall s g, exists x, k s g = Some x.

(** [r] finds a match on every input, given a continuation that never
    gives up. *)
Definition Always (r : regex) : Prop :=
  forall (R : Type) (s : chars) (g : groups) (k : chars -> groups -> option R),
    total_k k -> exists x, rmatch true r s g k = Some x.

(** [r] finds a match on every input that starts with a digit. *)
Definition Starts (r : regex) : Prop :=
  forall (R : Type) (c : ascii) (s : chars) (g : groups)
         (k : chars -> groups -> option R),
    is_digit c = true -> total_k k ->
    exists x, rmatch true r (c :: s) g k = Some x.

(** On an input that starts with a digit [r] consumes nothing and hands
    the input on. *)
Definition Skips (r : regex) : Prop :=
  forall (R : Type) (c : ascii) (s : chars) (g : groups)
         (k : chars -> groups -> option R),
    is_digit c = true -> rmatch true r (c :: s) g k = k (c :: s) g.

(** Every digit is in the class, or none is; checks over the 256
    characters. *)
Definition digits_in (cc : cclass) : bool :=
  forallb (fun n => implb (is_digit (ascii_of_nat n))
                          (char_ok true cc (ascii_of_nat n)))
          (List.seq 0 256).
Definition digits_out (cc : cclass) : bool :=
  forallb (fun n => implb (is_digit (ascii_of_nat n))
                          (negb (char_ok true cc (ascii_of_nat n))))
          (List.seq 0 256).

(** The fields of a validated record [r'], in terms of the record [r] it
    came from. *)
Definition validated_fields (repr_other : pyval -> string) (r r' : pydict)
    : Prop :=
  (forall k, k <> "rent_amount" -> k <> "area_sqft" -> k <> "tenant_name" ->
             k <> "status" -> r' !! k = r !! k)
  /\ ((get_truthy r "rent_amount" = false
       /\ r' !! "rent_amount" = r !! "rent_amount")
      \/ (get_truthy r "rent_amount" = true
          /\ ((exists q, py_float (field_or_none r "rent_amount") = inr q
                         /\ r' !! "rent_amount" = Some (VDecimal q))
              \/ ((exists e, py_float (field_or_none r "rent_amount") = inl e)
                  /\ r' !! "rent_amount" = Some VNone))))
  /\ ((get_truthy r "area_sqft" = false
       /\ r' !! "area_sqft" = r !! "area_sqft")
      \/ (get_truthy r "area_sqft" = true
          /\ ((exists n, py_int (field_or_none r "area_sqft") = inr n
                         /\ r' !! "area_sqft" = Some (VInt n))
              \/ ((exists e, py_int (field_or_none r "area_sqft") = inl e)
                  /\ r' !! "area_sqft" = Some VNone))))
  /\ ((get_truthy r "tenant_name" = false
       /\ r' !! "tenant_name" = r !! "tenant_name")
      \/ (get_truthy r "tenant_name" = true
          /\ ((exists s, r' !! "tenant_name" = Some (VStr s)
                         /\ name_ok s = true
                         /\ s = remove_artifacts
                                  (strip (py_str repr_other
                                            (field_or_none r "tenant_name"))))
              \/ r' !! "tenant_name" = Some VNone)))
  /\ ((get_truthy r "status" = true /\ r' !! "status" = r !! "status")
      \/ (get_truthy r "status" = false
          /\ r' !! "status"
             = Some (VStr (if get_truthy r' "tenant_name"
                           then "occupied" else "vacant")))).

(** A record as validation leaves it: a unit number and a status that
    count as true, a rent that is a [Decimal], an area that is an [int]
    and a tenant name that passed the name test, each where the field
    counts as true. *)
Definition clean_record (r : pydict) : Prop :=
  get_truthy r "unit_number" = true
  /\ get_truthy r "status" = true
  /\ (forall v, r !! "rent_amount" = Some v -> truthy v = true ->
        exists q, v = VDecimal q)
  /\ (forall v, r !! "area_sqft" = Some v -> truthy v = true ->
        exists n, v = VInt n)
  /\ (forall v, r !! "tenant_name" = Some v -> truthy v = true ->
        exists s, v = VStr s /\ name_ok s = true).

(** A record as [process_document] returns it. *)
Definition pipeline_record (r : pydict) : Prop :=
  (exists c t, r !! "unit_number" = Some (VStr (l2s (c :: t)))
               /\ is_digit c = true)
  /\ (r !! "status" = Some (VStr "vacant")
      \/ r !! "status" = Some (VStr "occupied")
      \/ r !! "status" = Some (VStr "unknown"))
  /\ (forall v, r !! "rent_amount" = Some v ->
        exists q, v = VDecimal q /\ (100 < q)%Q)
  /\ r !! "area_sqft" = None
  /\ (forall v, r !! "tenant_name" = Some v -> truthy v = true ->
        r !! "status" = Some (VStr "occupied")
        /\ exists s, v = VStr s /\ name_ok s = true).

(** The characters of a page marker. *)
Definition marker_char (c : ascii) : bool :=
  is_digit c || existsb (Ascii.eqb c) (s2l "- Page").

(** A text that opens with the marker of a page. *)
Definition marked (x : string) : Prop :=
  exists k rest, (1 <= k)%nat /\ x = page_marker k ++ nl ++ rest.

(** A date of the calendar. *)
Definition calendar_date (d : date) : Prop :=
  1 <= d_month d <= 12 /\ 1 <= d_day d <= days_in_month (d_year d) (d_month d).

(** A document whose text starts on its fourth page, and the same
    document cut after three pages. *)
Definition late_text_env : pdf_env :=
  {| path_exists := true;
     fitz_pages := Some [Some ""; Some ""; Some "";
                         Some "02-105  MBL3AC60  $1,306.00  Vacant"];
     plumber_pages := None;
     tesseract_ok := false;
     page_images := None |}.
Definition three_blank_pages_env : pdf_env :=
  {| path_exists := true;
     fitz_pages := Some [Some ""; Some ""; Some ""];
     plumber_pages := None;
     tesseract_ok := false;
     page_images := None |}.

(** A record without an empty value: every field it has counts as
    true. *)
Definition all_truthy (d : pydict) : Prop :=
  forall k v, d !! k = Some v -> truthy v = true.

(** A pdfplumber page without content: no table, and no text or a blank
    one. *)
Definition plumber_page_empty (page : plumber_page) : Prop :=
  pp_tables page = []
  /\ match pp_text page with
     | Some text => is_blank text = true
     | None => True
     end.

(* ===================================================================== *)
(** ** [DocumentParser]: the records for the database *)
(* ===================================================================== *)



(** The keyword arguments of one [LeaseCreate(...)] call. *)
Record lease_create := {
  lc_unit_id : Z;
  lc_tenant_name : pyval;
  lc_lease_start : pyval;
  lc_lease_end : pyval;
  lc_move_in_date : pyval;
  lc_move_out_date : pyval;
  lc_total_amount : pyval;
  lc_status : string
}.

(** [unit_number in unit_mapping] with [unit_mapping[unit_number]]: the
    keys of the mapping are the unit numbers of the stored units, which
    are strings; a list cannot be hashed. *)
Definition mapping_get (unit_mapping : gmap string Z) (unit_number : pyval)
    : result (option Z) :=
  match unit_number with
  | VStr s => ret (unit_mapping !! s)
  | VList _ => raise TypeError
  | _ => ret None
  end.

(** [create_lease_records]: the [LeaseCreate] calls, in order. *)
Fixpoint create_lease_records (structured_data : list pydict)
    (unit_mapping : gmap string Z) : result (list lease_create) :=
  match structured_data with
  | [] => ret []
  | data :: rest =>
      let unit_number := field_or_none data "unit_number" in
      let tenant_name := field_or_none data "tenant_name" in
      unit_id <-
        (if truthy unit_number && truthy tenant_name
         then mapping_get unit_mapping unit_number else ret None) ;;
      leases <- create_lease_records rest unit_mapping ;;
      ret (match unit_id with
           | Some id =>
               {| lc_unit_id := id;
                  lc_tenant_name := tenant_name;
                  lc_lease_start := field_or_none data "lease_start";
                  lc_lease_end := field_or_none data "lease_end";
                  lc_move_in_date := field_or_none data "move_in_date";
                  lc_move_out_date := field_or_none data "move_out_date";
                  lc_total_amount := field_or_none data "total_amount";
                  lc_status := "active" |} :: leases
           | None => leases
           end)
  end.


(** The record a lease was made of. *)
Definition lease_of (unit_mapping : gmap string Z) (data : pydict)
    (lease : lease_create) : Prop :=
  (exists u, data !! "unit_number" = Some (VStr u)
             /\ unit_mapping !! u = Some (lc_unit_id lease))
  /\ lc_tenant_name lease = field_or_none data "tenant_name"
  /\ truthy (lc_tenant_name lease) = true
  /\ lc_lease_start lease = field_or_none data "lease_start"
  /\ lc_lease_end lease = field_or_none data "lease_end"
  /\ lc_status lease = "active".

(** A unit mapping that knows the units of the examples. *)
Definition example_mapping : gmap string Z :=
  <["1" := 10]> (<["02-105" := 11]> ∅).








(* ===================================================================== *)
(** ** [StorageManager._split_text]: the chunks of the recovered text *)
(* ===================================================================== *)

(** An index of a slice as Python reads it for a sequence of length [n]:
    a negative index counts from the end, and the result is brought
    within [0..n]. *)
Definition py_index (n i : Z) : Z :=
  (if i <? 0 then Z.max (i + n) 0 else Z.min i n)%Z.

(** [l[start:stop]] *)
Definition py_slice (l : chars) (start stop : Z) : chars :=
  let n := Z.of_nat (length l) in
  let s := py_index n start in
  let e := py_index n stop in
  firstn (Z.to_nat (e - s)%Z) (skipn (Z.to_nat s) l).

(** [s.rfind(c)]: the highest index of [c], or [-1]. *)
Fixpoint rfind_from (c : ascii) (l : chars) (i found : Z) : Z :=
  match l with
  | [] => found
  | x :: l' =>
      rfind_from c l' (i + 1)%Z (if ascii_dec x c then i else found)
  end.
Definition rfind (c : ascii) (l : chars) : Z := rfind_from c l 0%Z (-1)%Z.

(** The loop of [_split_text]; [None] when the fuel runs out, that is
    when the loop has not ended after [fuel] turns. The product
    [chunk_size * 0.7] is taken exactly; for the default size it is
    exactly 700. *)
Fixpoint split_loop (fuel : nat) (text : chars) (chunk_size overlap : Z)
    (start : Z) (chunks : list string) : option (list string) :=
  match fuel with
  | O => None
  | S fuel' =>
      let len := Z.of_nat (length text) in
      if (start <? len)%Z then
        let end_ := (start + chunk_size)%Z in
        let chunk := py_slice text start end_ in
        let end_ :=
          if (end_ <? len)%Z then
            let last_period := rfind "." chunk in
            if Qlt_bool (Qz chunk_size * (7 # 10)) (Qz last_period)
            then (start + last_period + 1)%Z else end_
          else end_ in
        let chunk := py_slice text start end_ in
        let chunks := (chunks ++ [l2s (strip_l chunk)])%list in
        let start := (end_ - overlap)%Z in
        if (len <=? start)%Z then Some chunks
        else split_loop fuel' text chunk_size overlap start chunks
      else Some chunks
  end.

(** [_split_text(text, chunk_size, overlap)] *)
Definition _split_text (fuel : nat) (text : string)
    (chunk_size overlap : Z) : option (list string) :=
  split_loop fuel (s2l text) chunk_size overlap 0%Z [].

(** [_split_text(text)] with the default size and overlap, the only way
    the source calls it. *)
Definition split_text_default (fuel : nat) (text : string)
    : option (list string) :=
  _split_text fuel text 1000 200.

(** A text of [n] letters. *)
Definition letters (n : nat) : string := l2s (repeat "a"%char n).

(* ===================================================================== *)
(** * Properties *)
(* ===================================================================== *)

(** ** General facts *)

Lemma signals_never_invalid (e : exn) : signals e <> Some InvalidDocument.
Proof. destruct e; discriminate. Qed.

Lemma bind_inr {A B} (m : result A) (f : A -> result B) (y : B) :
  bind m f = inr y -> exists x, m = inr x /\ f x = inr y.
Proof. destruct m as [e | x]; simpl; [discriminate | eauto]. Qed.

Lemma bind_inl {A B} (e : exn) (f : A -> result B) : bind (inl e) f = inl e.
Proof. reflexivity. Qed.

Lemma is_some_true {A} (o : option A) :
  is_some o = true -> exists x, o = Some x.
Proof. destruct o; [eauto | discriminate]. Qed.

Lemma is_ok_true {A} (m : result A) :
  is_ok m = true -> exists x, m = inr x.
Proof. destruct m; [discriminate | eauto]. Qed.

(** ** Text recovery and the failure conditions *)

Lemma recover_not_blank (env : pdf_env) (text : string) :
  recover env = inr text -> is_blank text = false.
Proof.
  unfold recover. destruct (negb (path_exists env)); [discriminate |].
  intros H. apply bind_inr in H as (t & _ & H).
  destruct (is_blank t) eqn:Hb; [discriminate |].
  injection H as <-. exact Hb.
Qed.

Lemma process_document_recover repr_other env e :
  recover env = inl e -> process_document repr_other env = inl e.
Proof. unfold process_document. intros ->. reflexivity. Qed.

Lemma is_machine_readable_no_page (env : pdf_env) :
  fitz_pages env = Some [] -> is_machine_readable env = false.
Proof. unfold is_machine_readable. intros ->. reflexivity. Qed.

Lemma recover_ocr_unavailable (env : pdf_env) :
  path_exists env = true -> is_machine_readable env = false ->
  tesseract_ok env = false -> recover env = inl RuntimeError.
Proof.
  intros He Hr Ht. unfold recover, is_tesseract_available.
  rewrite He, Hr, Ht. reflexivity.
Qed.

Lemma recover_ocr_blank (env : pdf_env) :
  path_exists env = true -> is_machine_readable env = false ->
  tesseract_ok env = true -> is_blank (extract_text_from_pdf env) = true ->
  recover env = inl ValueError.
Proof.
  intros He Hr Ht Hb. unfold recover, is_tesseract_available.
  rewrite He, Hr, Ht. simpl. rewrite Hb. reflexivity.
Qed.

Lemma recover_direct_blank (env : pdf_env) :
  path_exists env = true -> is_machine_readable env = true ->
  is_blank (extract_text_pdfplumber env) = true ->
  is_blank (extract_text_pymupdf env) = true ->
  recover env = inl ValueError.
Proof.
  intros He Hr Hp Hm. unfold recover.
  rewrite He, Hr, Hp. simpl. rewrite Hm. reflexivity.
Qed.

(** C1 (as amended). A PDF with zero pages is classified not
    machine-readable and fails the upload check [validate_pdf_file];
    [process_document] on it raises the OCR-unavailable condition when no
    OCR engine is present and otherwise the no-text condition when OCR
    yields only whitespace; no exception it raises signals
    [InvalidDocument]. *)
Theorem zero_page_document (repr_other : pyval -> string) (env : pdf_env) :
  fitz_pages env = Some [] ->
  is_machine_readable env = false
  /\ validate_pdf_file env = false
  /\ (path_exists env = true -> tesseract_ok env = false ->
      process_document repr_other env = inl RuntimeError
      /\ signals RuntimeError = Some OcrBackendUnavailable)
  /\ (path_exists env = true -> tesseract_ok env = true ->
      is_blank (extract_text_from_pdf env) = true ->
      process_document repr_other env = inl ValueError
      /\ signals ValueError = Some NoTextExtracted)
  /\ (forall e, process_document repr_other env = inl e ->
      signals e <> Some InvalidDocument).
Proof.
  intros Hz. pose proof (is_machine_readable_no_page env Hz) as Hr.
  split; [exact Hr |]. split.
  { unfold validate_pdf_file. rewrite Hz. destruct (path_exists env); reflexivity. }
  split; [| split].
  - intros He Ht. split; [| reflexivity].
    apply process_document_recover, recover_ocr_unavailable; assumption.
  - intros He Ht Hb. split; [| reflexivity].
    apply process_document_recover, recover_ocr_blank; assumption.
  - intros e _. apply signals_never_invalid.
Qed.

Lemma zero_page_document_witness :
  is_machine_readable zero_page_env = false
  /\ process_document no_repr zero_page_env = inl RuntimeError
  /\ process_document no_repr zero_page_ocr_env = inl ValueError.
Proof.
  destruct (zero_page_document no_repr zero_page_env eq_refl)
    as (H1 & _ & H2 & _).
  destruct (zero_page_document no_repr zero_page_ocr_env eq_refl)
    as (_ & _ & _ & H3 & _).
  split; [exact H1 |]. split.
  - apply H2; reflexivity.
  - apply H3; reflexivity.
Defined.

(** C1 as stated fails: on a zero-page PDF the pipeline raises, but the
    exception is the OCR-unavailable one, not [InvalidDocument]. *)
Lemma zero_page_not_invalid_document :
  fitz_pages zero_page_env = Some []
  /\ process_document no_repr zero_page_env = inl RuntimeError
  /\ ~ (exists e, process_document no_repr zero_page_env = inl e
                  /\ signals e = Some InvalidDocument).
Proof.
  split; [reflexivity |]. split; [reflexivity |].
  intros (e & _ & He). exact (signals_never_invalid e He).
Qed.

(** C2. [process_document] never returns a text that is empty or only
    whitespace: when the direct extraction and its fallback, or the OCR
    path, give such a text it raises the no-text condition, and when the
    document is not machine-readable and no OCR engine is present it
    raises the OCR-unavailable condition. *)
Theorem process_document_text_not_blank
    (repr_other : pyval -> string) (env : pdf_env) :
  (forall text data,
      process_document repr_other env = inr (text, data) ->
      is_blank text = false)
  /\ (path_exists env = true -> is_machine_readable env = true ->
      is_blank (extract_text_pdfplumber env) = true ->
      is_blank (extract_text_pymupdf env) = true ->
      process_document repr_other env = inl ValueError)
  /\ (path_exists env = true -> is_machine_readable env = false ->
      tesseract_ok env = true ->
      is_blank (extract_text_from_pdf env) = true ->
      process_document repr_other env = inl ValueError)
  /\ (path_exists env = true -> is_machine_readable env = false ->
      tesseract_ok env = false ->
      process_document repr_other env = inl RuntimeError)
  /\ signals ValueError = Some NoTextExtracted
  /\ signals RuntimeError = Some OcrBackendUnavailable.
Proof.
  split; [| split; [| split; [| split; [| split; reflexivity]]]].
  - intros text data H. unfold process_document in H.
    apply bind_inr in H as (t & Hrec & H).
    apply bind_inr in H as (sd & _ & H).
    apply bind_inr in H as (v & _ & H).
    apply bind_inr in H as (sm & _ & H).
    injection H as <- _. exact (recover_not_blank env t Hrec).
  - intros. apply process_document_recover, recover_direct_blank; assumption.
  - intros. apply process_document_recover, recover_ocr_blank; assumption.
  - intros. apply process_document_recover, recover_ocr_unavailable; assumption.
Qed.

Lemma process_document_text_not_blank_witness :
  process_document no_repr blank_text_env = inl ValueError
  /\ process_document no_repr scanned_blank_env = inl ValueError
  /\ process_document no_repr zero_page_env = inl RuntimeError
  /\ (exists text data,
         process_document no_repr rent_roll_env = inr (text, data)
         /\ is_blank text = false).
Proof.
  split; [| split; [| split]].
  - destruct (process_document_text_not_blank no_repr blank_text_env)
      as (_ & H & _).
    apply H; vm_compute; reflexivity.
  - destruct (process_document_text_not_blank no_repr scanned_blank_env)
      as (_ & _ & H & _).
    apply H; vm_compute; reflexivity.
  - destruct (process_document_text_not_blank no_repr zero_page_env)
      as (_ & _ & _ & H & _).
    apply H; vm_compute; reflexivity.
  - destruct (is_ok_true (process_document no_repr rent_roll_env))
      as ([text data] & H); [vm_compute; reflexivity |].
    exists text, data. split; [exact H |].
    exact (proj1 (process_document_text_not_blank no_repr rent_roll_env)
                 text data H).
Defined.

(** ** Comparisons of rationals *)

Lemma Qgt_bool_true (a b : Q) : Qgt_bool a b = true <-> (b < a)%Q.
Proof.
  unfold Qgt_bool, Qlt_bool. rewrite negb_true_iff.
  split.
  - intros H. apply Qnot_le_lt. intros Hle.
    apply Qle_bool_iff in Hle. congruence.
  - intros H. destruct (Qle_bool a b) eqn:E; [| reflexivity].
    apply Qle_bool_iff in E. exfalso. exact (Qlt_not_le _ _ H E).
Qed.

Lemma Qgt_bool_false (a b : Q) : Qgt_bool a b = false <-> (a <= b)%Q.
Proof.
  unfold Qgt_bool, Qlt_bool. rewrite negb_false_iff. apply Qle_bool_iff.
Qed.

Lemma Qlt_bool_true (a b : Q) : Qlt_bool a b = true <-> (a < b)%Q.
Proof. exact (Qgt_bool_true b a). Qed.

Lemma Qlt_bool_false (a b : Q) : Qlt_bool a b = false <-> (b <= a)%Q.
Proof. exact (Qgt_bool_false b a). Qed.

(** ** The summary of an empty list *)

(** C7 (as amended). For the empty record list the summarizer does not
    raise and returns the empty mapping: none of the statistics is present
    in it, and reading any of them with the default 0, as the pipeline
    does, gives 0. *)
Theorem summary_of_no_record :
  exists summary : pydict,
    extract_summary_statistics [] = inr summary
    /\ summary = ∅
    /\ (forall k, summary !! k = None)
    /\ (forall k, get_or_zero summary k = VInt 0).
Proof.
  exists ∅. split; [reflexivity |]. split; [reflexivity |]. split.
  - intros k. apply lookup_empty.
  - intros k. unfold get_or_zero. rewrite lookup_empty. reflexivity.
Qed.

(** C7 as stated fails: the summary of the empty list has no
    [total_units] entry, so the count is not present and equal to zero. *)
Lemma summary_of_no_record_has_no_count :
  ~ (exists summary : pydict,
        extract_summary_statistics [] = inr summary
        /\ summary !! "total_units" = Some (VInt 0)).
Proof.
  intros (summary & H & Hk). simpl in H. injection H as <-.
  rewrite lookup_empty in Hk. discriminate Hk.
Qed.

(** ** Unit-type inference *)

Lemma truthy_str (s : string) : s <> "" -> truthy (VStr s) = true.
Proof.
  intros H. simpl. apply negb_true_iff. apply String.eqb_neq. exact H.
Qed.

Lemma infer_explicit (data : pydict) (s : string) :
  explicit_type data s ->
  _infer_unit_type data =
    (if contains "MBL" s then
       if contains "2" s then ret (VStr "2BR")
       else if contains "3" s then ret (VStr "3BR")
       else if contains "1" s then ret (VStr "1BR")
       else ret (VStr s)
     else ret (VStr s)).
Proof.
  intros (Hl & Hne & Hu). unfold _infer_unit_type, get_default.
  rewrite Hl, (truthy_str s Hne). simpl py_eqb.
  apply String.eqb_neq in Hu. rewrite Hu. simpl.
  destruct (contains "MBL" s); [| reflexivity]. simpl.
  destruct (contains "2" s); [reflexivity |]. simpl.
  destruct (contains "3" s); [reflexivity |]. simpl.
  destruct (contains "1" s); reflexivity.
Qed.

Lemma infer_no_explicit (data : pydict) :
  no_explicit_type data ->
  _infer_unit_type data =
    ret (VStr (infer_from_numbers (get_default data "rent_amount" (VInt 0))
                                  (get_default data "area_sqft" (VInt 0)))).
Proof.
  intros [H | H]; unfold _infer_unit_type.
  - rewrite H. reflexivity.
  - unfold get_default at 1 2. rewrite H. reflexivity.
Qed.

Lemma rent_bracket_none (q : Q) : (q <= 0)%Q -> rent_bracket q = None.
Proof.
  intros H. unfold rent_bracket.
  assert (Hc : forall c : Q, (0 <= c)%Q -> Qgt_bool q c = false).
  { intros c Hc. apply Qgt_bool_false. eapply Qle_trans; eassumption. }
  rewrite !Hc by (unfold Qle; simpl; lia). reflexivity.
Qed.

Lemma area_bracket_none (q : Q) : (q <= 0)%Q -> area_bracket q = None.
Proof.
  intros H. unfold area_bracket.
  assert (Hc : forall c : Q, (0 <= c)%Q -> Qgt_bool q c = false).
  { intros c Hc. apply Qgt_bool_false. eapply Qle_trans; eassumption. }
  rewrite !Hc by (unfold Qle; simpl; lia). reflexivity.
Qed.

Lemma no_positive_rent (data : pydict) :
  no_positive_number data "rent_amount" ->
  match int_or_float (get_default data "rent_amount" (VInt 0)) with
  | Some r => rent_bracket r
  | None => None
  end = None.
Proof.
  intros [H | (q & Hq & Hle)].
  - unfold get_default. rewrite H. reflexivity.
  - unfold plain_number in Hq. rewrite Hq. apply rent_bracket_none, Hle.
Qed.

Lemma no_positive_area (data : pydict) :
  no_positive_number data "area_sqft" ->
  match int_or_float (get_default data "area_sqft" (VInt 0)) with
  | Some r => area_bracket r
  | None => None
  end = None.
Proof.
  intros [H | (q & Hq & Hle)].
  - unfold get_default. rewrite H. reflexivity.
  - unfold plain_number in Hq. rewrite Hq. apply area_bracket_none, Hle.
Qed.

(** Deciding a comparison with a constant from the bounds at hand. *)
Ltac q_above := rewrite (proj2 (Qgt_bool_true _ _)) by assumption.
Ltac q_below :=
  rewrite (proj2 (Qgt_bool_false _ _))
    by (eapply Qle_trans; [eassumption | unfold Qle; simpl; lia]).

Lemma rent_bracket_cases (r : Q) :
  ((2000 < r)%Q -> rent_bracket r = Some "3BR")
  /\ ((1500 < r)%Q -> (r <= 2000)%Q -> rent_bracket r = Some "2BR")
  /\ ((1000 < r)%Q -> (r <= 1500)%Q -> rent_bracket r = Some "1BR")
  /\ ((0 < r)%Q -> (r <= 1000)%Q -> rent_bracket r = Some "Studio").
Proof.
  unfold rent_bracket. repeat split; intros.
  - q_above. reflexivity.
  - q_below. q_above. reflexivity.
  - q_below. q_below. q_above. reflexivity.
  - q_below. q_below. q_below. q_above. reflexivity.
Qed.

Lemma area_bracket_cases (a : Q) :
  ((1200 < a)%Q -> area_bracket a = Some "3BR")
  /\ ((800 < a)%Q -> (a <= 1200)%Q -> area_bracket a = Some "2BR")
  /\ ((500 < a)%Q -> (a <= 800)%Q -> area_bracket a = Some "1BR")
  /\ ((0 < a)%Q -> (a <= 500)%Q -> area_bracket a = Some "Studio").
Proof.
  unfold area_bracket. repeat split; intros.
  - q_above. reflexivity.
  - q_below. q_above. reflexivity.
  - q_below. q_below. q_above. reflexivity.
  - q_below. q_below. q_below. q_above. reflexivity.
Qed.

Lemma infer_rent (data : pydict) (r : Q) (t : string) :
  no_explicit_type data -> plain_number data "rent_amount" r ->
  rent_bracket r = Some t -> _infer_unit_type data = inr (VStr t).
Proof.
  intros Hn Hr Hb. rewrite (infer_no_explicit data Hn).
  unfold infer_from_numbers. unfold plain_number in Hr.
  rewrite Hr, Hb. reflexivity.
Qed.

Lemma infer_area (data : pydict) (a : Q) (t : string) :
  no_explicit_type data -> no_positive_number data "rent_amount" ->
  plain_number data "area_sqft" a ->
  area_bracket a = Some t -> _infer_unit_type data = inr (VStr t).
Proof.
  intros Hn Hr Ha Hb. rewrite (infer_no_explicit data Hn).
  unfold infer_from_numbers. rewrite (no_positive_rent data Hr).
  unfold plain_number in Ha. rewrite Ha, Hb. reflexivity.
Qed.

(** C5 (as amended). An explicit unit type (a non-empty string other than
    "Unknown") that contains MBL and exactly one of the digits 1, 2, 3 is
    mapped to 1BR, 2BR, 3BR; an explicit type without MBL, or with MBL and
    none of these digits, is returned as it is. Only without an explicit
    type do the brackets apply: the rent brackets for a rent held as an
    int or float, then the area brackets when there is no positive rent,
    else "Unknown". Rent 1800 gives 2BR, rent 2500 gives 3BR and area 600
    without a rent gives 1BR. *)
Theorem infer_unit_type_rules (data : pydict) :
  (forall s, explicit_type data s -> contains "MBL" s = true ->
     (contains "1" s = true -> contains "2" s = false ->
      contains "3" s = false -> _infer_unit_type data = inr (VStr "1BR"))
     /\ (contains "2" s = true -> contains "1" s = false ->
         contains "3" s = false -> _infer_unit_type data = inr (VStr "2BR"))
     /\ (contains "3" s = true -> contains "1" s = false ->
         contains "2" s = false -> _infer_unit_type data = inr (VStr "3BR")))
  /\ (forall s, explicit_type data s ->
        contains "MBL" s = false
        \/ (contains "1" s = false /\ contains "2" s = false
            /\ contains "3" s = false) ->
        _infer_unit_type data = inr (VStr s))
  /\ (no_explicit_type data ->
      (forall r, plain_number data "rent_amount" r ->
         ((2000 < r)%Q -> _infer_unit_type data = inr (VStr "3BR"))
         /\ ((1500 < r)%Q -> (r <= 2000)%Q ->
             _infer_unit_type data = inr (VStr "2BR"))
         /\ ((1000 < r)%Q -> (r <= 1500)%Q ->
             _infer_unit_type data = inr (VStr "1BR"))
         /\ ((0 < r)%Q -> (r <= 1000)%Q ->
             _infer_unit_type data = inr (VStr "Studio")))
      /\ (no_positive_number data "rent_amount" ->
          (forall a, plain_number data "area_sqft" a ->
             ((1200 < a)%Q -> _infer_unit_type data = inr (VStr "3BR"))
             /\ ((800 < a)%Q -> (a <= 1200)%Q ->
                 _infer_unit_type data = inr (VStr "2BR"))
             /\ ((500 < a)%Q -> (a <= 800)%Q ->
                 _infer_unit_type data = inr (VStr "1BR"))
             /\ ((0 < a)%Q -> (a <= 500)%Q ->
                 _infer_unit_type data = inr (VStr "Studio")))
          /\ (no_positive_number data "area_sqft" ->
              _infer_unit_type data = inr (VStr "Unknown"))))
  /\ _infer_unit_type (with_field "rent_amount" (VInt 1800)) = inr (VStr "2BR")
  /\ _infer_unit_type (with_field "rent_amount" (VInt 2500)) = inr (VStr "3BR")
  /\ _infer_unit_type (with_field "area_sqft" (VInt 600)) = inr (VStr "1BR").
Proof.
  split; [| split; [| split; [| repeat split; reflexivity]]].
  - intros s He Hm. rewrite (infer_explicit data s He), Hm.
    repeat split; intros H1 H2 H3; rewrite ?H1, ?H2, ?H3; reflexivity.
  - intros s He H. rewrite (infer_explicit data s He).
    destruct H as [H | (H1 & H2 & H3)].
    + rewrite H. reflexivity.
    + rewrite H1, H2, H3. destruct (contains "MBL" s); reflexivity.
  - intros Hn. split.
    + intros r Hr. destruct (rent_bracket_cases r) as (B3 & B2 & B1 & B0).
      repeat split; intros; eapply infer_rent; eauto.
    + intros Hnr. split.
      * intros a Ha. destruct (area_bracket_cases a) as (B3 & B2 & B1 & B0).
        repeat split; intros; eapply infer_area; eauto.
      * intros Hna. rewrite (infer_no_explicit data Hn).
        unfold infer_from_numbers.
        rewrite (no_positive_rent data Hnr), (no_positive_area data Hna).
        reflexivity.
Qed.

Lemma infer_unit_type_rules_witness :
  _infer_unit_type mbl_record = inr (VStr "2BR")
  /\ _infer_unit_type other_code_record = inr (VStr "AB12")
  /\ _infer_unit_type (with_field "area_sqft" (VInt 300)) = inr (VStr "Studio").
Proof.
  split; [| split].
  - destruct (infer_unit_type_rules mbl_record) as (H & _).
    apply (H "MBL2AC60").
    + split; [reflexivity | split; discriminate].
    + reflexivity.
    + reflexivity.
    + reflexivity.
    + reflexivity.
  - destruct (infer_unit_type_rules other_code_record) as (_ & H & _).
    apply (H "AB12").
    + split; [reflexivity | split; discriminate].
    + left. reflexivity.
  - destruct (infer_unit_type_rules (with_field "area_sqft" (VInt 300)))
      as (_ & _ & H & _).
    destruct H as (_ & H); [left; reflexivity |].
    destruct H as (H & _).
    { right. exists 0%Q. split; [reflexivity | unfold Qle; simpl; lia]. }
    apply (H 300%Q); [reflexivity | reflexivity | unfold Qle; simpl; lia].
Defined.

(** C5 as stated fails: a record with the explicit type AB12, which has
    no MBL code, and rent 1800 keeps its type; the rent bracket 2BR is
    not applied. *)
Lemma infer_unit_type_keeps_other_code :
  other_code_record !! "unit_type" = Some (VStr "AB12")
  /\ contains "MBL" "AB12" = false
  /\ other_code_record !! "rent_amount" = Some (VInt 1800)
  /\ _infer_unit_type other_code_record = inr (VStr "AB12")
  /\ _infer_unit_type other_code_record <> inr (VStr "2BR").
Proof.
  repeat split; try reflexivity. vm_compute. discriminate.
Qed.

(** A rent held as a [Decimal], as validation leaves it, is not an int
    or float: the rent brackets are skipped. *)
Example infer_unit_type_decimal_rent :
  _infer_unit_type (with_field "rent_amount" (VDecimal 1800))
  = inr (VStr "Unknown").
Proof. reflexivity. Qed.

(** ** Validation *)

Lemma py_float_raises (v : pyval) (e : exn) :
  py_float v = inl e -> e = ValueError \/ e = TypeError.
Proof.
  destruct v; simpl; try discriminate;
    try (intros H; injection H as <-; auto).
  unfold float_of_str. destruct (parse_decimal s); [discriminate |].
  intros H; injection H as <-; auto.
Qed.

Lemma py_int_raises (v : pyval) (e : exn) :
  py_int v = inl e -> e = ValueError \/ e = TypeError.
Proof.
  destruct v; simpl; try discriminate;
    try (intros H; injection H as <-; auto).
  destruct (parse_integer s); [discriminate |].
  intros H; injection H as <-; auto.
Qed.

Lemma lookup_set_field (k k' : string) (v : pyval) (d : pydict) :
  set_field k v d !! k' = if decide (k = k') then Some v else d !! k'.
Proof. unfold set_field. apply lookup_insert. Qed.

Lemma lookup_set_field_eq (k : string) (v : pyval) (d : pydict) :
  set_field k v d !! k = Some v.
Proof. unfold set_field. apply lookup_insert_eq. Qed.

Lemma lookup_set_field_ne (k k' : string) (v : pyval) (d : pydict) :
  k <> k' -> set_field k v d !! k' = d !! k'.
Proof. unfold set_field. apply lookup_insert_ne. Qed.

Lemma lookup_set_when_eq {A} (o : option A) (k : string) (f : A -> pyval)
    (d : pydict) :
  set_when o k f d !! k
  = match o with Some x => Some (f x) | None => d !! k end.
Proof. destruct o; simpl; [apply lookup_set_field_eq | reflexivity]. Qed.

Lemma lookup_set_when_ne {A} (o : option A) (k k' : string) (f : A -> pyval)
    (d : pydict) :
  k <> k' -> set_when o k f d !! k' = d !! k'.
Proof.
  intros H. destruct o; simpl; [apply lookup_set_field_ne, H | reflexivity].
Qed.

Ltac other_key :=
  repeat first
    [ rewrite lookup_set_field_ne by discriminate
    | rewrite lookup_set_when_ne by discriminate ].





Lemma field_or_none_eq (r r' : pydict) (k : string) :
  r' !! k = r !! k -> field_or_none r' k = field_or_none r k.
Proof. unfold field_or_none. intros ->. reflexivity. Qed.

Lemma get_truthy_eq (r r' : pydict) (k : string) :
  r' !! k = r !! k -> get_truthy r' k = get_truthy r k.
Proof. unfold get_truthy. intros ->. reflexivity. Qed.




(** ** Summary statistics *)

Lemma py_add_int_or_float (a b : pyval) :
  int_or_float_val a -> int_or_float_val b ->
  exists c, py_add a b = inr c /\ int_or_float_val c.
Proof.
  intros (x & Hx) (y & Hy).
  destruct a; try discriminate; destruct b; try discriminate;
    simpl; eexists; (split; [reflexivity | eexists; reflexivity]).
Qed.

Lemma py_sum_from (l : list pyval) (a : pyval) :
  Forall int_or_float_val l -> int_or_float_val a ->
  exists v, fold_left (fun acc v => x <- acc ;; py_add x v) l (ret a) = inr v
            /\ int_or_float_val v.
Proof.
  intros Hl. revert a. induction Hl as [| b l Hb Hl IH]; intros a Ha.
  - exists a. split; [reflexivity | exact Ha].
  - simpl. destruct (py_add_int_or_float a b Ha Hb) as (c & Ec & Hc).
    rewrite Ec. apply IH. exact Hc.
Qed.

Lemma py_sum_ok (l : list pyval) :
  Forall int_or_float_val l ->
  exists v, py_sum l = inr v /\ int_or_float_val v.
Proof.
  intros Hl. apply py_sum_from; [exact Hl |]. eexists; reflexivity.
Qed.

Lemma sum_or_zero_ok (l : list pyval) :
  Forall int_or_float_val l -> exists v, sum_or_zero l = inr v.
Proof.
  intros Hl. destruct l as [| a l].
  - eexists; reflexivity.
  - destruct (py_sum_ok (a :: l) Hl) as (v & E & _). exists v. exact E.
Qed.

Lemma avg_or_zero_ok (l : list pyval) :
  Forall int_or_float_val l -> exists v, avg_or_zero l = inr v.
Proof.
  intros Hl. destruct l as [| a l].
  - eexists; reflexivity.
  - destruct (py_sum_ok (a :: l) Hl) as (v & E & (q & Hq)).
    unfold avg_or_zero. rewrite E. simpl bind.
    destruct v; try discriminate; eexists; reflexivity.
Qed.

Lemma mapM_ok {A B} (f : A -> result B) (l : list A) :
  Forall (fun x => exists y, f x = inr y) l -> exists ys, mapM f l = inr ys.
Proof.
  induction 1 as [| x l (y & Ey) _ (ys & Eys)].
  - eexists; reflexivity.
  - exists (y :: ys). simpl. rewrite Ey. simpl. rewrite Eys. reflexivity.
Qed.

Lemma py_float_number (v : pyval) :
  is_number v -> exists q, py_float v = inr q.
Proof.
  intros (q & Hq). destruct v; try discriminate; eexists; reflexivity.
Qed.

Lemma rent_amounts_ok (data : list pydict) :
  Forall summary_ready data -> exists rents, rent_amounts_of data = inr rents.
Proof.
  intros H. unfold rent_amounts_of. apply mapM_ok.
  apply Forall_forall. intros r Hr.
  apply list_elem_of_filter in Hr as (Ht & Hin).
  rewrite Forall_forall in H.
  destruct (H r Hin) as (Hrent & _).
  apply py_float_number. auto.
Qed.

Lemma areas_int (data : list pydict) :
  Forall summary_ready data -> Forall int_or_float_val (areas_of data).
Proof.
  intros H. unfold areas_of. apply Forall_forall. intros v Hv.
  rewrite list_elem_of_In in Hv.
  apply in_map_iff in Hv as (r & <- & Hr).
  rewrite <- list_elem_of_In in Hr.
  apply list_elem_of_filter in Hr as (Ht & Hin).
  rewrite Forall_forall in H.
  destruct (H r Hin) as (_ & Harea).
  destruct (Harea Ht) as (n & Hn). unfold field_or_none. rewrite Hn.
  eexists; reflexivity.
Qed.

Lemma floats_int_or_float (l : list Q) :
  Forall int_or_float_val (map VFloat l).
Proof.
  apply Forall_forall. intros v Hv. rewrite list_elem_of_In in Hv.
  apply in_map_iff in Hv as (q & <- & _).
  eexists; reflexivity.
Qed.


Lemma summary_returns (data : list pydict) :
  Forall summary_ready data ->
  exists summary, extract_summary_statistics data = inr summary.
Proof.
  intros Hready.
  destruct (rent_amounts_ok data Hready) as (rents & Er).
  destruct (sum_or_zero_ok _ (floats_int_or_float rents)) as (tr & Etr).
  destruct (avg_or_zero_ok _ (floats_int_or_float rents)) as (ar & Ear).
  destruct (sum_or_zero_ok _ (areas_int data Hready)) as (ta & Eta).
  destruct (avg_or_zero_ok _ (areas_int data Hready)) as (aa & Eaa).
  destruct data as [| r0 rest]; [eexists; reflexivity |].
  eexists. unfold extract_summary_statistics. rewrite Er. simpl bind.
  rewrite Etr. simpl bind. rewrite Ear. simpl bind.
  rewrite Eta. simpl bind. rewrite Eaa. simpl bind. reflexivity.
Qed.



(** ** Fields of an extracted record *)

Lemma row_base_status (line : string) :
  get_is_str (row_base line) "status" "occupied"
  = String.eqb (table_status line) "occupied".
Proof.
  unfold get_is_str, row_base. rewrite lookup_set_field_eq. reflexivity.
Qed.

Lemma parse_table_row_fields (line : string) (record : pydict) :
  _parse_table_row line = Some record ->
  record !! "rent_amount"
  = option_map VFloat (py_max (table_amounts (findall pat_rent_amount line)))
  /\ record !! "status" = Some (VStr (table_status line))
  /\ record !! "tenant_name" = option_map VStr (row_tenant line).
Proof.
  unfold _parse_table_row, parse_table_row_body.
  destruct (parse_dates (findall pat_date line)) as [e | pd];
    simpl bind; [discriminate |].
  cbv zeta. fold (row_base line). rewrite row_base_status.
  set (T := match search pat_tenant_name line with
            | Some _ => _ | None => _ end).
  set (R := match pd with [] => _ | _ => _ end).
  destruct (_ && _); [| discriminate]. intros E; injection E as <-.
  assert (HR : forall k, k <> "lease_start" -> k <> "lease_end" ->
                         R !! k = T !! k).
  { intros k H1 H2. subst R. destruct pd as [| d0 [| d1 pd']].
    - reflexivity.
    - apply lookup_set_field_ne. congruence.
    - rewrite !lookup_set_field_ne by congruence. reflexivity. }
  assert (HT : forall k, k <> "tenant_name" -> T !! k = row_base line !! k).
  { intros k Hk. subst T. destruct (search pat_tenant_name line); [| reflexivity].
    destruct (String.eqb _ _); [| reflexivity].
    destruct (negb _); [| reflexivity].
    apply lookup_set_field_ne. congruence. }
  rewrite !HR, !HT by discriminate. split; [| split].
  - unfold row_base. other_key. rewrite lookup_set_when_eq.
    destruct (py_max _); [reflexivity |]. other_key. apply lookup_empty.
  - unfold row_base. apply lookup_set_field_eq.
  - subst T. unfold row_tenant.
    assert (Hb : row_base line !! "tenant_name" = None).
    { unfold row_base. other_key. apply lookup_empty. }
    destruct (search pat_tenant_name line); [| exact Hb].
    destruct (String.eqb _ _); simpl; [| exact Hb].
    destruct (negb _); simpl; [| exact Hb].
    apply lookup_set_field_eq.
Qed.

Lemma extract_from_line_fields (line : string) (data : pydict) :
  _extract_from_line line = Some data ->
  data !! "rent_amount"
  = option_map VFloat (py_max (line_amounts (findall pat_rent_amount line)))
  /\ data !! "status" = option_map VStr (line_status line)
  /\ data !! "tenant_name"
     = option_map (fun m => VStr (m_group 1 m)) (search pat_tenant_name line).
Proof.
  unfold _extract_from_line. cbv zeta.
  set (D1 := set_when (py_max _) "rent_amount" VFloat _).
  set (D2 := match search pat_square_feet line with
             | Some _ => _ | None => _ end).
  set (D3 := match findall pat_date line with [] => _ | _ => _ end).
  destruct (dict_nonempty _); [| discriminate]. intros E; injection E as <-.
  assert (H3 : forall k, k <> "dates" -> D3 !! k = D2 !! k).
  { intros k Hk. subst D3. destruct (findall pat_date line); [reflexivity |].
    apply lookup_set_field_ne. congruence. }
  assert (H2 : forall k, k <> "area_sqft" -> D2 !! k = D1 !! k).
  { intros k Hk. subst D2. destruct (search pat_square_feet line); [| reflexivity].
    destruct (py_int _); [reflexivity |].
    apply lookup_set_field_ne. congruence. }
  split; [| split].
  - other_key. rewrite H3, H2 by discriminate. subst D1.
    rewrite lookup_set_when_eq. destruct (py_max _); [reflexivity |].
    other_key. apply lookup_empty.
  - rewrite lookup_set_when_eq. destruct (line_status line); [reflexivity |].
    other_key. rewrite H3, H2 by discriminate. subst D1. other_key.
    apply lookup_empty.
  - other_key. rewrite lookup_set_when_eq.
    destruct (search pat_tenant_name line); [reflexivity |].
    rewrite H3, H2 by discriminate. subst D1. other_key. apply lookup_empty.
Qed.

(** ** The selected rent *)

Lemma fold_max_spec (l : list Q) (x : Q) :
  let m := fold_left (fun m y => if Qlt_bool m y then y else m) l x in
  (m = x \/ In m l) /\ (x <= m)%Q /\ forall a, In a l -> (a <= m)%Q.
Proof.
  revert x. induction l as [| y l IH]; intros x; simpl.
  - split; [left; reflexivity |]. split; [apply Qle_refl | intros a []].
  - destruct (Qlt_bool x y) eqn:Hc.
    + destruct (IH y) as (Hin & Hle & Hall). apply Qlt_bool_true in Hc.
      split; [| split].
      * right. destruct Hin as [-> | Hin]; [left; reflexivity | right; exact Hin].
      * eapply Qle_trans; [apply Qlt_le_weak, Hc | exact Hle].
      * intros a [<- | Ha]; [exact Hle | apply Hall, Ha].
    + destruct (IH x) as (Hin & Hle & Hall). apply Qlt_bool_false in Hc.
      split; [| split].
      * destruct Hin as [-> | Hin]; [left; reflexivity | right; right; exact Hin].
      * exact Hle.
      * intros a [<- | Ha]; [eapply Qle_trans; eassumption | apply Hall, Ha].
Qed.

Lemma py_max_largest (l : list Q) (q : Q) :
  py_max l = Some q -> largest_in q l.
Proof.
  destruct l as [| x l]; simpl; [discriminate |].
  intros E; injection E as <-.
  destruct (fold_max_spec l x) as (Hin & Hle & Hall). split.
  - destruct Hin as [-> | Hin]; [left; reflexivity | right; exact Hin].
  - intros a [<- | Ha]; [exact Hle | apply Hall, Ha].
Qed.


Lemma table_amounts_in (ms : list string) (q : Q) :
  In q (table_amounts ms) <-> In q (line_amounts ms) /\ (100 < q)%Q.
Proof.
  unfold table_amounts, line_amounts.
  rewrite <- !list_elem_of_In, !list_elem_of_omap. split.
  - intros (m & Hm & E).
    destruct (float_of_str (replace "," "" m)) as [e | a] eqn:Ef;
      [discriminate |].
    destruct (Qgt_bool a 100) eqn:Hc; [| discriminate]. injection E as <-.
    split.
    + exists m. split; [exact Hm |]. rewrite Ef. reflexivity.
    + apply Qgt_bool_true, Hc.
  - intros ((m & Hm & E) & Hq). exists m. split; [exact Hm |].
    destruct (float_of_str _) as [e | a]; [discriminate |].
    injection E as <-. apply Qgt_bool_true in Hq. rewrite Hq. reflexivity.
Qed.




(** Inside [extract_structured_data] the line of the counterexample above
    is a table row: the fallback sees it only when called directly. *)
Example small_fees_line_is_table_line :
  is_table_line small_fees_line = true
  /\ is_some (_parse_table_row small_fees_line) = true.
Proof. split; vm_compute; reflexivity. Qed.

(** ** The tenant name *)

Lemma existsb_false_all {A} (p : A -> bool) (l : list A) :
  existsb p l = false -> forall x, In x l -> p x = false.
Proof.
  intros H x Hx. destruct (p x) eqn:E; [| reflexivity].
  assert (existsb p l = true) by (apply existsb_exists; eauto). congruence.
Qed.

(** C8 (as amended). Under the table-row strategy a tenant name is
    included only when the line's status resolves to occupied and the
    stripped name match contains none of the words Unit, Rent, Total,
    Notice, Occupied, Vacant, Status. Under the line fallback strategy the
    name match is included whenever there is one, whatever the status and
    whatever words it contains. *)
Theorem tenant_name_inclusion (line : string) :
  (forall record v,
      _parse_table_row line = Some record ->
      record !! "tenant_name" = Some v ->
      record !! "status" = Some (VStr "occupied")
      /\ exists m, search pat_tenant_name line = Some m
                   /\ v = VStr (strip (m_group 1 m))
                   /\ clear_of_non_names (strip (m_group 1 m)))
  /\ (forall data,
        _extract_from_line line = Some data ->
        data !! "tenant_name"
        = option_map (fun m => VStr (m_group 1 m))
                     (search pat_tenant_name line)).
Proof.
  split.
  - intros record v H Hv.
    apply parse_table_row_fields in H as (_ & Hs & Ht).
    rewrite Ht in Hv. unfold row_tenant in Hv.
    destruct (search pat_tenant_name line) as [m |]; [| discriminate].
    destruct (String.eqb (table_status line) "occupied") eqn:Ho;
      [| discriminate].
    destruct (existsb _ non_names) eqn:Hn; [discriminate |].
    simpl in Hv. injection Hv as <-.
    apply String.eqb_eq in Ho. rewrite Hs, Ho. split; [reflexivity |].
    exists m. split; [reflexivity |]. split; [reflexivity |].
    intros word Hw.
    exact (existsb_false_all _ _ Hn word Hw).
  - intros data H. apply extract_from_line_fields in H as (_ & _ & Ht).
    exact Ht.
Qed.

Lemma tenant_name_inclusion_witness :
  exists record,
    _parse_table_row tenant_line = Some record
    /\ record !! "tenant_name" = Some (VStr "Ann Lee")
    /\ record !! "status" = Some (VStr "occupied")
    /\ clear_of_non_names "Ann Lee".
Proof.
  destruct (is_some_true (_parse_table_row tenant_line))
    as (record & E); [vm_compute; reflexivity |].
  exists record. split; [exact E |].
  assert (Hl : record !! "tenant_name" = Some (VStr "Ann Lee")).
  { destruct (parse_table_row_fields _ _ E) as (_ & _ & Ht).
    rewrite Ht. vm_compute. reflexivity. }
  split; [exact Hl |].
  destruct (tenant_name_inclusion tenant_line) as (H & _).
  destruct (H record _ E Hl) as (Hs & m & Hm & Hv & Hc).
  split; [exact Hs |]. injection Hv as Hv. rewrite Hv. exact Hc.
Defined.

(** C8 as stated fails for the line fallback strategy: a header line,
    which the pipeline hands to the fallback because it is no table row,
    gets a tenant name although no status resolves to occupied and the
    name contains blacklisted words. *)
Lemma fallback_tenant_without_occupancy :
  _extract_table_data header_line = []
  /\ match fallback_points 0 (split_lines header_line) with
     | [point] => point !! "tenant_name"
     | _ => None
     end = Some (VStr "Total Rent Status")
  /\ exists data,
       _extract_from_line header_line = Some data
       /\ data !! "tenant_name" = Some (VStr "Total Rent Status")
       /\ data !! "status" = None
       /\ line_status header_line = None
       /\ contains "Total" "Total Rent Status" = true.
Proof.
  split; [vm_compute; reflexivity |]. split; [vm_compute; reflexivity |].
  destruct (is_some_true (_extract_from_line header_line))
    as (data & E); [vm_compute; reflexivity |].
  exists data. split; [exact E |].
  destruct (extract_from_line_fields _ _ E) as (_ & Hs & Ht).
  rewrite Hs, Ht. repeat split; vm_compute; reflexivity.
Qed.

(** ** Consolidation *)

Lemma merge_point_lookup (acc p : pydict) (k : string) :
  merge_point acc p !! k = merge_field (acc !! k) (p !! k).
Proof.
  unfold merge_point. rewrite lookup_merge.
  destruct (acc !! k), (p !! k); reflexivity.
Qed.

Lemma first_truthy_cons (k : string) (p : pydict) (ps : list pydict) :
  first_truthy k (p :: ps)
  = match p !! k with
    | Some v => if truthy v then Some v else first_truthy k ps
    | None => first_truthy k ps
    end.
Proof.
  unfold first_truthy. simpl omap.
  destruct (p !! k) as [v |]; [| reflexivity].
  destruct (truthy v); reflexivity.
Qed.

Lemma fold_merge_lookup (ps : list pydict) (d : pydict) (k : string) :
  fold_left merge_point ps d !! k
  = match d !! k with
    | Some o => if truthy o then Some o
                else Some (default o (first_truthy k ps))
    | None => first_truthy k ps
    end.
Proof.
  revert d. induction ps as [| p ps IH]; intros d.
  - simpl. destruct (d !! k) as [o |]; [| reflexivity].
    destruct (truthy o); reflexivity.
  - simpl fold_left. rewrite IH, merge_point_lookup, first_truthy_cons.
    unfold merge_field.
    destruct (d !! k) as [o |], (p !! k) as [v |]; simpl;
      try destruct (truthy v) eqn:Hv; try destruct (truthy o) eqn:Ho;
      simpl; rewrite ?Hv, ?Ho; try reflexivity.
Qed.

Lemma py_eqb_str (s t : string) : py_eqb (VStr s) (VStr t) = String.eqb s t.
Proof. reflexivity. Qed.

Lemma units_upd_fst (s : string) (p : pydict) (U : units_dict) :
  map fst (units_upd s p U) = map fst U.
Proof.
  unfold units_upd. rewrite List.map_map. apply List.map_ext.
  intros e. destruct (py_eqb (fst e) (VStr s)); reflexivity.
Qed.

Lemma units_upd_in (s : string) (p : pydict) (U : units_dict)
    (u : string) (d : pydict) :
  In (VStr u, d) U ->
  In (VStr u, if String.eqb u s then merge_point d p else d) (units_upd s p U).
Proof.
  intros H. unfold units_upd. apply List.in_map_iff.
  exists (VStr u, d). split; [| exact H].
  simpl. destruct (String.eqb u s); reflexivity.
Qed.

Lemma units_upd_keys (s : string) (p : pydict) (U : units_dict)
    (k : pyval) (d : pydict) :
  In (k, d) (units_upd s p U) -> exists d0, In (k, d0) U.
Proof.
  unfold units_upd. intros H. apply List.in_map_iff in H as (e & E & He).
  destruct e as [k0 d0]. simpl in E.
  destruct (py_eqb k0 (VStr s)); injection E as <- _; eauto.
Qed.

Lemma units_upd_ok (s : string) (p : pydict) (U : units_dict) :
  s <> "" -> p !! "unit_number" = Some (VStr s) ->
  Forall (fun e => entry_ok e \/ e = (VStr s, ∅)) U ->
  Forall entry_ok (units_upd s p U).
Proof.
  intros Hne Hp H. unfold units_upd. apply Forall_forall. intros e He.
  rewrite list_elem_of_In in He. apply List.in_map_iff in He as (e0 & <- & He0).
  rewrite Forall_forall in H. rewrite <- list_elem_of_In in He0.
  destruct (H e0 He0) as [(t & Hk & Hnt & Hu) | ->].
  - destruct (py_eqb (fst e0) (VStr s)); [| exists t; auto].
    exists t. simpl. split; [exact Hk |]. split; [exact Hnt |].
    rewrite merge_point_lookup, Hu. unfold merge_field.
    rewrite (truthy_str t Hnt).
    destruct (p !! "unit_number") as [v |]; [| reflexivity].
    rewrite andb_false_r. reflexivity.
  - simpl fst. rewrite py_eqb_str, String.eqb_refl.
    exists s. simpl. split; [reflexivity |]. split; [exact Hne |].
    rewrite merge_point_lookup, Hp, lookup_empty. unfold merge_field.
    rewrite (truthy_str s Hne). reflexivity.
Qed.

Lemma units_has_false (s : string) (U : units_dict) :
  units_has (VStr s) U = false -> forall d, ~ In (VStr s, d) U.
Proof.
  unfold units_has. intros H d Hin.
  assert (existsb (fun e => py_eqb (fst e) (VStr s)) U = true).
  { apply existsb_exists. exists (VStr s, d). split; [exact Hin |].
    simpl. apply String.eqb_refl. }
  congruence.
Qed.

Lemma units_has_true (s : string) (U : units_dict) :
  Forall entry_ok U -> units_has (VStr s) U = true ->
  exists d, In (VStr s, d) U.
Proof.
  unfold units_has. intros Hok H. apply existsb_exists in H as ([k d] & Hin & E).
  rewrite Forall_forall in Hok. pose proof Hin as Hin'.
  rewrite <- list_elem_of_In in Hin'.
  destruct (Hok _ Hin') as (t & Hk & _). simpl in Hk, E. subst k.
  rewrite py_eqb_str in E. apply String.eqb_eq in E. subst t. eauto.
Qed.

(** One unit-numbered field-set merged into [units]. *)
Lemma units_merge_spec (s : string) (p : pydict) (U : units_dict) :
  s <> "" -> p !! "unit_number" = Some (VStr s) -> units_ok U ->
  units_ok (units_merge (VStr s) p U)
  /\ (forall u d, In (VStr u, d) U ->
        In (VStr u, if String.eqb u s then merge_point d p else d)
           (units_merge (VStr s) p U))
  /\ ((forall d, ~ In (VStr s, d) U) ->
      In (VStr s, merge_point ∅ p) (units_merge (VStr s) p U))
  /\ (forall u d, In (VStr u, d) (units_merge (VStr s) p U) ->
        u = s \/ exists d0, In (VStr u, d0) U).
Proof.
  intros Hne Hp (Hok & Hnd). unfold units_merge.
  destruct (units_has (VStr s) U) eqn:Hhas; cbv zeta;
    [fold (units_upd s p U) | fold (units_upd s p (U ++ [(VStr s, ∅)]))].
  - split; [| split; [| split]].
    + split; [| rewrite units_upd_fst; exact Hnd].
      apply units_upd_ok; [exact Hne | exact Hp |].
      eapply Forall_impl; [exact Hok |]. intros e He. left. exact He.
    + intros u d. apply units_upd_in.
    + intros Hno. destruct (units_has_true s U Hok Hhas) as (d & Hd).
      exfalso. exact (Hno d Hd).
    + intros u d H. right. eapply units_upd_keys, H.
  - pose proof (units_has_false s U Hhas) as Hno.
    split; [| split; [| split]].
    + split.
      * apply units_upd_ok; [exact Hne | exact Hp |].
        apply Forall_app. split.
        -- eapply Forall_impl; [exact Hok |]. intros e He. left. exact He.
        -- constructor; [right; reflexivity | constructor].
      * rewrite units_upd_fst, List.map_app. simpl.
        apply NoDup_app. split; [exact Hnd |]. split.
        -- intros k Hk Hk2. apply list_elem_of_In in Hk2.
           destruct Hk2 as [<- | []].
           apply list_elem_of_In, List.in_map_iff in Hk as ([k d] & E & Hin).
           simpl in E. subst k. exact (Hno d Hin).
        -- apply NoDup_singleton.
    + intros u d H. apply units_upd_in. apply List.in_app_iff. left. exact H.
    + intros _.
      assert (H : In (VStr s, ∅) (U ++ [(VStr s, ∅)]))
        by (apply List.in_app_iff; right; left; reflexivity).
      apply (units_upd_in s p) in H. rewrite String.eqb_refl in H. exact H.
    + intros u d H. apply units_upd_keys in H as (d0 & H).
      apply List.in_app_iff in H as [H | [H | []]].
      * right. eauto.
      * left. congruence.
Qed.

Lemma points_of_cons (u : string) (p : pydict) (ps : list pydict) :
  points_of u (p :: ps)
  = if get_is_str p "unit_number" u then p :: points_of u ps
    else points_of u ps.
Proof. reflexivity. Qed.

Lemma skipped_point (p : pydict) (u : string) :
  u <> "" ->
  match p !! "unit_number" with
  | Some v => truthy v = false
  | None => True
  end ->
  get_is_str p "unit_number" u = false.
Proof.
  unfold get_is_str. intros Hne H.
  destruct (p !! "unit_number") as [v |]; [| reflexivity].
  destruct v; try reflexivity. simpl in H.
  apply negb_false_iff, String.eqb_eq in H. subst s.
  apply String.eqb_neq. congruence.
Qed.

Lemma group_points_spec (points : list pydict) :
  Forall string_unit points ->
  forall U, units_ok U ->
  exists U',
    group_points points U = inr U'
    /\ units_ok U'
    /\ (forall u d, In (VStr u, d) U ->
          In (VStr u, fold_left merge_point (points_of u points) d) U')
    /\ (forall u, u <> "" -> (forall d, ~ In (VStr u, d) U) ->
          points_of u points <> [] ->
          In (VStr u, fold_left merge_point (points_of u points) ∅) U').
Proof.
  induction 1 as [| p rest Hp Hrest IH]; intros U HU.
  - exists U. split; [reflexivity |]. split; [exact HU |]. split.
    + intros u d H. exact H.
    + intros u _ _ H. exfalso. apply H. reflexivity.
  - assert (Hkeys : forall u d, In (VStr u, d) U -> u <> "").
    { intros u d Hin. destruct HU as (Hok & _).
      rewrite Forall_forall in Hok. rewrite <- list_elem_of_In in Hin.
      destruct (Hok _ Hin) as (t & Hk & Hne & _). simpl in Hk. congruence. }
    simpl group_points. unfold string_unit in Hp.
    destruct (p !! "unit_number") as [v |] eqn:Ev.
    + destruct (truthy v) eqn:Htv.
      * destruct (Hp v eq_refl Htv) as (s & ->). simpl hashable. cbv iota.
        assert (Hne : s <> "").
        { intros ->. simpl in Htv. discriminate. }
        destruct (units_merge_spec s p U Hne Ev HU) as (HU1 & Ha & Hb & Hc).
        destruct (IH _ HU1) as (U' & E & HU' & Ia & Ib).
        exists U'. split; [exact E |]. split; [exact HU' |].
        assert (Hsel : forall u, get_is_str p "unit_number" u = String.eqb s u).
        { intros u. unfold get_is_str. rewrite Ev. reflexivity. }
        split.
        -- intros u d Hin. rewrite points_of_cons, Hsel.
           apply Ha, Ia in Hin. rewrite (String.eqb_sym s u).
           destruct (String.eqb u s); exact Hin.
        -- intros u Hu Hno Hps. rewrite points_of_cons, Hsel in Hps |- *.
           destruct (String.eqb s u) eqn:Esu.
           ++ apply String.eqb_eq in Esu. subst u.
              apply Ia. apply Hb. exact Hno.
           ++ apply Ib; [exact Hu | | exact Hps].
              intros d Hd. apply Hc in Hd as [-> | (d0 & Hd0)].
              ** rewrite String.eqb_refl in Esu. discriminate.
              ** exact (Hno d0 Hd0).
      * destruct (IH _ HU) as (U' & E & HU' & Ia & Ib).
        exists U'. split; [exact E |]. split; [exact HU' |]. split.
        -- intros u d Hin. rewrite points_of_cons.
           rewrite (skipped_point p u (Hkeys u d Hin)) by (rewrite Ev; exact Htv).
           apply Ia, Hin.
        -- intros u Hu Hno Hps. rewrite points_of_cons in Hps |- *.
           rewrite (skipped_point p u Hu) in Hps |- * by (rewrite Ev; exact Htv).
           apply Ib; assumption.
    + destruct (IH _ HU) as (U' & E & HU' & Ia & Ib).
      exists U'. split; [exact E |]. split; [exact HU' |]. split.
      * intros u d Hin. rewrite points_of_cons.
        rewrite (skipped_point p u (Hkeys u d Hin)) by (rewrite Ev; exact I).
        apply Ia, Hin.
      * intros u Hu Hno Hps. rewrite points_of_cons in Hps |- *.
        rewrite (skipped_point p u Hu) in Hps |- * by (rewrite Ev; exact I).
        apply Ib; assumption.
Qed.

Lemma default_status_lookup (d : pydict) (k : string) (v : pyval) :
  d !! k = Some v -> default_status d !! k = Some v.
Proof.
  intros H. unfold default_status.
  destruct (d !! "status") eqn:Es; [exact H |].
  rewrite lookup_set_field_ne; [exact H |].
  intros <-. congruence.
Qed.

Lemma entry_ok_kept (e : pyval * pydict) :
  entry_ok e ->
  consolidated_entry e = Some (default_status (snd e))
  /\ unit_of (default_status (snd e)) = Some (fst e).
Proof.
  intros (s & Hk & Hne & Hu). unfold consolidated_entry, get_truthy.
  rewrite Hu, (truthy_str s Hne). split; [reflexivity |].
  unfold unit_of. rewrite (default_status_lookup _ _ _ Hu), Hk. reflexivity.
Qed.

Lemma consolidated_units (U : units_dict) :
  Forall entry_ok U ->
  map unit_of (omap consolidated_entry U) = map (fun e => Some (fst e)) U.
Proof.
  induction 1 as [| e U He _ IH]; [reflexivity |].
  destruct (entry_ok_kept e He) as (E1 & E2).
  assert (Ho : omap consolidated_entry (e :: U)
               = default_status (snd e) :: omap consolidated_entry U).
  { simpl. rewrite E1. reflexivity. }
  rewrite Ho. cbn [map]. rewrite E2, IH. reflexivity.
Qed.

Lemma first_truthy_nil (k : string) : first_truthy k [] = None.
Proof. reflexivity. Qed.

Lemma only_record_lookup (m : result (list pydict)) (k : string) (v : pyval) :
  match only_record m with Some r => r !! k | None => None end = Some v ->
  exists r, m = inr [r] /\ r !! k = Some v.
Proof.
  destruct m as [e | [| r [| r' l]]]; simpl; try discriminate. eauto.
Qed.

Lemma get_is_str_eq (p : pydict) (k u : string) :
  get_is_str p k u = true <-> p !! k = Some (VStr u).
Proof.
  unfold get_is_str. destruct (p !! k) as [[] |]; split; intros H;
    try discriminate.
  - apply String.eqb_eq in H. congruence.
  - injection H as ->. apply String.eqb_refl.
Qed.

(** The first non-empty value, said with positions: a value of a
    field-set of the unit wins when no earlier field-set of the unit has a
    non-empty value for the field. *)
Lemma first_nonempty_at (pre post : list pydict) (p : pydict)
    (u k : string) (v : pyval) :
  p !! "unit_number" = Some (VStr u) -> p !! k = Some v -> truthy v = true ->
  (forall q, In q pre -> q !! "unit_number" = Some (VStr u) ->
             get_truthy q k = false) ->
  first_nonempty u k (pre ++ p :: post) = Some v.
Proof.
  intros Hu Hk Hv. unfold first_nonempty.
  induction pre as [| q pre IH]; intros Hpre.
  - simpl app. rewrite points_of_cons.
    rewrite (proj2 (get_is_str_eq p "unit_number" u) Hu).
    rewrite first_truthy_cons, Hk, Hv. reflexivity.
  - simpl app. rewrite points_of_cons.
    destruct (get_is_str q "unit_number" u) eqn:Eq.
    + rewrite first_truthy_cons.
      assert (Hq : get_truthy q k = false).
      { apply Hpre; [left; reflexivity | apply get_is_str_eq, Eq]. }
      unfold get_truthy in Hq. destruct (q !! k) as [w |].
      * rewrite Hq. apply IH. intros q' Hin. apply Hpre. right. exact Hin.
      * apply IH. intros q' Hin. apply Hpre. right. exact Hin.
    + apply IH. intros q' Hin. apply Hpre. right. exact Hin.
Qed.

(** C4. Consolidation merges the field-sets of one unit number with
    first-non-empty-wins in extraction order: the record of a unit holds,
    for every field, the first non-empty value among the field-sets of
    that unit, so a non-empty value is kept against every later one when
    no earlier field-set of the unit has a non-empty value for the field;
    and there is one record per unit number. Consolidating the two
    field-sets of unit 01-101 with rents 1500 and 1600 yields a single
    record with rent 1500. *)
Theorem consolidate_first_nonempty_wins (points : list pydict) :
  Forall string_unit points ->
  (exists recs,
      _consolidate_data points = inr recs
      /\ (forall u k v, u <> "" -> first_nonempty u k points = Some v ->
            exists r, In r recs
                      /\ r !! "unit_number" = Some (VStr u)
                      /\ r !! k = Some v)
      /\ (forall pre p post u k v,
            points = (pre ++ p :: post)%list -> u <> "" ->
            p !! "unit_number" = Some (VStr u) ->
            p !! k = Some v -> truthy v = true ->
            (forall q, In q pre -> q !! "unit_number" = Some (VStr u) ->
                       get_truthy q k = false) ->
            exists r, In r recs
                      /\ r !! "unit_number" = Some (VStr u)
                      /\ r !! k = Some v)
      /\ NoDup (map unit_of recs))
  /\ (exists r, _consolidate_data conflicting_points = inr [r]
                /\ r !! "rent_amount" = Some (VInt 1500)).
Proof.
  intros Hpts. split.
  - assert (H0 : units_ok []) by (split; constructor).
    destruct (group_points_spec points Hpts [] H0)
      as (U' & E & (Hok & Hnd) & _ & Hb).
    exists (omap consolidated_entry U').
    assert (Hfirst : forall u k v, u <> "" ->
              first_nonempty u k points = Some v ->
              exists r, In r (omap consolidated_entry U')
                        /\ r !! "unit_number" = Some (VStr u)
                        /\ r !! k = Some v).
    { intros u k v Hu Hf. unfold first_nonempty in Hf.
      assert (Hps : points_of u points <> []).
      { intros Hnil. rewrite Hnil, first_truthy_nil in Hf. discriminate. }
      pose proof (Hb u Hu (fun d H => H) Hps) as Hin.
      set (D := fold_left merge_point (points_of u points) ∅) in *.
      assert (He : entry_ok (VStr u, D)).
      { rewrite Forall_forall in Hok. apply Hok, list_elem_of_In, Hin. }
      destruct (entry_ok_kept _ He) as (E1 & E2). simpl in E1, E2.
      exists (default_status D). split; [| split].
      * apply list_elem_of_In, list_elem_of_omap.
        exists (VStr u, D). split; [apply list_elem_of_In, Hin | exact E1].
      * exact E2.
      * apply default_status_lookup. subst D.
        rewrite fold_merge_lookup, lookup_empty. exact Hf. }
    split; [| split; [exact Hfirst | split]].
    { unfold _consolidate_data. rewrite E. reflexivity. }
    + intros pre p post u k v -> Hu Hpu Hk Hv Hpre.
      apply Hfirst; [exact Hu |]. apply first_nonempty_at; assumption.
    + rewrite (consolidated_units U' Hok).
      rewrite <- (List.map_map fst Some).
      apply NoDup_fmap_2; [| exact Hnd]. intros x y H. congruence.
  - apply only_record_lookup. vm_compute. reflexivity.
Qed.

Lemma consolidate_first_nonempty_wins_witness :
  exists recs r,
    _consolidate_data conflicting_points = inr recs
    /\ In r recs
    /\ r !! "unit_number" = Some (VStr "01-101")
    /\ r !! "rent_amount" = Some (VInt 1500).
Proof.
  assert (Hpts : Forall string_unit conflicting_points).
  { repeat constructor; intros v E Hv; vm_compute in E;
      injection E as <-; eexists; reflexivity. }
  destruct (consolidate_first_nonempty_wins conflicting_points Hpts)
    as ((recs & E & _ & Hkept & _) & _).
  destruct (Hkept [] (rent_point "01-101" 1500) [rent_point "01-101" 1600]
                  "01-101" "rent_amount" (VInt 1500))
    as (r & Hin & Hu & Hr).
  - reflexivity.
  - discriminate.
  - reflexivity.
  - reflexivity.
  - reflexivity.
  - intros q [].
  - exists recs, r. auto.
Defined.

(** ** The matcher against the relational semantics *)

Lemma firstn_consumed {A} (a s' : list A) :
  firstn (length (a ++ s') - length s') (a ++ s') = a.
Proof.
  rewrite length_app.
  replace (length a + length s' - length s')%nat with (length a) by lia.
  rewrite firstn_app, Nat.sub_diag, firstn_all. simpl. apply app_nil_r.
Qed.

(** Whatever the matcher finds is a match of the expression: the input
    splits into the consumed text and the rest handed to the
    continuation. *)
Lemma rmatch_sound {R : Type} (icase : bool) (r : regex) :
  forall (s : chars) (g : groups) (k : chars -> groups -> option R) (x : R),
    rmatch icase r s g k = Some x ->
    exists a s' g',
      s = (a ++ s')%list /\ rsem icase r a g g' /\ k s' g' = Some x.
Proof.
  induction r as [| cc | r1 IH1 r2 IH2 | r1 IH1 r2 IH2 | r IH | n r IH];
    intros s g k x H; simpl in H.
  - exists [], s, g. split; [reflexivity |]. split; [constructor | exact H].
  - destruct s as [| c s']; [discriminate |].
    destruct (char_ok icase cc c) eqn:Hc; [| discriminate].
    exists [c], s', g. split; [reflexivity |].
    split; [constructor; exact Hc | exact H].
  - apply IH1 in H as (a & s1 & g1 & -> & Ha & H).
    apply IH2 in H as (b & s2 & g2 & -> & Hb & H).
    exists (a ++ b)%list, s2, g2. split; [apply app_assoc |].
    split; [econstructor; eassumption | exact H].
  - destruct (rmatch icase r1 s g k) as [y |] eqn:E.
    + injection H as ->. apply IH1 in E as (a & s1 & g1 & -> & Ha & E).
      exists a, s1, g1. split; [reflexivity |].
      split; [apply S_alt_l; exact Ha | exact E].
    + apply IH2 in H as (a & s1 & g1 & -> & Ha & H).
      exists a, s1, g1. split; [reflexivity |].
      split; [apply S_alt_r; exact Ha | exact H].
  - remember (length s) as n eqn:En. clear En.
    revert s g H. induction n as [| n IHn]; intros s g H.
    + exists [], s, g. split; [reflexivity |]. split; [constructor | exact H].
    + match type of H with
      | match ?m with _ => _ end = _ => destruct m as [y |] eqn:E
      end.
      * injection H as ->. apply IH in E as (a & s1 & g1 & -> & Ha & E).
        destruct (length s1 <? length (a ++ s1))%nat; [| discriminate].
        apply IHn in E as (b & s2 & g2 & -> & Hb & E).
        exists (a ++ b)%list, s2, g2. split; [apply app_assoc |].
        split; [econstructor; eassumption | exact E].
      * exists [], s, g. split; [reflexivity |].
        split; [constructor | exact H].
  - apply IH in H as (a & s' & g' & -> & Ha & H).
    rewrite firstn_consumed in H.
    exists a, s', ((n, a) :: g'). split; [reflexivity |].
    split; [constructor; exact Ha | exact H].
Qed.

(** A match at the start of the input that leaves nothing over consumes
    the whole input. *)
Lemma re_match_whole (icase : bool) (r : regex) (s : chars) (m : rematch) :
  re_match_l icase r s = Some m -> m_rest m = [] ->
  rsem icase r s [] (m_groups m).
Proof.
  unfold re_match_l. intros H Hrest.
  apply rmatch_sound in H as (a & s' & g' & -> & Ha & H).
  injection H as <-. simpl in Hrest. subst s'. simpl.
  rewrite app_nil_r. exact Ha.
Qed.

(** ** The texts the date formats accept *)

Lemma class_within_ok (P : ascii -> bool) (cc : cclass) (c : ascii) :
  class_within P cc = true -> char_ok true cc c = true -> P c = true.
Proof.
  unfold class_within. intros H Hc. rewrite forallb_forall in H.
  specialize (H (nat_of_ascii c)).
  rewrite ascii_nat_embedding, Hc in H. apply H.
  apply in_seq. pose proof (nat_ascii_bounded c). lia.
Qed.

Ltac inv_rsem :=
  repeat match goal with
         | H : rsem _ REps _ _ _ |- _ => inversion H; subst; clear H
         | H : rsem _ (RChar _) _ _ _ |- _ => inversion H; subst; clear H
         | H : rsem _ (RSeq _ _) _ _ _ |- _ => inversion H; subst; clear H
         | H : rsem _ (RAlt _ _) _ _ _ |- _ => inversion H; subst; clear H
         | H : rsem _ (RGroup _ _) _ _ _ |- _ => inversion H; subst; clear H
         end.

(** Turns each accepted character into the fact that it satisfies [P]. *)
Ltac chars_within P :=
  repeat match goal with
         | H : char_ok true _ _ = true |- _ =>
             apply (class_within_ok P) in H; [| vm_compute; reflexivity]
         end.

Lemma sem_Dm (a : chars) (g g' : groups) :
  rsem true (re_directive Dm) a g g' ->
  g' = (1%nat, a) :: g /\ month_text a.
Proof.
  intros H. cbv [re_directive ch r19] in H. inv_rsem; chars_within is_digit;
    (split; [reflexivity |]); (split; [first [left; reflexivity | right; reflexivity] |]);
    unfold all_digits; simpl;
    repeat match goal with H : is_digit _ = true |- _ => rewrite H; clear H end;
    reflexivity.
Qed.

Lemma sem_Dd (a : chars) (g g' : groups) :
  rsem true (re_directive Dd) a g g' ->
  g' = (2%nat, a) :: g /\ day_text a.
Proof.
  intros H. cbv [re_directive ch r19 d_] in H. inv_rsem; chars_within day_char;
    (split; [reflexivity |]); (split; [first [left; reflexivity | right; reflexivity] |]);
    simpl;
    repeat match goal with H : day_char _ = true |- _ => rewrite H; clear H end;
    reflexivity.
Qed.

Lemma sem_DY (a : chars) (g g' : groups) :
  rsem true (re_directive DY) a g g' ->
  g' = (3%nat, a) :: g /\ year4_text a.
Proof.
  intros H. cbv [re_directive RRep d_] in H. inv_rsem; chars_within is_digit.
  split; [reflexivity |]. split; [reflexivity |].
  unfold all_digits; simpl.
  repeat match goal with H : is_digit _ = true |- _ => rewrite H; clear H end.
  reflexivity.
Qed.

Lemma sem_Dy (a : chars) (g g' : groups) :
  rsem true (re_directive Dy) a g g' ->
  g' = (4%nat, a) :: g /\ year2_text a.
Proof.
  intros H. cbv [re_directive RRep d_] in H. inv_rsem; chars_within is_digit.
  split; [reflexivity |]. split; [reflexivity |].
  unfold all_digits; simpl.
  repeat match goal with H : is_digit _ = true |- _ => rewrite H; clear H end.
  reflexivity.
Qed.

Lemma sem_slash (a : chars) (g g' : groups) :
  rsem true (re_directive (DLit "/")) a g g' -> a = ["/"%char] /\ g' = g.
Proof.
  intros H. cbv [re_directive ch] in H. inv_rsem.
  chars_within (Ascii.eqb "/").
  match goal with H : Ascii.eqb _ _ = true |- _ =>
    apply Ascii.eqb_eq in H; subst end.
  split; reflexivity.
Qed.

Lemma sem_dash (a : chars) (g g' : groups) :
  rsem true (re_directive (DLit "-")) a g g' -> a = ["-"%char] /\ g' = g.
Proof.
  intros H. cbv [re_directive ch] in H. inv_rsem.
  chars_within (Ascii.eqb "-").
  match goal with H : Ascii.eqb _ _ = true |- _ =>
    apply Ascii.eqb_eq in H; subst end.
  split; reflexivity.
Qed.

Lemma mk_date_year (y m d : Z) (dt : date) :
  mk_date y m d = inr dt -> d_year dt = y.
Proof.
  unfold mk_date. destruct (_ && _); [| discriminate].
  intros H; injection H as <-. reflexivity.
Qed.

(** Uses the directive lemmas on every directive of a format. *)
Ltac directives :=
  repeat match goal with
         | H : rsem true (re_directive Dm) _ _ _ |- _ =>
             apply sem_Dm in H as (-> & ?)
         | H : rsem true (re_directive Dd) _ _ _ |- _ =>
             apply sem_Dd in H as (-> & ?)
         | H : rsem true (re_directive DY) _ _ _ |- _ =>
             apply sem_DY in H as (-> & ?)
         | H : rsem true (re_directive Dy) _ _ _ |- _ =>
             apply sem_Dy in H as (-> & ?)
         | H : rsem true (re_directive (DLit "/")) _ _ _ |- _ =>
             apply sem_slash in H as (-> & ->)
         | H : rsem true (re_directive (DLit "-")) _ _ _ |- _ =>
             apply sem_dash in H as (-> & ->)
         end.

Lemma rsem_seq_inv (icase : bool) (r1 r2 : regex) (s : chars)
    (g g2 : groups) :
  rsem icase (RSeq r1 r2) s g g2 ->
  exists a b g1,
    s = (a ++ b)%list /\ rsem icase r1 a g g1 /\ rsem icase r2 b g1 g2.
Proof. intros H. inversion H; subst. eauto 8. Qed.

(** The five parts of a text that a five-directive format accepts. *)
Lemma format_split (icase : bool) (r1 r2 r3 r4 r5 : regex) (s : chars)
    (g g' : groups) :
  rsem icase (RSeq r1 (RSeq r2 (RSeq r3 (RSeq r4 r5)))) s g g' ->
  exists a1 a2 a3 a4 a5 g1 g2 g3 g4,
    s = (a1 ++ a2 ++ a3 ++ a4 ++ a5)%list
    /\ rsem icase r1 a1 g g1 /\ rsem icase r2 a2 g1 g2
    /\ rsem icase r3 a3 g2 g3 /\ rsem icase r4 a4 g3 g4
    /\ rsem icase r5 a5 g4 g'.
Proof.
  intros H.
  apply rsem_seq_inv in H as (a1 & b1 & g1 & -> & H1 & H).
  apply rsem_seq_inv in H as (a2 & b2 & g2 & -> & H2 & H).
  apply rsem_seq_inv in H as (a3 & b3 & g3 & -> & H3 & H).
  apply rsem_seq_inv in H as (a4 & a5 & g4 & -> & H4 & H5).
  exists a1, a2, a3, a4, a5, g1, g2, g3, g4. auto 10.
Qed.

Lemma re_format_five (d1 d2 d3 d4 d5 : directive) :
  re_format [d1; d2; d3; d4; d5]
  = RSeq (re_directive d1) (RSeq (re_directive d2) (RSeq (re_directive d3)
      (RSeq (re_directive d4) (re_directive d5)))).
Proof. reflexivity. Qed.

(** A text a format accepts has one of the three layouts, and the date
    built from it has the year of that layout. *)
Lemma strptime_shape (s : string) (fmt : date_format) (dt : date) :
  In fmt date_formats -> strptime s fmt = inr dt ->
  date_shape (s2l s) (d_year dt).
Proof.
  intros Hin H. unfold strptime in H.
  destruct (re_match_l true (re_format fmt) (s2l s)) as [m |] eqn:Em;
    [| discriminate].
  destruct (m_rest m) eqn:Er; [| discriminate].
  pose proof (re_match_whole _ _ _ _ Em Er) as Hsem.
  apply mk_date_year in H. rewrite H. clear H Em Er.
  generalize dependent (m_groups m). generalize (s2l s). clear s m dt.
  intros s g Hsem.
  simpl in Hin.
  destruct Hin as [<- | [<- | [<- | [<- | [<- | [<- | []]]]]]];
    cbv [fmt_mdY_slash fmt_mdY_dash fmt_mdy_slash
         fmt_mdy_dash fmt_Ymd_dash fmt_dmY_slash] in Hsem;
    rewrite re_format_five in Hsem;
    apply format_split in Hsem
      as (a1 & a2 & a3 & a4 & a5 & g1 & g2 & g3 & g4
          & -> & H1 & H2 & H3 & H4 & H5);
    directives; cbn [group_get Nat.eqb].
  - apply (Shape_Y4 _ _ _ "/"%char); [reflexivity | assumption].
  - apply (Shape_Y4 _ _ _ "-"%char); [reflexivity | assumption].
  - apply (Shape_y2 _ _ _ "/"%char); [reflexivity | assumption | assumption].
  - apply (Shape_y2 _ _ _ "-"%char); [reflexivity | assumption | assumption].
  - apply Shape_Ymd; assumption.
  - apply (Shape_Y4 _ _ _ "/"%char); [reflexivity | assumption].
Qed.

(** ** One year per text *)

Lemma andb_split (a b : bool) : a && b = true -> a = true /\ b = true.
Proof. apply andb_true_iff. Qed.

Lemma year4_inv (y : chars) :
  year4_text y ->
  exists a b c d,
    y = [a; b; c; d] /\ is_digit a = true /\ is_digit b = true
    /\ is_digit c = true /\ is_digit d = true.
Proof.
  intros (Hlen & Hd).
  destruct y as [| a [| b [| c [| d [| e y]]]]]; try discriminate Hlen.
  unfold all_digits in Hd. simpl in Hd.
  apply andb_split in Hd as (Ha & Hd). apply andb_split in Hd as (Hb & Hd).
  apply andb_split in Hd as (Hc & Hd). apply andb_split in Hd as (Hd & _).
  exists a, b, c, d. auto.
Qed.

Lemma year2_inv (y : chars) :
  year2_text y ->
  exists a b, y = [a; b] /\ is_digit a = true /\ is_digit b = true.
Proof.
  intros (Hlen & Hd).
  destruct y as [| a [| b [| e y]]]; try discriminate Hlen.
  unfold all_digits in Hd. simpl in Hd.
  apply andb_split in Hd as (Ha & Hd). apply andb_split in Hd as (Hb & _).
  exists a, b. auto.
Qed.
(** Reverses both sides of an equation between texts, so that their ends
    can be compared character by character. *)
Ltac from_the_end E :=
  apply (f_equal (@rev ascii)) in E;
  repeat first [ rewrite rev_app_distr in E
               | rewrite rev_involutive in E
               | progress simpl in E
               | rewrite <- app_assoc in E ].
Lemma shape_Y4_y2 (a b y m d y' : chars) (sep sep' : ascii) :
  (a ++ sep :: b ++ sep :: y = m ++ sep' :: d ++ sep' :: y')%list ->
  year4_text y -> year2_text y' -> is_digit sep' = false -> False.
Proof.
  intros E Hy Hy' Hs.
  apply year4_inv in Hy as (y0 & y1 & y2 & y3 & -> & H0 & H1 & H2 & H3).
  apply year2_inv in Hy' as (z0 & z1 & -> & Hz0 & Hz1).
  from_the_end E. injection E as _ _ E _. congruence.
Qed.
Lemma month_inv (m : chars) :
  month_text m ->
  (exists a, m = [a] /\ is_digit a = true)
  \/ (exists a b, m = [a; b] /\ is_digit a = true /\ is_digit b = true).
Proof.
  intros ([Hlen | Hlen] & Hd); unfold all_digits in Hd.
  - destruct m as [| a [| b m]]; try discriminate Hlen. simpl in Hd.
    apply andb_split in Hd as (Ha & _). left. eauto.
  - destruct m as [| a [| b [| c m]]]; try discriminate Hlen. simpl in Hd.
    apply andb_split in Hd as (Ha & Hd). apply andb_split in Hd as (Hb & _).
    right. eauto 6.
Qed.

Lemma day_inv (d : chars) :
  day_text d -> (exists a, d = [a]) \/ (exists a b, d = [a; b]).
Proof.
  intros ([Hlen | Hlen] & _).
  - destruct d as [| a [| b d]]; try discriminate Hlen. left. eauto.
  - destruct d as [| a [| b [| c d]]]; try discriminate Hlen. right. eauto.
Qed.

(** Reverses both sides of an equation between texts, so that their ends
    can be compared character by character. *)
Lemma dash_not_digit : is_digit "-"%char = false.
Proof. reflexivity. Qed.

Lemma shape_Y4_Ymd (a b y y' m d : chars) (sep : ascii) :
  (a ++ sep :: b ++ sep :: y = y' ++ "-"%char :: m ++ "-"%char :: d)%list ->
  year4_text y -> day_text d -> False.
Proof.
  intros E Hy Hd. pose proof dash_not_digit as Hdash.
  apply year4_inv in Hy as (y0 & y1 & y2 & y3 & -> & H0 & H1 & H2 & H3).
  apply day_inv in Hd as [(d0 & ->) | (d0 & d1 & ->)]; from_the_end E.
  - injection E as _ E _. subst. congruence.
  - injection E as _ _ E _. subst. congruence.
Qed.

Lemma shape_y2_Ymd (m d y y' m' d' : chars) (sep : ascii) :
  (m ++ sep :: d ++ sep :: y = y' ++ "-"%char :: m' ++ "-"%char :: d')%list ->
  month_text m -> year2_text y -> year4_text y' -> day_text d' -> False.
Proof.
  intros E Hm Hy Hy' Hd. pose proof dash_not_digit as Hdash.
  apply year2_inv in Hy as (z0 & z1 & -> & Hz0 & Hz1).
  apply year4_inv in Hy' as (y0 & y1 & y2 & y3 & -> & H0 & H1 & H2 & H3).
  apply day_inv in Hd as [(d0 & ->) | (d0 & d1 & ->)].
  - from_the_end E. injection E as _ E _. subst. congruence.
  - apply month_inv in Hm as [(m0 & -> & Hm0) | (m0 & m1 & -> & Hm0 & Hm1)];
      from_the_end E; injection E as _ _ E1 E; subst;
      from_the_end E.
    + injection E as _ E _. subst. congruence.
    + injection E as _ _ E _. subst. congruence.
Qed.

(** A text has at most one year, whatever format reads it. *)
Lemma date_shape_year (s : chars) (y1 y2 : Z) :
  date_shape s y1 -> date_shape s y2 -> y1 = y2.
Proof.
  intros H1 H2.
  destruct H1 as [a b y sep Hs Hy | m d y sep Hs Hm Hy | y m d Hy Hm Hd];
    inversion H2 as [a' b' y' sep' Hs' Hy' E Ey | m' d' y' sep' Hs' Hm' Hy' E Ey
                    | y' m' d' Hy' Hm' Hd' E Ey]; clear H2 Ey.
  - apply year4_inv in Hy as (? & ? & ? & ? & -> & _).
    apply year4_inv in Hy' as (? & ? & ? & ? & -> & _).
    from_the_end E. injection E as -> -> -> -> _. reflexivity.
  - exfalso. symmetry in E. exact (shape_Y4_y2 _ _ _ _ _ _ _ _ E Hy Hy' Hs').
  - exfalso. symmetry in E. exact (shape_Y4_Ymd _ _ _ _ _ _ _ E Hy Hd').
  - exfalso. exact (shape_Y4_y2 _ _ _ _ _ _ _ _ E Hy' Hy Hs).
  - apply year2_inv in Hy as (? & ? & -> & _).
    apply year2_inv in Hy' as (? & ? & -> & _).
    from_the_end E. injection E as -> -> _. reflexivity.
  - exfalso. symmetry in E. exact (shape_y2_Ymd _ _ _ _ _ _ _ E Hm Hy Hy' Hd').
  - exfalso. exact (shape_Y4_Ymd _ _ _ _ _ _ _ E Hy' Hd).
  - exfalso. exact (shape_y2_Ymd _ _ _ _ _ _ _ E Hm' Hy' Hy Hd).
  - apply year4_inv in Hy as (? & ? & ? & ? & -> & _).
    apply year4_inv in Hy' as (? & ? & ? & ? & -> & _).
    simpl in E. injection E as -> -> -> -> _. reflexivity.
Qed.

Lemma strptime_one_year (s : string) (f1 f2 : date_format) (d1 d2 : date) :
  In f1 date_formats -> In f2 date_formats ->
  strptime s f1 = inr d1 -> strptime s f2 = inr d2 ->
  d_year d1 = d_year d2.
Proof.
  intros I1 I2 H1 H2.
  exact (date_shape_year _ _ _ (strptime_shape s f1 d1 I1 H1)
                               (strptime_shape s f2 d2 I2 H2)).
Qed.

(** ** [parse_date] *)

Lemma strptime_raises (s : string) (fmt : date_format) (e : exn) :
  strptime s fmt = inl e -> e = ValueError.
Proof.
  unfold strptime. destruct (re_match_l _ _ _) as [m |];
    [| intros H; injection H as <-; reflexivity].
  destruct (m_rest m); [| intros H; injection H as <-; reflexivity].
  unfold mk_date. destruct (_ && _); [discriminate |].
  intros H; injection H as <-; reflexivity.
Qed.

Lemma parse_date_loop_spec (stripped : string) (fmts : list date_format) :
  exists o,
    parse_date_loop stripped fmts = inr o
    /\ (forall d, o = Some d ->
          exists fmt, In fmt fmts /\ strptime stripped fmt = inr d
                      /\ year_ok d = true)
    /\ (o = None ->
        forall fmt d, In fmt fmts -> strptime stripped fmt = inr d ->
                      year_ok d = false).
Proof.
  induction fmts as [| fmt rest (o & E & Hs & Hn)].
  - exists None. split; [reflexivity |]. split; [discriminate |].
    intros _ fmt d [].
  - simpl parse_date_loop.
    destruct (strptime stripped fmt) as [e | d] eqn:Ef.
    + rewrite (strptime_raises _ _ _ Ef). exists o. split; [exact E |].
      split.
      * intros d Hd. destruct (Hs d Hd) as (f & Hf & Hp & Hy).
        exists f. split; [right; exact Hf | auto].
      * intros Ho f d [<- | Hf] Hp; [congruence | eapply Hn; eauto].
    + destruct (year_ok d) eqn:Hy.
      * exists (Some d). split; [reflexivity |]. split; [| discriminate].
        intros d' Hd'. injection Hd' as <-. exists fmt.
        split; [left; reflexivity | auto].
      * exists o. split; [exact E |]. split.
        -- intros d' Hd'. destruct (Hs d' Hd') as (f & Hf & Hp & Hy').
           exists f. split; [right; exact Hf | auto].
        -- intros Ho f d' [<- | Hf] Hp; [congruence | eapply Hn; eauto].
Qed.

Lemma year_ok_range (d : date) :
  year_ok d = true <-> 2000 <= d_year d <= 2030.
Proof. unfold year_ok. rewrite andb_true_iff, !Z.leb_le. tauto. Qed.

(** C10. [parse_date] never raises. It returns a date only when the
    stripped input is accepted by one of the six formats and the year of
    the date lies in 2000..2030; it returns None for every input that no
    format accepts and for every input that a format reads with a year
    outside that range. *)
Theorem parse_date_spec (date_str : string) :
  exists o : option date,
    parse_date date_str = inr o
    /\ (forall d, o = Some d ->
          exists fmt, In fmt date_formats
                      /\ strptime (strip date_str) fmt = inr d
                      /\ 2000 <= d_year d <= 2030)
    /\ ((forall fmt, In fmt date_formats ->
                     exists e, strptime (strip date_str) fmt = inl e) ->
        o = None)
    /\ (forall fmt d, In fmt date_formats ->
          strptime (strip date_str) fmt = inr d ->
          ~ (2000 <= d_year d <= 2030) -> o = None).
Proof.
  unfold parse_date. destruct (String.eqb date_str "") eqn:Ee.
  - exists None. split; [reflexivity |]. split; [discriminate |]. auto.
  - destruct (parse_date_loop_spec (strip date_str) date_formats)
      as (o & E & Hs & Hn).
    exists o. split; [exact E |]. split; [| split].
    + intros d Hd. destruct (Hs d Hd) as (f & Hf & Hp & Hy).
      exists f. split; [exact Hf |]. split; [exact Hp |].
      apply year_ok_range, Hy.
    + intros Hall. destruct o as [d |]; [| reflexivity].
      destruct (Hs d eq_refl) as (f & Hf & Hp & _).
      destruct (Hall f Hf) as (e & He). congruence.
    + intros fmt d Hf Hp Hout. destruct o as [d' |]; [| reflexivity].
      destruct (Hs d' eq_refl) as (f' & Hf' & Hp' & Hy').
      exfalso. apply Hout.
      rewrite (strptime_one_year _ _ _ _ _ Hf Hf' Hp Hp').
      apply year_ok_range, Hy'.
Qed.

Lemma parse_date_spec_witness :
  parse_date "12/31/2031" = inr None
  /\ parse_date "rent roll" = inr None
  /\ exists d, parse_date " 12-31-24 " = inr (Some d) /\ d_year d = 2024.
Proof.
  split; [| split].
  - destruct (parse_date_spec "12/31/2031") as (o & E & _ & _ & Hout).
    rewrite E. f_equal.
    apply (Hout fmt_mdY_slash {| d_year := 2031; d_month := 12; d_day := 31 |}).
    + left. reflexivity.
    + vm_compute. reflexivity.
    + simpl. lia.
  - destruct (parse_date_spec "rent roll") as (o & E & _ & Hnone & _).
    rewrite E. f_equal. apply Hnone.
    intros fmt Hf. exists ValueError. simpl in Hf.
    destruct Hf as [<- | [<- | [<- | [<- | [<- | [<- | []]]]]]];
      vm_compute; reflexivity.
  - destruct (parse_date_spec " 12-31-24 ") as (o & E & Hsome & _).
    destruct o as [d |]; [| vm_compute in E; discriminate E].
    exists d. split; [exact E |].
    vm_compute in E. injection E as <-. reflexivity.
Defined.

(** ** When the matcher is sure to find a match *)

Lemma ascii_all (P : ascii -> bool) :
  forallb (fun n => P (ascii_of_nat n)) (List.seq 0 256) = true ->
  forall c, P c = true.
Proof.
  intros H c. rewrite forallb_forall in H.
  specialize (H (nat_of_ascii c)). rewrite ascii_nat_embedding in H.
  apply H. apply in_seq. pose proof (nat_ascii_bounded c). lia.
Qed.

Lemma digits_in_ok (cc : cclass) (c : ascii) :
  digits_in cc = true -> is_digit c = true -> char_ok true cc c = true.
Proof.
  intros H Hc.
  pose proof (ascii_all (fun c => implb (is_digit c) (char_ok true cc c)) H c)
    as Hi.
  simpl in Hi. rewrite Hc in Hi. exact Hi.
Qed.

Lemma digits_out_ok (cc : cclass) (c : ascii) :
  digits_out cc = true -> is_digit c = true -> char_ok true cc c = false.
Proof.
  intros H Hc.
  pose proof (ascii_all (fun c => implb (is_digit c)
                                        (negb (char_ok true cc c))) H c) as Hi.
  simpl in Hi. rewrite Hc in Hi. apply negb_true_iff. exact Hi.
Qed.

Lemma Always_eps : Always REps.
Proof. intros R s g k Hk. apply Hk. Qed.

Lemma Always_seq (a b : regex) : Always a -> Always b -> Always (RSeq a b).
Proof.
  intros Ha Hb R s g k Hk. simpl. apply Ha.
  intros s' g'. apply Hb. exact Hk.
Qed.

Lemma Always_alt_r (a b : regex) : Always b -> Always (RAlt a b).
Proof.
  intros Hb R s g k Hk. simpl.
  destruct (rmatch true a s g k) as [x |]; [eauto |]. apply Hb, Hk.
Qed.

Lemma Always_opt (a : regex) : Always (ROpt a).
Proof. apply Always_alt_r, Always_eps. Qed.

Lemma Always_star (a : regex) : Always (RStar a).
Proof.
  intros R s g k Hk. simpl. generalize (length s) at 1. intros n.
  revert s g. induction n as [| n IH]; intros s g.
  - apply Hk.
  - match goal with
    | |- exists x, match ?m with _ => _ end = _ => destruct m as [x |]
    end; [eauto | apply Hk].
Qed.

Lemma Always_group (n : nat) (a : regex) : Always a -> Always (RGroup n a).
Proof.
  intros Ha R s g k Hk. simpl. apply Ha. intros s' g'. apply Hk.
Qed.

Lemma Always_upto (n : nat) (a : regex) : Always (RUpTo n a).
Proof. destruct n; [apply Always_eps | apply Always_opt]. Qed.

Lemma Starts_char (cc : cclass) : digits_in cc = true -> Starts (RChar cc).
Proof.
  intros H R c s g k Hc Hk. simpl.
  rewrite (digits_in_ok cc c H Hc). apply Hk.
Qed.

Lemma Starts_seq (a b : regex) : Starts a -> Always b -> Starts (RSeq a b).
Proof.
  intros Ha Hb R c s g k Hc Hk. simpl. apply Ha; [exact Hc |].
  intros s' g'. apply Hb, Hk.
Qed.

Lemma Starts_skip (a b : regex) : Skips a -> Starts b -> Starts (RSeq a b).
Proof.
  intros Ha Hb R c s g k Hc Hk. simpl. rewrite Ha by exact Hc.
  apply Hb; assumption.
Qed.

Lemma Starts_alt_r (a b : regex) : Starts b -> Starts (RAlt a b).
Proof.
  intros Hb R c s g k Hc Hk. simpl.
  destruct (rmatch true a (c :: s) g k) as [x |]; [eauto |].
  apply Hb; assumption.
Qed.

Lemma Starts_group (n : nat) (a : regex) : Starts a -> Starts (RGroup n a).
Proof.
  intros Ha R c s g k Hc Hk. simpl. apply Ha; [exact Hc |].
  intros s' g'. apply Hk.
Qed.

Lemma Skips_opt_char (cc : cclass) :
  digits_out cc = true -> Skips (ROpt (RChar cc)).
Proof.
  intros H R c s g k Hc. simpl. rewrite (digits_out_ok cc c H Hc). reflexivity.
Qed.

Lemma Skips_star_char (cc : cclass) :
  digits_out cc = true -> Skips (RStar (RChar cc)).
Proof.
  intros H R c s g k Hc. simpl. rewrite (digits_out_ok cc c H Hc). reflexivity.
Qed.

Lemma Starts_unit_number : Starts re_unit_number.
Proof.
  unfold re_unit_number. apply Starts_group, Starts_alt_r.
  cbv [seq RBetween RRep]. 
  apply Starts_seq.
  - apply Starts_seq; [| apply Always_upto].
    apply Starts_seq; [| apply Always_eps].
    apply Starts_char. vm_compute. reflexivity.
  - apply Always_seq; [apply Always_opt |].
    apply Always_seq; [apply Always_eps | apply Always_upto].
Qed.

Lemma Starts_rent_amount : Starts re_rent_amount.
Proof.
  unfold re_rent_amount. cbv [seq RBetween RRep RPlus].
  apply Starts_skip; [apply Skips_opt_char; vm_compute; reflexivity |].
  apply Starts_skip; [apply Skips_star_char; vm_compute; reflexivity |].
  apply Starts_group.
  apply Starts_seq.
  - apply Starts_seq; [| apply Always_star].
    apply Starts_char. vm_compute. reflexivity.
  - apply Always_seq; [apply Always_opt |].
    apply Always_seq; [apply Always_eps | apply Always_upto].
Qed.

(** ** Where a search finds its match *)

Lemma total_match (icase : bool) (s : chars) :
  total_k (fun s' g => Some {| m_start := s; m_rest := s'; m_groups := g |}).
Proof. intros s' g. eauto. Qed.

Lemma re_match_starts (r : regex) (c : ascii) (s : chars) :
  Starts r -> is_digit c = true ->
  exists m, re_match_l true r (c :: s) = Some m.
Proof.
  intros Hr Hc. unfold re_match_l. apply Hr; [exact Hc |].
  apply (total_match true).
Qed.

Lemma re_search_here (icase : bool) (r : regex) (s : chars) (m : rematch) :
  re_match_l icase r s = Some m -> re_search_l icase r s = Some m.
Proof. intros H. destruct s; simpl; rewrite H; reflexivity. Qed.

Lemma re_search_later (icase : bool) (r : regex) (pre suf : chars) :
  (exists m, re_match_l icase r suf = Some m) ->
  exists m, re_search_l icase r (pre ++ suf) = Some m.
Proof.
  intros (m & H). induction pre as [| x pre (m' & IH)].
  - exists m. apply re_search_here, H.
  - simpl. destruct (re_match_l icase r (x :: pre ++ suf)) as [m0 |]; eauto.
Qed.

Lemma re_search_sound (icase : bool) (r : regex) (s : chars) (m : rematch) :
  re_search_l icase r s = Some m ->
  exists pre suf, s = (pre ++ suf)%list /\ re_match_l icase r suf = Some m.
Proof.
  induction s as [| x s IH]; simpl.
  - destruct (re_match_l icase r []) as [m0 |] eqn:E; [| discriminate].
    intros H; injection H as <-. exists [], []. auto.
  - destruct (re_match_l icase r (x :: s)) as [m0 |] eqn:E.
    + intros H; injection H as <-. exists [], (x :: s). auto.
    + intros H. apply IH in H as (pre & suf & -> & H).
      exists (x :: pre), suf. auto.
Qed.

Lemma digit_split (l : chars) :
  existsb is_digit l = true ->
  exists pre c suf, l = (pre ++ c :: suf)%list /\ is_digit c = true.
Proof.
  intros H. apply existsb_exists in H as (c & Hin & Hc).
  apply in_split in Hin as (pre & suf & ->). eauto.
Qed.

Lemma search_digit (r : regex) (line : string) :
  Starts r -> has_digit line = true ->
  exists m, search (compile_icase r) line = Some m.
Proof.
  intros Hr H. apply digit_split in H as (pre & c & suf & E & Hc).
  unfold search. simpl. rewrite E.
  apply re_search_later, re_match_starts; assumption.
Qed.

Lemma findall_digit (line : string) :
  has_digit line = true -> findall pat_rent_amount line <> [].
Proof.
  intros H. destruct (search_digit _ line Starts_rent_amount H) as (m & Hm).
  unfold findall, search in *. simpl in *. rewrite Hm. discriminate.
Qed.

(** A match of the unit-number pattern starts with a digit, and group 1
    holds all of it. *)
Lemma unit_number_text (a : chars) (g g' : groups) :
  rsem true re_unit_number a g g' ->
  group_get 1 g' = Some a /\ exists c t, a = c :: t /\ is_digit c = true.
Proof.
  intros H. cbv [re_unit_number seq RBetween RRep RUpTo ROpt d_ ch AZ] in H.
  inversion H as [| | | | | | | n r0 a0 g0 g1 H0]; subst. clear H.
  split; [simpl; reflexivity |].
  inversion H0 as [| | | ? ? ? ? ? H1 | ? ? ? ? ? H1 | |  |]; subst; clear H0;
    repeat match goal with
           | H : rsem _ (RSeq _ _) _ _ _ |- _ =>
               apply rsem_seq_inv in H as (? & ? & ? & -> & ? & ?)
           end;
    repeat match goal with
           | H : rsem _ (RChar CDigit) _ _ _ |- _ =>
               inversion H; subst; clear H
           end;
    chars_within is_digit;
    match goal with
    | H : is_digit ?c = true |- exists _ _, (([?c] ++ _) ++ _)%list = _ /\ _ =>
        eexists c, _; split; [reflexivity | exact H]
    | H : is_digit ?c = true |- exists _ _, ((([?c] ++ _) ++ _) ++ _)%list = _ /\ _ =>
        eexists c, _; split; [reflexivity | exact H]
    | _ => idtac
    end.
Qed.

(** ** Lines with a digit are table rows *)

Lemma parse_date_ok (s : string) : exists o, parse_date s = inr o.
Proof.
  unfold parse_date. destruct (String.eqb s ""); [eexists; reflexivity |].
  destruct (parse_date_loop_spec (strip s) date_formats) as (o & E & _).
  eauto.
Qed.

Lemma parse_dates_ok (l : list string) : exists ds, parse_dates l = inr ds.
Proof.
  induction l as [| s l (ds & IH)]; [eexists; reflexivity |].
  simpl. destruct (parse_date_ok s) as (o & ->). simpl. rewrite IH. simpl.
  eexists; reflexivity.
Qed.

Lemma dict_nonempty_lookup (d : pydict) (k : string) (v : pyval) :
  d !! k = Some v -> dict_nonempty d = true.
Proof.
  intros H. unfold dict_nonempty.
  destruct (map_to_list d) eqn:E; [| reflexivity].
  apply map_to_list_empty_iff in E. subst d.
  rewrite lookup_empty in H. discriminate.
Qed.

Lemma row_base_unit (line : string) :
  row_base line !! "unit_number"
  = option_map (fun m => VStr (m_group 1 m)) (search pat_unit_number line).
Proof.
  unfold row_base. other_key. rewrite lookup_set_when_eq.
  destruct (search pat_unit_number line); [reflexivity | apply lookup_empty].
Qed.

Lemma table_status_truthy (line : string) :
  truthy (VStr (table_status line)) = true.
Proof.
  unfold table_status. destruct (_ || _); [reflexivity |].
  destruct (_ || _); reflexivity.
Qed.

(** What [_parse_table_row] returns, read field by field off the record
    of the first steps. *)
Lemma parse_table_row_result (line : string) :
  exists R : pydict,
    (forall k, k <> "lease_start" -> k <> "lease_end" -> k <> "tenant_name" ->
               R !! k = row_base line !! k)
    /\ R !! "tenant_name" = option_map VStr (row_tenant line)
    /\ _parse_table_row line
       = if get_truthy (row_base line) "unit_number" then Some R else None.
Proof.
  unfold _parse_table_row, parse_table_row_body.
  destruct (parse_dates_ok (findall pat_date line)) as (pd & ->).
  simpl bind. cbv zeta. fold (row_base line). rewrite row_base_status.
  set (T := match search pat_tenant_name line with
            | Some _ => _ | None => _ end).
  set (R := match pd with [] => _ | _ => _ end).
  assert (HR : forall k, k <> "lease_start" -> k <> "lease_end" ->
                         R !! k = T !! k).
  { intros k H1 H2. subst R. destruct pd as [| d0 [| d1 pd']].
    - reflexivity.
    - apply lookup_set_field_ne. congruence.
    - rewrite !lookup_set_field_ne by congruence. reflexivity. }
  assert (HT : forall k, k <> "tenant_name" -> T !! k = row_base line !! k).
  { intros k Hk. subst T. destruct (search pat_tenant_name line); [| reflexivity].
    destruct (String.eqb _ _); [| reflexivity].
    destruct (negb _); [| reflexivity].
    apply lookup_set_field_ne. congruence. }
  exists R. split; [| split].
  - intros k H1 H2 H3. rewrite HR, HT by assumption. reflexivity.
  - rewrite HR by discriminate. subst T. unfold row_tenant.
    assert (Hb : row_base line !! "tenant_name" = None).
    { unfold row_base. other_key. apply lookup_empty. }
    destruct (search pat_tenant_name line); [| exact Hb].
    destruct (String.eqb _ _); simpl; [| exact Hb].
    destruct (negb _); simpl; [| exact Hb].
    apply lookup_set_field_eq.
  - assert (Hu : get_truthy R "unit_number"
                 = get_truthy (row_base line) "unit_number").
    { apply get_truthy_eq. rewrite HR, HT by discriminate. reflexivity. }
    assert (Hs : get_truthy R "status" = true).
    { unfold get_truthy. rewrite HR, HT by discriminate.
      unfold row_base. rewrite lookup_set_field_eq. apply table_status_truthy. }
    rewrite Hu, Hs, orb_true_r, andb_true_r. reflexivity.
Qed.

Lemma l2s_cons_nonempty (c : ascii) (t : chars) : l2s (c :: t) <> "".
Proof. discriminate. Qed.

Lemma s2l_l2s (l : chars) : s2l (l2s l) = l.
Proof. apply list_ascii_of_string_of_list_ascii. Qed.

Lemma l2s_s2l (s : string) : l2s (s2l s) = s.
Proof. apply string_of_list_ascii_of_string. Qed.

(** The unit number found on a line: a non-empty text that starts with a
    digit of the line. *)
Lemma unit_search_text (line : string) (m : rematch) :
  search pat_unit_number line = Some m ->
  has_digit line = true
  /\ exists c t, m_group 1 m = l2s (c :: t) /\ is_digit c = true.
Proof.
  unfold search. simpl. intros H.
  apply re_search_sound in H as (pre & suf & E & H).
  unfold re_match_l in H.
  apply rmatch_sound in H as (a & s' & g' & -> & Ha & H).
  injection H as <-.
  apply unit_number_text in Ha as (Hg & c & t & -> & Hc).
  split.
  - unfold has_digit. rewrite E. rewrite existsb_app. simpl.
    rewrite Hc. simpl. apply orb_true_r.
  - exists c, t. unfold m_group. simpl m_groups. rewrite Hg. auto.
Qed.

Lemma digit_line_is_table_row_aux (line : string) :
  has_digit line = true ->
  is_table_line line = true
  /\ exists record,
       _parse_table_row line = Some record
       /\ dict_nonempty record = true.
Proof.
  intros H.
  destruct (search_digit _ line Starts_unit_number H) as (m & Hm).
  fold pat_unit_number in Hm.
  pose proof (findall_digit line H) as Hf.
  split.
  { unfold is_table_line. rewrite Hm.
    destruct (findall pat_rent_amount line); [congruence | reflexivity]. }
  destruct (unit_search_text line m Hm) as (_ & c & t & Hg & Hc).
  destruct (parse_table_row_result line) as (R & Hk & _ & E).
  assert (Hu : row_base line !! "unit_number" = Some (VStr (l2s (c :: t)))).
  { rewrite row_base_unit, Hm. simpl. rewrite Hg. reflexivity. }
  exists R. split.
  - rewrite E. unfold get_truthy. rewrite Hu. reflexivity.
  - apply (dict_nonempty_lookup R "unit_number" (VStr (l2s (c :: t)))).
    rewrite Hk by discriminate. exact Hu.
Qed.



(** ** The fallback branch of [extract_structured_data] *)

Lemma extract_from_line_unit (line : string) (data : pydict) :
  _extract_from_line line = Some data ->
  data !! "unit_number"
  = option_map (fun m => VStr (m_group 1 m)) (search pat_unit_number line).
Proof.
  unfold _extract_from_line. cbv zeta.
  set (D1 := set_when (py_max _) "rent_amount" VFloat _).
  set (D2 := match search pat_square_feet line with
             | Some _ => _ | None => _ end).
  set (D3 := match findall pat_date line with [] => _ | _ => _ end).
  destruct (dict_nonempty _); [| discriminate]. intros E; injection E as <-.
  assert (H3 : forall k, k <> "dates" -> D3 !! k = D2 !! k).
  { intros k Hk. subst D3. destruct (findall pat_date line); [reflexivity |].
    apply lookup_set_field_ne. congruence. }
  assert (H2 : forall k, k <> "area_sqft" -> D2 !! k = D1 !! k).
  { intros k Hk. subst D2. destruct (search pat_square_feet line); [| reflexivity].
    destruct (py_int _); [reflexivity |].
    apply lookup_set_field_ne. congruence. }
  other_key. rewrite H3, H2 by discriminate. subst D1. other_key.
  rewrite lookup_set_when_eq.
  destruct (search pat_unit_number line); [reflexivity | apply lookup_empty].
Qed.

Lemma fallback_points_no_unit (lines : list string) (n : nat) :
  (forall line, In line lines -> search pat_unit_number (strip line) = None) ->
  Forall (fun p : pydict => p !! "unit_number" = None)
         (fallback_points n lines).
Proof.
  revert n. induction lines as [| line rest IH]; intros n H; [constructor |].
  simpl. assert (Hrest := IH (S n) (fun l Hl => H l (or_intror Hl))).
  destruct (_ || _); [exact Hrest |].
  destruct (_extract_from_line (strip line)) as [data |] eqn:E;
    [| exact Hrest].
  constructor; [| exact Hrest]. other_key.
  rewrite (extract_from_line_unit _ _ E), (H line (or_introl eq_refl)).
  reflexivity.
Qed.

Lemma group_points_no_unit (points : list pydict) (U : units_dict) :
  Forall (fun p : pydict => p !! "unit_number" = None) points ->
  group_points points U = inr U.
Proof.
  induction 1 as [| p rest Hp _ IH]; [reflexivity |].
  simpl. rewrite Hp. exact IH.
Qed.

Lemma has_digit_nonempty (s : string) :
  has_digit s = true -> String.eqb s "" = false.
Proof. destruct s; [discriminate | reflexivity]. Qed.

Lemma no_table_row_no_unit (text : string) (line : string) :
  _extract_table_data text = [] -> In line (split_lines text) ->
  search pat_unit_number (strip line) = None.
Proof.
  intros Hnone Hin.
  destruct (search pat_unit_number (strip line)) as [m |] eqn:Em;
    [| reflexivity].
  exfalso. destruct (unit_search_text _ _ Em) as (Hd & _).
  destruct (digit_line_is_table_row_aux (strip line) Hd)
    as (Ht & R & Hp & Hne).
  assert (Hel : R ∈ _extract_table_data text).
  { unfold _extract_table_data. apply list_elem_of_omap.
    exists line. split; [apply list_elem_of_In, Hin |].
    cbv zeta. rewrite (has_digit_nonempty _ Hd), Ht, Hp, Hne. reflexivity. }
  rewrite Hnone in Hel. apply elem_of_nil in Hel. exact Hel.
Qed.

Lemma extract_structured_data_table (text : string) :
  extract_structured_data text = inr (_extract_table_data text).
Proof.
  unfold extract_structured_data.
  destruct (_extract_table_data text) as [| r l] eqn:E; [| reflexivity].
  unfold _consolidate_data.
  rewrite (group_points_no_unit _ []); [reflexivity |].
  apply fallback_points_no_unit. intros line Hin.
  exact (no_table_row_no_unit text line E Hin).
Qed.



(** ** The records of the table rows *)

Lemma table_data_rows (text : string) (record : pydict) :
  In record (_extract_table_data text) ->
  exists line, _parse_table_row line = Some record.
Proof.
  unfold _extract_table_data. intros H.
  apply list_elem_of_In, list_elem_of_omap in H as (l & _ & H).
  cbv zeta in H. destruct (String.eqb (strip l) ""); [discriminate |].
  destruct (is_table_line (strip l)); [| discriminate].
  destruct (_parse_table_row (strip l)) as [r |] eqn:E; [| discriminate].
  destruct (dict_nonempty r); [| discriminate].
  injection H as <-. eauto.
Qed.

Lemma table_status_cases (line : string) :
  table_status line = "vacant" \/ table_status line = "occupied"
  \/ table_status line = "unknown".
Proof.
  unfold table_status. destruct (_ || _); [auto |].
  destruct (_ || _); auto.
Qed.

Lemma row_base_other (line k : string) :
  k <> "status" -> k <> "rent_amount" -> k <> "unit_type" ->
  k <> "unit_number" -> row_base line !! k = None.
Proof.
  intros H1 H2 H3 H4. unfold row_base.
  rewrite lookup_set_field_ne, !lookup_set_when_ne by congruence.
  apply lookup_empty.
Qed.

Lemma parse_table_row_record (line : string) (record : pydict) :
  _parse_table_row line = Some record ->
  (exists c t, record !! "unit_number" = Some (VStr (l2s (c :: t)))
               /\ is_digit c = true)
  /\ record !! "status" = Some (VStr (table_status line))
  /\ record !! "tenant_name" = option_map VStr (row_tenant line)
  /\ record !! "rent_amount"
     = option_map VFloat
         (py_max (table_amounts (findall pat_rent_amount line)))
  /\ (forall k, k <> "unit_number" -> k <> "unit_type" ->
                k <> "rent_amount" -> k <> "status" -> k <> "tenant_name" ->
                k <> "lease_start" -> k <> "lease_end" -> record !! k = None).
Proof.
  intros H. destruct (parse_table_row_fields line record H) as (Hr & Hs & Ht).
  destruct (parse_table_row_result line) as (R & Hk & _ & E).
  rewrite H in E.
  destruct (get_truthy (row_base line) "unit_number") eqn:Hu; [| discriminate].
  injection E as ->.
  split; [| split; [exact Hs | split; [exact Ht | split; [exact Hr |]]]].
  - unfold get_truthy in Hu. rewrite row_base_unit in Hu.
    destruct (search pat_unit_number line) as [m |] eqn:Em; [| discriminate].
    destruct (unit_search_text line m Em) as (_ & c & t & Hg & Hc).
    exists c, t. split; [| exact Hc].
    rewrite Hk by discriminate. rewrite row_base_unit, Em. simpl.
    rewrite Hg. reflexivity.
  - intros k H1 H2 H3 H4 H5 H6 H7. rewrite Hk by assumption.
    apply row_base_other; assumption.
Qed.



(** ** Digits, lines and records *)



Lemma digit_not_newline (c : ascii) : is_digit c = true -> c <> newline.
Proof. intros H ->. vm_compute in H. discriminate. Qed.










(** ** What a validated record looks like *)

Lemma validate_rent_fields (r : pydict) :
  exists r1 l1,
    validate_rent r = inr (r1, l1)
    /\ (forall k, k <> "rent_amount" -> r1 !! k = r !! k)
    /\ ((get_truthy r "rent_amount" = false
         /\ r1 !! "rent_amount" = r !! "rent_amount")
        \/ (get_truthy r "rent_amount" = true
            /\ ((exists q, py_float (field_or_none r "rent_amount") = inr q
                           /\ r1 !! "rent_amount" = Some (VDecimal q))
                \/ ((exists e, py_float (field_or_none r "rent_amount")
                                = inl e)
                    /\ r1 !! "rent_amount" = Some VNone)))).
Proof.
  unfold validate_rent.
  destruct (get_truthy r "rent_amount") eqn:Ht.
  - destruct (py_float (field_or_none r "rent_amount")) as [e | q] eqn:Ef.
    + destruct (py_float_raises _ _ Ef) as [-> | ->];
        (eexists; eexists; split; [reflexivity |]; split;
         [ intros k Hk; apply lookup_set_field_ne; congruence
         | right; split; [reflexivity |]; right;
           split; [eexists; reflexivity | apply lookup_set_field_eq] ]).
    + eexists. eexists. split; [reflexivity |]. split.
      * intros k Hk. apply lookup_set_field_ne. congruence.
      * right. split; [reflexivity |]. left. exists q.
        split; [reflexivity | apply lookup_set_field_eq].
  - exists r, []. split; [reflexivity |]. split; [reflexivity |].
    left. split; reflexivity.
Qed.

Lemma validate_area_fields (r : pydict) :
  exists r1 l1,
    validate_area r = inr (r1, l1)
    /\ (forall k, k <> "area_sqft" -> r1 !! k = r !! k)
    /\ ((get_truthy r "area_sqft" = false
         /\ r1 !! "area_sqft" = r !! "area_sqft")
        \/ (get_truthy r "area_sqft" = true
            /\ ((exists n, py_int (field_or_none r "area_sqft") = inr n
                           /\ r1 !! "area_sqft" = Some (VInt n))
                \/ ((exists e, py_int (field_or_none r "area_sqft") = inl e)
                    /\ r1 !! "area_sqft" = Some VNone)))).
Proof.
  unfold validate_area.
  destruct (get_truthy r "area_sqft") eqn:Ht.
  - destruct (py_int (field_or_none r "area_sqft")) as [e | n] eqn:Ef.
    + destruct (py_int_raises _ _ Ef) as [-> | ->];
        (eexists; eexists; split; [reflexivity |]; split;
         [ intros k Hk; apply lookup_set_field_ne; congruence
         | right; split; [reflexivity |]; right;
           split; [eexists; reflexivity | apply lookup_set_field_eq] ]).
    + eexists. eexists. split; [reflexivity |]. split.
      * intros k Hk. apply lookup_set_field_ne. congruence.
      * right. split; [reflexivity |]. left. exists n.
        split; [reflexivity | apply lookup_set_field_eq].
  - exists r, []. split; [reflexivity |]. split; [reflexivity |].
    left. split; reflexivity.
Qed.

Lemma validate_tenant_fields (repr_other : pyval -> string) (r : pydict) :
  (forall k, k <> "tenant_name" -> validate_tenant repr_other r !! k = r !! k)
  /\ ((get_truthy r "tenant_name" = false
       /\ validate_tenant repr_other r !! "tenant_name" = r !! "tenant_name")
      \/ (get_truthy r "tenant_name" = true
          /\ ((exists s, validate_tenant repr_other r !! "tenant_name"
                         = Some (VStr s)
                         /\ name_ok s = true
                         /\ s = remove_artifacts
                                  (strip (py_str repr_other
                                            (field_or_none r "tenant_name"))))
              \/ validate_tenant repr_other r !! "tenant_name"
                 = Some VNone))).
Proof.
  unfold validate_tenant.
  destruct (get_truthy r "tenant_name") eqn:Ht.
  - destruct (name_ok _) eqn:Hn.
    + split; [intros k Hk; apply lookup_set_field_ne; congruence |].
      right. split; [reflexivity |]. left. eexists.
      split; [apply lookup_set_field_eq |]. split; [exact Hn | reflexivity].
    + split; [intros k Hk; apply lookup_set_field_ne; congruence |].
      right. split; [reflexivity |]. right. apply lookup_set_field_eq.
  - split; [reflexivity |]. left. split; reflexivity.
Qed.

Lemma validate_status_fields (r : pydict) :
  (forall k, k <> "status" -> validate_status r !! k = r !! k)
  /\ ((get_truthy r "status" = true
       /\ validate_status r !! "status" = r !! "status")
      \/ (get_truthy r "status" = false
          /\ validate_status r !! "status"
             = Some (VStr (if get_truthy r "tenant_name"
                           then "occupied" else "vacant")))).
Proof.
  unfold validate_status.
  destruct (get_truthy r "status") eqn:Ht.
  - split; [reflexivity |]. left. split; reflexivity.
  - split; [intros k Hk; apply lookup_set_field_ne; congruence |].
    right. split; [reflexivity | apply lookup_set_field_eq].
Qed.

Lemma validate_record_fields (repr_other : pyval -> string) (r : pydict) :
  exists out, validate_record repr_other r = inr out
              /\ validated_fields repr_other r (fst out).
Proof.
  unfold validate_record.
  destruct (validate_rent_fields r) as (r1 & l1 & E1 & K1 & R1).
  destruct (validate_area_fields r1) as (r2 & l2 & E2 & K2 & A2).
  rewrite E1. cbn [bind fst snd]. rewrite E2. cbn [bind fst snd ret].
  eexists. split; [reflexivity |]. cbn [fst].
  destruct (validate_tenant_fields repr_other r2) as (K3 & T3).
  destruct (validate_status_fields (validate_tenant repr_other r2))
    as (K4 & S4).
  assert (Er2 : forall k, k <> "rent_amount" -> k <> "area_sqft" ->
                          r2 !! k = r !! k).
  { intros k H1 H2. rewrite K2, K1 by assumption. reflexivity. }
  split; [| split; [| split; [| split]]].
  - intros k H1 H2 H3 H4. rewrite K4, K3, Er2 by assumption. reflexivity.
  - rewrite K4, K3, K2 by discriminate. exact R1.
  - rewrite K4, K3 by discriminate.
    assert (Ea : r1 !! "area_sqft" = r !! "area_sqft")
      by (apply K1; discriminate).
    rewrite <- (get_truthy_eq _ _ _ Ea), <- (field_or_none_eq _ _ _ Ea), <- Ea.
    exact A2.
  - rewrite K4 by discriminate.
    assert (Et : r2 !! "tenant_name" = r !! "tenant_name")
      by (apply Er2; discriminate).
    rewrite <- (get_truthy_eq _ _ _ Et), <- (field_or_none_eq _ _ _ Et), <- Et.
    exact T3.
  - assert (Es : validate_tenant repr_other r2 !! "status" = r !! "status")
      by (rewrite K3, Er2 by discriminate; reflexivity).
    rewrite <- (get_truthy_eq _ _ _ Es), <- Es.
    rewrite (get_truthy_eq _ _ "tenant_name"
               (K4 "tenant_name" ltac:(discriminate))).
    exact S4.
Qed.

Lemma get_truthy_lookup (r : pydict) (k : string) :
  get_truthy r k = true -> exists v, r !! k = Some v /\ truthy v = true.
Proof.
  unfold get_truthy. destruct (r !! k) as [v |]; [eauto | discriminate].
Qed.

Lemma get_truthy_false (r : pydict) (k : string) (v : pyval) :
  get_truthy r k = false -> r !! k = Some v -> truthy v = false.
Proof. unfold get_truthy. intros H E. rewrite E in H. exact H. Qed.

Lemma validated_clean (repr_other : pyval -> string) (r r' : pydict) :
  get_truthy r "unit_number" = true ->
  validated_fields repr_other r r' -> clean_record r'.
Proof.
  intros Hu (K & R & A & T & S).
  split; [| split; [| split; [| split]]].
  - rewrite (get_truthy_eq r r' "unit_number"); [exact Hu |].
    apply K; discriminate.
  - destruct S as [(Ht & E) | (_ & E)].
    + rewrite (get_truthy_eq r r' "status" E). exact Ht.
    + unfold get_truthy at 1. rewrite E.
      destruct (get_truthy r' "tenant_name"); reflexivity.
  - intros v Hv Ht.
    destruct R as [(Hf & E) | (_ & [(q & _ & E) | (_ & E)])].
    + rewrite E in Hv. rewrite (get_truthy_false _ _ _ Hf Hv) in Ht.
      discriminate.
    + rewrite E in Hv. injection Hv as <-. eauto.
    + rewrite E in Hv. injection Hv as <-. discriminate.
  - intros v Hv Ht.
    destruct A as [(Hf & E) | (_ & [(n & _ & E) | (_ & E)])].
    + rewrite E in Hv. rewrite (get_truthy_false _ _ _ Hf Hv) in Ht.
      discriminate.
    + rewrite E in Hv. injection Hv as <-. eauto.
    + rewrite E in Hv. injection Hv as <-. discriminate.
  - intros v Hv Ht.
    destruct T as [(Hf & E) | (_ & [(s & E & Hn & _) | E])].
    + rewrite E in Hv. rewrite (get_truthy_false _ _ _ Hf Hv) in Ht.
      discriminate.
    + rewrite E in Hv. injection Hv as <-. eauto.
    + rewrite E in Hv. injection Hv as <-. discriminate.
Qed.

Lemma clean_summary_ready (r : pydict) : clean_record r -> summary_ready r.
Proof.
  intros (_ & _ & R & A & _). split.
  - intros Ht. destruct (get_truthy_lookup _ _ Ht) as (v & E & Hv).
    destruct (R v E Hv) as (q & ->).
    unfold field_or_none. rewrite E. exists q. reflexivity.
  - intros Ht. destruct (get_truthy_lookup _ _ Ht) as (v & E & Hv).
    destruct (A v E Hv) as (n & ->). eauto.
Qed.

Lemma validate_extracted_data_all (repr_other : pyval -> string)
    (P : pydict -> Prop) (data : list pydict) :
  (forall r r', In r data -> get_truthy r "unit_number" = true ->
                validated_fields repr_other r r' -> P r') ->
  exists out log,
    validate_extracted_data repr_other data = inr (out, log)
    /\ Forall P out
    /\ (out = [] ->
        forall r, In r data -> get_truthy r "unit_number" = false).
Proof.
  induction data as [| r data IH]; intros HP.
  - exists [], []. split; [reflexivity |]. split; [constructor |].
    intros _ r [].
  - destruct IH as (out & log & E & Ho & Hn).
    { intros x x' Hx. apply HP. right. exact Hx. }
    cbn [validate_extracted_data].
    destruct (get_truthy r "unit_number") eqn:Hu; cbn [negb].
    + destruct (validate_record_fields repr_other r) as (o & Eo & Hf).
      rewrite Eo, E. cbn [bind ret fst snd].
      eexists. eexists. split; [reflexivity |].
      split; [| discriminate].
      constructor; [| exact Ho].
      apply (HP r (fst o)); [left; reflexivity | exact Hu | exact Hf].
    + exists out, log. split; [exact E |]. split; [exact Ho |].
      intros Hout x [<- | Hx]; [exact Hu | exact (Hn Hout x Hx)].
Qed.



(** ** The records of the whole pipeline *)

Lemma process_document_cases (repr_other : pyval -> string) (env : pdf_env) :
  match recover env with
  | inl e => process_document repr_other env = inl e
  | inr text =>
      exists data log,
        validate_extracted_data repr_other (_extract_table_data text)
        = inr (data, log)
        /\ process_document repr_other env = inr (text, data)
  end.
Proof.
  unfold process_document.
  destruct (recover env) as [e | text]; [reflexivity |].
  cbn [bind]. rewrite extract_structured_data_table. cbn [bind].
  destruct (validate_extracted_data_all repr_other summary_ready
              (_extract_table_data text)) as (out & log & E & H & _).
  { intros r r' _ Hu Hf. apply clean_summary_ready.
    exact (validated_clean repr_other r r' Hu Hf). }
  exists out, log. split; [exact E |].
  rewrite E. cbn [bind fst].
  destruct out as [| r out]; [reflexivity |].
  destruct (summary_returns (r :: out) H) as (summary & ->). reflexivity.
Qed.

Lemma process_document_inv (repr_other : pyval -> string) (env : pdf_env)
    (text : string) (data : list pydict) :
  process_document repr_other env = inr (text, data) ->
  recover env = inr text
  /\ exists log,
       validate_extracted_data repr_other (_extract_table_data text)
       = inr (data, log).
Proof.
  intros H. pose proof (process_document_cases repr_other env) as C.
  destruct (recover env) as [e | text'].
  - rewrite C in H. discriminate.
  - destruct C as (data' & log & E & C). rewrite C in H.
    injection H as <- <-. split; [reflexivity | eauto].
Qed.

Lemma Qgt_100_truthy (q : Q) : (100 < q)%Q -> truthy (VFloat q) = true.
Proof.
  intros H. simpl. apply negb_true_iff.
  destruct (Qeq_bool q 0) eqn:E; [| reflexivity].
  apply Qeq_bool_eq in E. rewrite E in H. discriminate.
Qed.

Lemma table_record_validated (repr_other : pyval -> string)
    (line : string) (r r' : pydict) :
  _parse_table_row line = Some r -> validated_fields repr_other r r' ->
  pipeline_record r'
  /\ r' !! "unit_number" = r !! "unit_number"
  /\ r' !! "unit_type" = r !! "unit_type"
  /\ r' !! "status" = Some (VStr (table_status line)).
Proof.
  intros H (K & R & A & T & S).
  destruct (parse_table_row_record line r H) as (Hu & Hs & Ht & Hr & Hk).
  assert (Eu : r' !! "unit_number" = r !! "unit_number")
    by (apply K; discriminate).
  assert (Es : r' !! "status" = Some (VStr (table_status line))).
  { destruct S as [(_ & E) | (Hf & _)]; [rewrite E; exact Hs |].
    unfold get_truthy in Hf. rewrite Hs, table_status_truthy in Hf.
    discriminate. }
  split; [| split; [exact Eu | split; [apply K; discriminate | exact Es]]].
  split; [| split; [| split; [| split]]].
  - rewrite Eu. exact Hu.
  - rewrite Es.
    destruct (table_status_cases line) as [-> | [-> | ->]]; auto.
  - intros v Hv.
    destruct (py_max (table_amounts (findall pat_rent_amount line)))
      as [q |] eqn:Hm; simpl in Hr.
    + assert (Hq : (100 < q)%Q).
      { destruct (py_max_largest _ _ Hm) as (Hq & _).
        apply table_amounts_in in Hq as (_ & Hq). exact Hq. }
      assert (Ef : py_float (field_or_none r "rent_amount") = inr q)
        by (unfold field_or_none; rewrite Hr; reflexivity).
      destruct R as [(Hf & _) | (_ & [(q' & Eq & E) | ((e & Ee) & _)])].
      * unfold get_truthy in Hf. rewrite Hr, (Qgt_100_truthy q Hq) in Hf.
        discriminate.
      * rewrite Ef in Eq. injection Eq as <-.
        rewrite E in Hv. injection Hv as <-. eauto.
      * rewrite Ef in Ee. discriminate.
    + destruct R as [(_ & E) | (Hf & _)].
      * rewrite E, Hr in Hv. discriminate.
      * unfold get_truthy in Hf. rewrite Hr in Hf. discriminate.
  - destruct A as [(_ & E) | (Hf & _)].
    + rewrite E. apply Hk; discriminate.
    + unfold get_truthy in Hf. rewrite Hk in Hf by discriminate.
      discriminate.
  - intros v Hv Hvt.
    destruct T as [(Hf & E) | (Htt & [(s & E & Hn & _) | E])].
    + rewrite E in Hv. rewrite (get_truthy_false _ _ _ Hf Hv) in Hvt.
      discriminate.
    + rewrite E in Hv. injection Hv as <-.
      split; [| eauto].
      rewrite Es. unfold get_truthy in Htt. rewrite Ht in Htt.
      unfold row_tenant in Htt.
      destruct (search pat_tenant_name line) as [m |]; [| discriminate].
      destruct (String.eqb (table_status line) "occupied") eqn:Ho;
        [| discriminate].
      apply String.eqb_eq in Ho. rewrite Ho. reflexivity.
    + rewrite E in Hv. injection Hv as <-. discriminate.
Qed.

Lemma table_record_truthy_unit (line : string) (r : pydict) :
  _parse_table_row line = Some r -> get_truthy r "unit_number" = true.
Proof.
  intros H.
  destruct (parse_table_row_record line r H) as ((c & t & E & _) & _).
  unfold get_truthy. rewrite E. reflexivity.
Qed.

Lemma process_document_records_aux (repr_other : pyval -> string)
    (env : pdf_env) (text : string) (data : list pydict) :
  process_document repr_other env = inr (text, data) ->
  Forall pipeline_record data.
Proof.
  intros H. apply process_document_inv in H as (_ & log & E).
  destruct (validate_extracted_data_all repr_other pipeline_record
              (_extract_table_data text)) as (out & log' & E' & Ho & _).
  - intros r r' Hin _ Hf. apply table_data_rows in Hin as (line & Hl).
    exact (proj1 (table_record_validated repr_other line r r' Hl Hf)).
  - rewrite E in E'. injection E' as <- <-. exact Ho.
Qed.

(** X8. Every record [process_document] returns has a unit number that
    starts with a digit, a status that is vacant, occupied or unknown, a
    rent (if any) that is a [Decimal] above 100, never an area, and a
    tenant name only when the status is occupied, of more than two
    characters, letters and spaces only. *)
Theorem process_document_records (repr_other : pyval -> string)
    (env : pdf_env) (text : string) (data : list pydict) :
  process_document repr_other env = inr (text, data) ->
  Forall pipeline_record data.
Proof.
  intros H. apply process_document_inv in H as (_ & log & E).
  destruct (validate_extracted_data_all repr_other pipeline_record
              (_extract_table_data text)) as (out & log' & E' & Ho & _).
  - intros r r' Hin _ Hf. apply table_data_rows in Hin as (line & Hl).
    destruct (table_record_validated repr_other line r r' Hl Hf) as (Hp & _).
    exact Hp.
  - rewrite E in E'. injection E' as <- <-. exact Ho.
Qed.

Lemma process_document_records_witness :
  exists text data,
    process_document no_repr rent_roll_env = inr (text, data)
    /\ Forall pipeline_record data.
Proof.
  destruct (is_ok_true (process_document no_repr rent_roll_env))
    as ([text data] & H); [vm_compute; reflexivity |].
  exists text, data. split; [exact H |].
  exact (process_document_records no_repr rent_roll_env text data H).
Defined.

Lemma infer_from_numbers_decimal (v : pyval) :
  (v = VInt 0 \/ exists q, v = VDecimal q) ->
  infer_from_numbers v (VInt 0) = "Unknown".
Proof. intros [-> | (q & ->)]; reflexivity. Qed.

(** X9. Where [create_unit_records] calls it, that is for a record of
    [process_document] whose unit type is missing or 'Unknown',
    [_infer_unit_type] always answers 'Unknown': the rent is a [Decimal],
    which is neither [int] nor [float], and there is no area. *)
Theorem infer_unit_type_unknown_in_pipeline (repr_other : pyval -> string)
    (env : pdf_env) (text : string) (data : list pydict) (r : pydict) :
  process_document repr_other env = inr (text, data) ->
  In r data ->
  get_default r "unit_type" (VStr "Unknown") = VStr "Unknown" ->
  _infer_unit_type r = inr (VStr "Unknown").
Proof.
  intros H Hin Ht.
  pose proof (process_document_records_aux repr_other env text data H) as F.
  rewrite Forall_forall in F.
  destruct (F r (proj2 (list_elem_of_In _ _) Hin)) as (_ & _ & Hr & Ha & _).
  unfold _infer_unit_type. cbv zeta.
  assert (E : truthy (get_default r "unit_type" (VStr ""))
              && negb (py_eqb (get_default r "unit_type" (VStr ""))
                              (VStr "Unknown")) = false).
  { unfold get_default in *. destruct (r !! "unit_type") as [v |].
    - rewrite Ht. reflexivity.
    - reflexivity. }
  rewrite E. unfold ret. f_equal. f_equal.
  unfold get_default at 2. rewrite Ha.
  apply infer_from_numbers_decimal.
  unfold get_default. destruct (r !! "rent_amount") as [v |] eqn:Ev.
  - right. destruct (Hr v eq_refl) as (q & -> & _). eauto.
  - left. reflexivity.
Qed.

(** ** The page markers in the recovered text *)

Lemma s2l_app (a b : string) : s2l (a ++ b) = (s2l a ++ s2l b)%list.
Proof. induction a as [| c a IH]; simpl; [| rewrite IH]; reflexivity. Qed.

Lemma str_app_assoc (a b c : string) : (a ++ b) ++ c = a ++ (b ++ c).
Proof.
  induction a as [| x a IH]; [reflexivity |].
  change (String x ((a ++ b) ++ c) = String x (a ++ (b ++ c))).
  f_equal. exact IH.
Qed.

Lemma digit_char_is_digit (m : nat) :
  (m < 10)%nat -> is_digit (digit_char m) = true.
Proof.
  intros H. do 10 (destruct m as [| m]; [reflexivity |]). lia.
Qed.

Lemma nat_digits_digits (fuel n : nat) (acc : chars) :
  forallb is_digit acc = true ->
  forallb is_digit (nat_digits fuel n acc) = true.
Proof.
  revert n acc. induction fuel as [| fuel IH]; intros n acc H; [exact H |].
  cbn [nat_digits]. cbv zeta.
  assert (H' : forallb is_digit (digit_char (n mod 10) :: acc) = true).
  { cbn [forallb]. rewrite H, digit_char_is_digit; [reflexivity |].
    apply Nat.mod_upper_bound. lia. }
  destruct (n <? 10)%nat; [exact H' | apply IH; exact H'].
Qed.

Lemma nat_digits_nonempty (fuel n : nat) (acc : chars) :
  acc <> [] -> nat_digits fuel n acc <> [].
Proof.
  revert n acc. induction fuel as [| fuel IH]; intros n acc H; [exact H |].
  cbn [nat_digits]. cbv zeta.
  destruct (n <? 10)%nat; [discriminate | apply IH; discriminate].
Qed.

Lemma str_of_nat_digits (n : nat) :
  exists c t, s2l (str_of_nat n) = c :: t
              /\ forallb is_digit (c :: t) = true.
Proof.
  unfold str_of_nat. rewrite s2l_l2s.
  pose proof (nat_digits_digits (S n) n [] eq_refl) as H.
  destruct (nat_digits (S n) n []) as [| c t] eqn:E; [| eauto].
  cbn [nat_digits] in E. cbv zeta in E.
  destruct (n <? 10)%nat; [discriminate |].
  apply nat_digits_nonempty in E; [destruct E | discriminate].
Qed.

Lemma page_marker_chars (k : nat) :
  exists t, s2l (page_marker k)
            = ("-"%char :: t ++ ["-"%char])%list
            /\ forallb marker_char t = true
            /\ existsb is_digit t = true.
Proof.
  destruct (str_of_nat_digits k) as (c & t & E & H).
  unfold page_marker. rewrite !s2l_app, E.
  exists (s2l "-- Page " ++ (c :: t) ++ s2l " --")%list.
  split; [| split].
  - cbn [s2l list_ascii_of_string app].
    rewrite <- !List.app_assoc. reflexivity.
  - rewrite !forallb_app. rewrite andb_true_iff. split; [reflexivity |].
    rewrite andb_true_iff. split; [| reflexivity].
    clear E. induction (c :: t) as [| x l IH]; [reflexivity |].
    cbn [forallb] in *. apply andb_true_iff in H as (Hx & Hl).
    unfold marker_char at 1. rewrite Hx. simpl. exact (IH Hl).
  - assert (Hd : existsb is_digit (c :: t) = true).
    { cbn [forallb] in H. apply andb_true_iff in H as (Hc & _).
      cbn [existsb]. rewrite Hc. reflexivity. }
    rewrite !existsb_app, Hd, orb_true_l, orb_true_r. reflexivity.
Qed.

Lemma marker_char_props (c : ascii) :
  marker_char c = true ->
  c <> newline /\ c <> "V"%char /\ c <> "A"%char /\ c <> "O"%char
  /\ c <> "R"%char.
Proof.
  intros H.
  assert (A : implb (marker_char c)
                (negb (Ascii.eqb c newline) && negb (Ascii.eqb c "V")
                 && negb (Ascii.eqb c "A") && negb (Ascii.eqb c "O")
                 && negb (Ascii.eqb c "R")) = true).
  { clear H. revert c.
    apply (ascii_all (fun c => implb (marker_char c)
                (negb (Ascii.eqb c newline) && negb (Ascii.eqb c "V")
                 && negb (Ascii.eqb c "A") && negb (Ascii.eqb c "O")
                 && negb (Ascii.eqb c "R")))).
    vm_compute. reflexivity. }
  rewrite H in A. cbn [implb] in A.
  rewrite !andb_true_iff, !negb_true_iff, !Ascii.eqb_neq in A. tauto.
Qed.

Lemma strip_l_id (c d : ascii) (l : chars) :
  is_space c = false -> is_space d = false ->
  strip_l (c :: l ++ [d]) = (c :: l ++ [d])%list.
Proof.
  intros Hc Hd. unfold strip_l. cbn [drop_while]. rewrite Hc.
  change (c :: l ++ [d])%list with ((c :: l) ++ [d])%list.
  rewrite rev_app_distr. cbn [rev app drop_while]. rewrite Hd.
  change (d :: rev l ++ [c])%list with ([d] ++ rev (c :: l))%list.
  rewrite rev_app_distr, rev_involutive. reflexivity.
Qed.

Lemma strip_page_marker (k : nat) : strip (page_marker k) = page_marker k.
Proof.
  destruct (page_marker_chars k) as (t & E & _).
  unfold strip. rewrite E, strip_l_id by reflexivity.
  rewrite <- E. apply l2s_s2l.
Qed.

Lemma has_digit_page_marker (k : nat) : has_digit (page_marker k) = true.
Proof.
  destruct (page_marker_chars k) as (t & E & _ & H).
  unfold has_digit. rewrite E. cbn [existsb].
  rewrite existsb_app, H. reflexivity.
Qed.

Lemma split_nl_prefix (a l cur : chars) :
  ~ In newline a ->
  split_nl cur (a ++ newline :: l) = (rev cur ++ a)%list :: split_nl [] l.
Proof.
  revert cur. induction a as [| c a IH]; intros cur H.
  - cbn [app split_nl]. destruct (ascii_dec newline newline); [| congruence].
    rewrite app_nil_r. reflexivity.
  - cbn [app split_nl]. destruct (ascii_dec c newline) as [-> | _].
    + exfalso. apply H. left. reflexivity.
    + rewrite IH by (intros Hin; apply H; right; exact Hin).
      cbn [rev]. rewrite <- List.app_assoc. reflexivity.
Qed.

Lemma page_marker_no_newline (k : nat) : ~ In newline (s2l (page_marker k)).
Proof.
  destruct (page_marker_chars k) as (t & E & H & _). rewrite E.
  intros [Hn | Hn]; [discriminate |].
  apply in_app_or in Hn as [Hn | [Hn | []]]; [| discriminate].
  rewrite forallb_forall in H.
  destruct (marker_char_props _ (H _ Hn)) as (Hc & _). congruence.
Qed.

Lemma split_lines_marker (k : nat) (rest : string) :
  split_lines (page_marker k ++ nl ++ rest)
  = page_marker k :: split_lines rest.
Proof.
  unfold split_lines. rewrite !s2l_app.
  change (s2l nl) with [newline]. cbn [app].
  rewrite split_nl_prefix by apply page_marker_no_newline.
  cbn [map rev app]. rewrite l2s_s2l. reflexivity.
Qed.

Lemma contains_l_head (c : ascii) (sub l : chars) :
  ~ In c l -> contains_l (c :: sub) l = false.
Proof.
  induction l as [| x l IH]; intros H; [reflexivity |].
  cbn [contains_l is_prefix].
  destruct (ascii_dec c x) as [-> | _].
  - exfalso. apply H. left. reflexivity.
  - apply IH. intros Hin. apply H. right. exact Hin.
Qed.

Lemma table_status_page_marker (k : nat) :
  table_status (page_marker k) = "unknown".
Proof.
  destruct (page_marker_chars k) as (t & E & H & _).
  assert (N : forall c sub, marker_char c = false ->
                contains (String c sub) (page_marker k) = false).
  { intros c sub Hc. unfold contains. cbn [s2l list_ascii_of_string].
    apply contains_l_head. rewrite E.
    rewrite forallb_forall in H.
    intros [<- | Hin]; [discriminate |].
    apply in_app_or in Hin as [Hin | [<- | []]]; [| discriminate].
    rewrite (H _ Hin) in Hc. discriminate. }
  unfold table_status.
  rewrite (N "V"%char "acant"), (N "A"%char "vailable"),
          (N "O"%char "ccupied"), (N "R"%char "ented") by reflexivity.
  reflexivity.
Qed.

Lemma join_marked (xs : list string) :
  Forall marked xs -> xs <> [] -> marked (join blank_line xs).
Proof.
  intros H Hne. destruct xs as [| x xs]; [congruence |].
  apply Forall_cons in H as ((k & rest & Hk & ->) & _).
  destruct xs as [| y ys]; [exists k, rest; auto |].
  exists k, (rest ++ blank_line ++ join blank_line (y :: ys)).
  split; [exact Hk |].
  change (join blank_line ((page_marker k ++ nl ++ rest) :: y :: ys))
    with ((page_marker k ++ nl ++ rest) ++ blank_line
          ++ join blank_line (y :: ys)).
  rewrite !str_app_assoc. reflexivity.
Qed.

Lemma omap_Forall_out {A B} (f : A -> option B) (P : B -> Prop)
    (l : list A) :
  (forall x y, f x = Some y -> P y) -> Forall P (omap f l).
Proof.
  intros H. induction l as [| x l IH]; [constructor |].
  cbn [omap list_omap]. destruct (f x) as [y |] eqn:E; [| exact IH].
  constructor; [exact (H x y E) | exact IH].
Qed.

Lemma pymupdf_marked (env : pdf_env) :
  is_blank (extract_text_pymupdf env) = false ->
  marked (extract_text_pymupdf env).
Proof.
  unfold extract_text_pymupdf.
  destruct (fitz_pages env) as [doc |]; [| discriminate].
  destruct (page_texts doc) as [texts |]; [| discriminate].
  intros H. apply join_marked.
  - apply omap_Forall_out. intros [i t] y E.
    destruct (is_blank t); [discriminate |]. injection E as <-.
    exists (i + 1)%nat, t. split; [lia | reflexivity].
  - intros E. rewrite E in H. discriminate.
Qed.

Lemma ocr_marked (env : pdf_env) :
  is_blank (extract_text_from_pdf env) = false ->
  marked (extract_text_from_pdf env).
Proof.
  unfold extract_text_from_pdf.
  destruct (pdf_to_images env) as [| im ims]; [discriminate |].
  intros H. apply join_marked.
  - apply omap_Forall_out. intros [i t] y E. cbv zeta in E.
    destruct (String.eqb (extract_text_from_image t) "");
      [discriminate |].
    injection E as <-.
    exists (i + 1)%nat, (extract_text_from_image t).
    split; [lia | reflexivity].
  - intros E. rewrite E in H. discriminate.
Qed.

Lemma plumber_page_marked (i : nat) (page : plumber_page) :
  marked (plumber_page_content i page).
Proof.
  unfold plumber_page_content. cbv zeta.
  destruct (pp_text page) as [text |].
  - destruct (String.eqb text "").
    + exists (i + 1)%nat, (tables_text (pp_tables page)).
      split; [lia |]. rewrite !str_app_assoc. reflexivity.
    + exists (i + 1)%nat, (text ++ nl ++ tables_text (pp_tables page)).
      split; [lia |]. rewrite !str_app_assoc. reflexivity.
  - exists (i + 1)%nat, (tables_text (pp_tables page)).
    split; [lia |]. rewrite !str_app_assoc. reflexivity.
Qed.

Lemma pdfplumber_marked (env : pdf_env) :
  is_blank (extract_text_pdfplumber env) = false ->
  marked (extract_text_pdfplumber env).
Proof.
  unfold extract_text_pdfplumber.
  destruct (plumber_pages env) as [pages |]; [| discriminate].
  intros H. apply join_marked.
  - apply omap_Forall_out. intros [i page] y E. cbv zeta in E.
    destruct (String.eqb _ _); [discriminate |].
    injection E as <-. apply plumber_page_marked.
  - intros E. rewrite E in H. discriminate.
Qed.

Lemma recover_source (env : pdf_env) (text : string) :
  recover env = inr text ->
  path_exists env = true
  /\ is_blank text = false
  /\ ((is_machine_readable env = true
       /\ is_blank (extract_text_pdfplumber env) = false
       /\ text = extract_text_pdfplumber env)
      \/ (is_machine_readable env = true
          /\ is_blank (extract_text_pdfplumber env) = true
          /\ text = extract_text_pymupdf env)
      \/ (is_machine_readable env = false
          /\ tesseract_ok env = true
          /\ text = extract_text_from_pdf env)).
Proof.
  unfold recover, is_tesseract_available.
  destruct (path_exists env); [| discriminate]. cbn [negb].
  destruct (is_machine_readable env).
  - cbv zeta.
    destruct (is_blank (extract_text_pdfplumber env)) eqn:Hb; cbn [bind ret].
    + destruct (is_blank (extract_text_pymupdf env)) eqn:Hb';
        [discriminate |].
      intros H. injection H as <-. auto 10.
    + rewrite Hb. intros H. injection H as <-. auto 10.
  - destruct (tesseract_ok env); [| discriminate]. cbn [negb bind ret].
    destruct (is_blank (extract_text_from_pdf env)) eqn:Hb;
      [discriminate |].
    intros H. injection H as <-. auto 10.
Qed.

Lemma recover_marked (env : pdf_env) (text : string) :
  recover env = inr text -> marked text.
Proof.
  intros H.
  destruct (recover_source env text H)
    as (_ & Hb & [(_ & _ & ->) | [(_ & _ & ->) | (_ & _ & ->)]]).
  - apply pdfplumber_marked, Hb.
  - apply pymupdf_marked, Hb.
  - apply ocr_marked, Hb.
Qed.

Lemma table_data_marker (k : nat) (rest : string) :
  exists r0,
    _parse_table_row (page_marker k) = Some r0
    /\ _extract_table_data (page_marker k ++ nl ++ rest)
       = r0 :: _extract_table_data rest.
Proof.
  destruct (digit_line_is_table_row_aux _ (has_digit_page_marker k))
    as (Ht & r0 & Hr & Hn).
  exists r0. split; [exact Hr |].
  unfold _extract_table_data. rewrite split_lines_marker.
  cbn [omap list_omap]. cbv zeta.
  rewrite strip_page_marker,
    (has_digit_nonempty _ (has_digit_page_marker k)), Ht, Hr, Hn.
  reflexivity.
Qed.

Lemma validate_extracted_data_cons (repr_other : pyval -> string)
    (r : pydict) (data out : list pydict) (log : list warning) :
  get_truthy r "unit_number" = true ->
  validate_extracted_data repr_other (r :: data) = inr (out, log) ->
  exists r' out',
    out = r' :: out' /\ validated_fields repr_other r r'.
Proof.
  intros Hu. cbn [validate_extracted_data]. rewrite Hu. cbn [negb].
  destruct (validate_record_fields repr_other r) as (o & Eo & Hf).
  rewrite Eo. cbn [bind].
  destruct (validate_extracted_data repr_other data) as [e | rs];
    [discriminate |].
  cbn [bind ret]. intros H. injection H as <- _. eauto.
Qed.

Lemma page_marker_unit_small (k : nat) :
  (1 <= k < 1000)%nat ->
  option_map (m_group 1) (search pat_unit_number (page_marker k))
  = Some (str_of_nat k).
Proof.
  intros Hk.
  assert (A : forallb
                (fun k =>
                   match search pat_unit_number (page_marker k) with
                   | Some m => String.eqb (m_group 1 m) (str_of_nat k)
                   | None => false
                   end) (List.seq 1 999) = true)
    by (vm_compute; reflexivity).
  rewrite forallb_forall in A.
  specialize (A k ltac:(apply in_seq; lia)).
  destruct (search pat_unit_number (page_marker k)) as [m |];
    [| discriminate].
  apply String.eqb_eq in A. simpl. rewrite A. reflexivity.
Qed.

Lemma parse_table_row_unit (line : string) (r : pydict) :
  _parse_table_row line = Some r ->
  r !! "unit_number"
  = option_map (fun m => VStr (m_group 1 m)) (search pat_unit_number line)
  /\ r !! "unit_type"
     = option_map (fun m => VStr (m_group 1 m)) (search pat_unit_type line).
Proof.
  intros H. destruct (parse_table_row_result line) as (R & Hk & _ & E).
  rewrite H in E.
  destruct (get_truthy (row_base line) "unit_number"); [| discriminate].
  injection E as ->. rewrite !Hk by discriminate.
  split; [apply row_base_unit |].
  unfold row_base.
  rewrite lookup_set_field_ne, lookup_set_when_ne by discriminate.
  rewrite lookup_set_when_eq.
  destruct (search pat_unit_type line) as [m |]; [reflexivity |].
  rewrite lookup_set_when_ne by discriminate. apply lookup_empty.
Qed.

Lemma page_marker_record (repr_other : pyval -> string) (env : pdf_env)
    (text : string) (data : list pydict) :
  process_document repr_other env = inr (text, data) ->
  exists k rest r0 r others,
    (1 <= k)%nat
    /\ text = page_marker k ++ nl ++ rest
    /\ _parse_table_row (page_marker k) = Some r0
    /\ data = r :: others
    /\ validated_fields repr_other r0 r.
Proof.
  intros H. apply process_document_inv in H as (Hr & log & E).
  destruct (recover_marked env text Hr) as (k & rest & Hk & ->).
  destruct (table_data_marker k rest) as (r0 & H0 & Et).
  rewrite Et in E.
  destruct (validate_extracted_data_cons repr_other r0 _ data log
              (table_record_truthy_unit _ _ H0) E) as (r & others & -> & Hf).
  exists k, rest, r0, r, others. auto.
Qed.

(** X10. The first record [process_document] returns is never a unit of
    the document: it is parsed from the marker line of the first page
    that has text. Its status is unknown, it has no tenant, and its unit
    number is the page number (shown for page numbers below 1000). In
    particular the returned list is never empty. *)
Theorem page_marker_becomes_record (repr_other : pyval -> string)
    (env : pdf_env) (text : string) (data : list pydict) :
  process_document repr_other env = inr (text, data) ->
  exists k rest r others,
    (1 <= k)%nat
    /\ text = page_marker k ++ nl ++ rest
    /\ data = r :: others
    /\ r !! "status" = Some (VStr "unknown")
    /\ r !! "tenant_name" = None
    /\ ((k < 1000)%nat -> r !! "unit_number" = Some (VStr (str_of_nat k))).
Proof.
  intros H.
  destruct (page_marker_record repr_other env text data H)
    as (k & rest & r0 & r & others & Hk & Et & H0 & Ed & Hf).
  exists k, rest, r, others.
  destruct (table_record_validated repr_other _ r0 r H0 Hf)
    as (_ & Eu & _ & Es).
  rewrite table_status_page_marker in Es.
  split; [exact Hk |]. split; [exact Et |]. split; [exact Ed |].
  split; [exact Es |]. split.
  - destruct (parse_table_row_record _ r0 H0) as (_ & _ & Ht & _).
    unfold row_tenant in Ht. rewrite table_status_page_marker in Ht.
    assert (Ht0 : r0 !! "tenant_name" = None).
    { rewrite Ht.
      destruct (search pat_tenant_name (page_marker k)); reflexivity. }
    destruct Hf as (_ & _ & _ & [(_ & E) | (Htt & _)] & _).
    + rewrite E. exact Ht0.
    + unfold get_truthy in Htt. rewrite Ht0 in Htt. discriminate.
  - intros Hlt. rewrite Eu.
    rewrite (proj1 (parse_table_row_unit _ r0 H0)).
    pose proof (page_marker_unit_small k (conj Hk Hlt)) as Hm.
    destruct (search pat_unit_number (page_marker k)) as [m |];
      [| discriminate].
    simpl in Hm. injection Hm as Hm. simpl. rewrite Hm. reflexivity.
Qed.

Lemma page_marker_becomes_record_witness :
  exists text r others,
    process_document no_repr rent_roll_env = inr (text, r :: others)
    /\ r !! "status" = Some (VStr "unknown")
    /\ r !! "tenant_name" = None.
Proof.
  destruct (is_ok_true (process_document no_repr rent_roll_env))
    as ([text data] & H); [vm_compute; reflexivity |].
  destruct (page_marker_becomes_record no_repr rent_roll_env text data H)
    as (k & rest & r & others & _ & _ & Ed & Es & Et & _).
  exists text, r, others. rewrite <- Ed. auto.
Defined.

Lemma infer_unit_type_unknown_in_pipeline_witness :
  exists text data r,
    process_document no_repr rent_roll_env = inr (text, data)
    /\ In r data
    /\ r !! "unit_type" = None
    /\ _infer_unit_type r = inr (VStr "Unknown").
Proof.
  assert (B : match process_document no_repr rent_roll_env with
              | inr (_, data) =>
                  existsb (fun r : pydict => negb (is_some (r !! "unit_type")))
                          data
              | inl _ => false
              end = true) by (vm_compute; reflexivity).
  destruct (process_document no_repr rent_roll_env) as [e | [text data]] eqn:H;
    [discriminate |].
  apply existsb_exists in B as (r & Hin & Hr).
  assert (Eu : r !! "unit_type" = None)
    by (destruct (r !! "unit_type"); [discriminate | reflexivity]).
  exists text, data, r. split; [reflexivity |]. split; [exact Hin |].
  split; [exact Eu |].
  apply (infer_unit_type_unknown_in_pipeline no_repr rent_roll_env text data
           r H Hin).
  unfold get_default. rewrite Eu. reflexivity.
Defined.

(** ** Text recovery *)

Lemma recover_error (env : pdf_env) (e : exn) :
  recover env = inl e ->
  (e = FileNotFoundError /\ path_exists env = false)
  \/ (e = RuntimeError /\ path_exists env = true
      /\ is_machine_readable env = false /\ tesseract_ok env = false)
  \/ (e = ValueError /\ path_exists env = true
      /\ ((is_machine_readable env = true
           /\ is_blank (extract_text_pdfplumber env) = true
           /\ is_blank (extract_text_pymupdf env) = true)
          \/ (is_machine_readable env = false
              /\ tesseract_ok env = true
              /\ is_blank (extract_text_from_pdf env) = true))).
Proof.
  unfold recover, is_tesseract_available.
  destruct (path_exists env); cbn [negb].
  2: { intros H. injection H as <-. auto. }
  destruct (is_machine_readable env).
  - cbv zeta.
    destruct (is_blank (extract_text_pdfplumber env)) eqn:Hb; cbn [bind ret].
    + destruct (is_blank (extract_text_pymupdf env)) eqn:Hb';
        [| discriminate].
      intros H. injection H as <-. right. right. auto 10.
    + rewrite Hb. discriminate.
  - destruct (tesseract_ok env); cbn [negb bind ret].
    + destruct (is_blank (extract_text_from_pdf env)) eqn:Hb;
        [| discriminate].
      intros H. injection H as <-. right. right. auto 10.
    + intros H. injection H as <-. right. left. auto.
Qed.

(** X11. [process_document] fails only while it recovers the text. It
    raises nothing but [FileNotFoundError] (the path does not exist),
    [RuntimeError] (the document is not machine-readable and there is no
    OCR engine) and [ValueError] (the text of the chosen method is
    blank); in every other case it returns the recovered text with its
    records: extraction, validation and the summary never fail. *)
Theorem process_document_outcomes
    (repr_other : pyval -> string) (env : pdf_env) :
  (forall e, process_document repr_other env = inl e ->
     (e = FileNotFoundError /\ path_exists env = false)
     \/ (e = RuntimeError /\ path_exists env = true
         /\ is_machine_readable env = false /\ tesseract_ok env = false)
     \/ (e = ValueError /\ path_exists env = true
         /\ ((is_machine_readable env = true
              /\ is_blank (extract_text_pdfplumber env) = true
              /\ is_blank (extract_text_pymupdf env) = true)
             \/ (is_machine_readable env = false
                 /\ tesseract_ok env = true
                 /\ is_blank (extract_text_from_pdf env) = true))))
  /\ (forall text, recover env = inr text ->
        exists data, process_document repr_other env = inr (text, data))
  /\ (forall text data, process_document repr_other env = inr (text, data) ->
        recover env = inr text).
Proof.
  pose proof (process_document_cases repr_other env) as C.
  split; [| split].
  - intros e H. apply recover_error.
    destruct (recover env) as [e' | text].
    + rewrite C in H. injection H as <-. reflexivity.
    + destruct C as (data & log & _ & C). rewrite C in H. discriminate.
  - intros text H. rewrite H in C. destruct C as (data & log & _ & C).
    eauto.
  - intros text data H.
    exact (proj1 (process_document_inv repr_other env text data H)).
Qed.

(** ** The readability test *)

Lemma firstn_min_length {A} (n : nat) (l : list A) :
  firstn (Nat.min n (length l)) l = firstn n l.
Proof.
  destruct (Nat.le_ge_cases n (length l)) as [H | H].
  - rewrite Nat.min_l by exact H. reflexivity.
  - rewrite Nat.min_r by exact H.
    rewrite firstn_all, firstn_all2 by exact H. reflexivity.
Qed.

Lemma firstn_nil_iff {A} (l l' : list A) :
  firstn 3 l = firstn 3 l' -> (length l =? 0)%nat = (length l' =? 0)%nat.
Proof. destruct l, l'; simpl; intros H; congruence. Qed.

(** X12. [is_machine_readable] looks at the first three pages only: two
    documents that agree on them get the same answer, whatever the
    later pages hold. *)
Theorem machine_readable_first_three (env env' : pdf_env)
    (doc doc' : list (option string)) :
  fitz_pages env = Some doc -> fitz_pages env' = Some doc' ->
  firstn 3 doc = firstn 3 doc' ->
  is_machine_readable env = is_machine_readable env'.
Proof.
  intros E E' H. unfold is_machine_readable. rewrite E, E'. cbv zeta.
  rewrite (firstn_nil_iff doc doc' H), !firstn_min_length, H. reflexivity.
Qed.

Lemma machine_readable_first_three_witness :
  is_machine_readable late_text_env
  = is_machine_readable three_blank_pages_env
  /\ is_machine_readable late_text_env = false.
Proof.
  split; [| vm_compute; reflexivity].
  apply (machine_readable_first_three late_text_env three_blank_pages_env
           [Some ""; Some ""; Some "";
            Some "02-105  MBL3AC60  $1,306.00  Vacant"]
           [Some ""; Some ""; Some ""]); reflexivity.
Defined.

Lemma strip_l_nil (l : chars) :
  strip_l l = [] -> forallb is_space l = true.
Proof.
  unfold strip_l. intros H.
  assert (D : forall l, drop_while is_space l = [] ->
                        forallb is_space l = true).
  { clear. induction l as [| c l IH]; [reflexivity |].
    cbn [drop_while forallb]. destruct (is_space c); [exact IH |].
    discriminate. }
  assert (Hr : drop_while is_space (rev (drop_while is_space l)) = []).
  { rewrite <- (rev_involutive (drop_while _ (rev _))), H. reflexivity. }
  apply D in Hr. rewrite forallb_forall in Hr.
  assert (Hd : drop_while is_space l = []).
  { clear H. induction l as [| c l IH]; [reflexivity |].
    cbn [drop_while] in *. destruct (is_space c) eqn:Hc.
    - apply IH. exact Hr.
    - specialize (Hr c). rewrite Hc in Hr.
      assert (false = true); [| discriminate].
      apply Hr. apply -> in_rev. left. reflexivity. }
  apply D. exact Hd.
Qed.

Lemma marked_not_blank (x : string) : marked x -> is_blank x = false.
Proof.
  intros (k & rest & _ & ->). unfold is_blank.
  destruct (strip_l _) as [| c l] eqn:E; [| reflexivity].
  apply strip_l_nil in E. rewrite s2l_app in E.
  destruct (page_marker_chars k) as (t & Et & _). rewrite Et in E.
  discriminate.
Qed.

Lemma join_blank_iff (xs : list string) :
  Forall marked xs -> (is_blank (join blank_line xs) = true <-> xs = []).
Proof.
  intros H. split.
  - intros Hb. destruct xs as [| x xs]; [reflexivity |].
    rewrite (marked_not_blank _ (join_marked _ H ltac:(discriminate))) in Hb.
    discriminate.
  - intros ->. reflexivity.
Qed.

Lemma omap_enumerate_nil {A B} (g : A -> bool) (h : nat -> A -> B)
    (l : list A) (n : nat) :
  omap (fun '(i, x) => if g x then None else Some (h i x))
       (enumerate_from n l) = []
  <-> Forall (fun x => g x = true) l.
Proof.
  revert n. induction l as [| x l IH]; intros n.
  - split; [constructor | reflexivity].
  - cbn [enumerate_from omap list_omap]. destruct (g x) eqn:Hg.
    + rewrite IH. split; [intros H; constructor; assumption |].
      intros H. apply Forall_cons in H as (_ & H). exact H.
    + split; [discriminate |]. intros H.
      apply Forall_cons in H as (H & _). congruence.
Qed.

Lemma pymupdf_blank_iff (env : pdf_env) :
  is_blank (extract_text_pymupdf env) = true
  <-> forall doc texts, fitz_pages env = Some doc ->
        page_texts doc = Some texts ->
        Forall (fun t => is_blank t = true) texts.
Proof.
  unfold extract_text_pymupdf.
  destruct (fitz_pages env) as [doc |];
    [| split; [discriminate | reflexivity]].
  destruct (page_texts doc) as [texts |] eqn:Et.
  2: { split; [intros _ d t Hd; injection Hd as <-; congruence
              | reflexivity]. }
  rewrite join_blank_iff.
  - rewrite (omap_enumerate_nil is_blank
               (fun i t => page_marker (i + 1) ++ nl ++ t)).
    split.
    + intros H d t Hd Ht. injection Hd as <-. rewrite Et in Ht.
      injection Ht as <-. exact H.
    + intros H. exact (H doc texts eq_refl Et).
  - apply omap_Forall_out. intros [i t] y E.
    destruct (is_blank t); [discriminate |]. injection E as <-.
    exists (i + 1)%nat, t. split; [lia | reflexivity].
Qed.

(** X13. The text of the OCR path is blank exactly when no page image
    gives any text, and the PyMuPDF text is blank exactly when the
    document cannot be read or every page is blank: a single page with
    text is enough, since its marker line is never blank. *)
Theorem recovered_text_blank_iff (env : pdf_env) :
  (is_blank (extract_text_from_pdf env) = true
   <-> Forall (fun image => extract_text_from_image image = "")
              (pdf_to_images env))
  /\ (is_blank (extract_text_pymupdf env) = true
      <-> forall doc texts, fitz_pages env = Some doc ->
            page_texts doc = Some texts ->
            Forall (fun t => is_blank t = true) texts).
Proof.
  split; [| apply pymupdf_blank_iff].
  unfold extract_text_from_pdf.
  destruct (pdf_to_images env) as [| im ims] eqn:Ei;
    [split; [constructor | reflexivity] |].
  rewrite join_blank_iff.
  - rewrite (omap_enumerate_nil
               (fun image => String.eqb (extract_text_from_image image) "")
               (fun i image =>
                  page_marker (i + 1) ++ nl ++ extract_text_from_image image)).
    split; intros H; eapply Forall_impl; try exact H;
      intros x Hx; cbv beta in *; apply String.eqb_eq; exact Hx.
  - apply omap_Forall_out. intros [i t] y E. cbv zeta in E.
    destruct (String.eqb (extract_text_from_image t) "");
      [discriminate |].
    injection E as <-.
    exists (i + 1)%nat, (extract_text_from_image t).
    split; [lia | reflexivity].
Qed.

Lemma page_texts_firstn (doc : list (option string)) (texts : list string)
    (n : nat) :
  page_texts doc = Some texts ->
  page_texts (firstn n doc) = Some (firstn n texts).
Proof.
  revert texts n. induction doc as [| p doc IH]; intros texts n H.
  - injection H as <-. destruct n; reflexivity.
  - destruct p as [t |]; [| discriminate]. cbn [page_texts] in H.
    destruct (page_texts doc) as [ts |]; [| discriminate].
    injection H as <-. destruct n; [reflexivity |].
    cbn [firstn page_texts]. rewrite (IH ts n eq_refl). reflexivity.
Qed.

Lemma fold_length_zero (texts : list string) (acc : nat) :
  Forall (fun t => is_blank t = true) texts ->
  fold_left (fun acc text => (acc + stripped_length text)%nat) texts acc = acc.
Proof.
  revert acc. induction texts as [| t ts IH]; intros acc H; [reflexivity |].
  apply Forall_cons in H as (Ht & H). cbn [fold_left].
  rewrite IH by exact H. unfold stripped_length, strip. rewrite s2l_l2s.
  unfold is_blank in Ht. destruct (strip_l (s2l t)); [| discriminate].
  simpl. lia.
Qed.

Lemma in_firstn_in {A} (n : nat) (l : list A) (x : A) :
  In x (firstn n l) -> In x l.
Proof.
  revert n. induction l as [| y l IH]; intros n H.
  - destruct n; destruct H.
  - destruct n; [destruct H |]. destruct H as [-> | H].
    + left. reflexivity.
    + right. exact (IH n H).
Qed.

Lemma machine_readable_not_blank (env : pdf_env)
    (doc : list (option string)) (texts : list string) :
  is_machine_readable env = true ->
  fitz_pages env = Some doc -> page_texts doc = Some texts ->
  is_blank (extract_text_pymupdf env) = false.
Proof.
  intros Hm Ed Et.
  destruct (is_blank (extract_text_pymupdf env)) eqn:Hb; [| reflexivity].
  exfalso. rewrite pymupdf_blank_iff in Hb. specialize (Hb doc texts Ed Et).
  unfold is_machine_readable in Hm. rewrite Ed in Hm. cbv zeta in Hm.
  destruct (length doc =? 0)%nat; [discriminate |].
  rewrite (page_texts_firstn doc texts _ Et) in Hm.
  rewrite fold_length_zero in Hm; [discriminate |].
  rewrite Forall_forall in *. intros t Ht. apply Hb.
  apply list_elem_of_In. apply list_elem_of_In in Ht.
  exact (in_firstn_in _ _ _ Ht).
Qed.

(** X14. A machine-readable document all of whose pages can be read
    always yields a text: the pages that made it machine-readable give
    the PyMuPDF text at least one marker, so [process_document] cannot
    end in the no-text error, whatever pdfplumber returns. *)
Theorem machine_readable_recovers (repr_other : pyval -> string)
    (env : pdf_env) (doc : list (option string)) (texts : list string) :
  path_exists env = true -> is_machine_readable env = true ->
  fitz_pages env = Some doc -> page_texts doc = Some texts ->
  is_blank (extract_text_pymupdf env) = false
  /\ exists text data, process_document repr_other env = inr (text, data).
Proof.
  intros Hp Hm Ed Et.
  pose proof (machine_readable_not_blank env doc texts Hm Ed Et) as Hb.
  split; [exact Hb |].
  assert (Hr : exists text, recover env = inr text).
  { unfold recover. rewrite Hp, Hm. cbn [negb]. cbv zeta.
    destruct (is_blank (extract_text_pdfplumber env)) eqn:Hpl;
      cbn [bind ret].
    - rewrite Hb. eauto.
    - rewrite Hpl. eauto. }
  destruct Hr as (text & Hr).
  pose proof (process_document_cases repr_other env) as C.
  rewrite Hr in C. destruct C as (data & log & _ & C). eauto.
Qed.

Lemma machine_readable_recovers_witness :
  is_blank (extract_text_pymupdf rent_roll_env) = false
  /\ exists text data,
       process_document no_repr rent_roll_env = inr (text, data).
Proof.
  apply (machine_readable_recovers no_repr rent_roll_env
           [Some rent_roll_line] [rent_roll_line]);
    vm_compute; reflexivity.
Defined.

(** ** Dates *)

Lemma mk_date_calendar (y m d : Z) (dt : date) :
  mk_date y m d = inr dt -> calendar_date dt.
Proof.
  unfold mk_date.
  destruct (_ && _)%bool eqn:E; [| discriminate].
  intros H. injection H as <-.
  rewrite !andb_true_iff, !Z.leb_le in E. unfold calendar_date. simpl. lia.
Qed.

Lemma strptime_calendar (s : string) (fmt : date_format) (dt : date) :
  strptime s fmt = inr dt -> calendar_date dt.
Proof.
  unfold strptime.
  destruct (re_match_l true (re_format fmt) (s2l s)) as [m |];
    [| discriminate].
  destruct (m_rest m); [| discriminate].
  cbv zeta. apply mk_date_calendar.
Qed.

Lemma parse_date_loop_calendar (stripped : string) (fmts : list date_format)
    (d : date) :
  parse_date_loop stripped fmts = inr (Some d) ->
  calendar_date d /\ 2000 <= d_year d <= 2030.
Proof.
  intros H.
  destruct (parse_date_loop_spec stripped fmts) as (o & E & Hs & _).
  rewrite E in H. injection H as ->.
  destruct (Hs d eq_refl) as (fmt & _ & Hp & Hy).
  split; [exact (strptime_calendar _ _ _ Hp) |].
  apply year_ok_range. exact Hy.
Qed.

(** X15. Whatever date [parse_date] returns is a day of the calendar,
    with a month from 1 to 12 and a day that exists in that month of
    that year, and its year is within 2000..2030. *)
Theorem parse_date_calendar (date_str : string) (d : date) :
  parse_date date_str = inr (Some d) ->
  calendar_date d /\ 2000 <= d_year d <= 2030.
Proof.
  unfold parse_date. destruct (String.eqb date_str ""); [discriminate |].
  intros H.
  destruct (parse_date_loop_spec (strip date_str) date_formats)
    as (o & E & Hs & _).
  rewrite E in H. injection H as ->.
  destruct (Hs d eq_refl) as (fmt & _ & Hp & Hy).
  split.
  - unfold strptime in Hp.
    destruct (re_match_l true (re_format fmt) (s2l (strip date_str)))
      as [m |]; [| discriminate].
    destruct (m_rest m); [| discriminate].
    cbv zeta in Hp. exact (mk_date_calendar _ _ _ _ Hp).
  - apply year_ok_range. exact Hy.
Qed.

Lemma parse_date_calendar_witness :
  exists d, parse_date " 2/29/24 " = inr (Some d)
            /\ calendar_date d /\ d_year d = 2024 /\ d_month d = 2
            /\ d_day d = 29.
Proof.
  assert (E : parse_date " 2/29/24 "
              = inr (Some {| d_year := 2024; d_month := 2; d_day := 29 |}))
    by (vm_compute; reflexivity).
  eexists. split; [exact E |].
  split; [exact (proj1 (parse_date_calendar _ _ E)) |].
  auto.
Defined.

Lemma parse_dates_all (l : list string) (ds : list date) :
  parse_dates l = inr ds ->
  Forall (fun d => calendar_date d /\ 2000 <= d_year d <= 2030) ds.
Proof.
  revert ds. induction l as [| s l IH]; intros ds H.
  - injection H as <-. constructor.
  - cbn [parse_dates] in H.
    destruct (parse_date s) as [e | o] eqn:Es; [discriminate |].
    cbn [bind] in H.
    destruct (parse_dates l) as [e | ds'] eqn:El; [discriminate |].
    cbn [bind ret] in H. injection H as <-.
    destruct o as [d |]; [| exact (IH ds' eq_refl)].
    constructor; [| exact (IH ds' eq_refl)].
    unfold parse_date in Es. destruct (String.eqb s ""); [discriminate |].
    exact (parse_date_loop_calendar _ _ _ Es).
Qed.

Lemma parse_table_row_dates (line : string) (r : pydict) :
  _parse_table_row line = Some r ->
  exists pd,
    parse_dates (findall pat_date line) = inr pd
    /\ r !! "lease_start" = option_map VDate (head pd)
    /\ r !! "lease_end" = option_map VDate (head (tail pd)).
Proof.
  unfold _parse_table_row, parse_table_row_body.
  destruct (parse_dates_ok (findall pat_date line)) as (pd & E).
  rewrite E. simpl bind. cbv zeta. fold (row_base line).
  rewrite row_base_status.
  set (T := match search pat_tenant_name line with
            | Some _ => _ | None => _ end).
  assert (HT : forall k, k <> "tenant_name" -> T !! k = row_base line !! k).
  { intros k Hk. subst T.
    destruct (search pat_tenant_name line); [| reflexivity].
    destruct (String.eqb _ _); [| reflexivity].
    destruct (negb _); [| reflexivity].
    apply lookup_set_field_ne. congruence. }
  assert (Hs : T !! "lease_start" = None).
  { rewrite HT by discriminate. apply row_base_other; discriminate. }
  assert (He : T !! "lease_end" = None).
  { rewrite HT by discriminate. apply row_base_other; discriminate. }
  set (R := match pd with [] => _ | _ => _ end).
  unfold ret. destruct (_ && _)%bool; [| discriminate].
  intros H. injection H as <-. exists pd. split; [reflexivity |].
  subst R. destruct pd as [| d0 [| d1 pd']]; cbn [head tail option_map].
  - auto.
  - rewrite lookup_set_field_eq, lookup_set_field_ne by discriminate. auto.
  - rewrite lookup_set_field_ne, !lookup_set_field_eq by discriminate.
    auto.
Qed.

(** X16. In every record [extract_structured_data] returns the lease
    dates, when present, are days of the calendar with a year within
    2000..2030, and a record has a lease end only if it has a lease
    start. *)
Theorem structured_records_dates (text : string) :
  exists data,
    extract_structured_data text = inr data
    /\ forall r, In r data ->
         (forall v, r !! "lease_start" = Some v ->
            exists d, v = VDate d /\ calendar_date d
                      /\ 2000 <= d_year d <= 2030)
         /\ (forall v, r !! "lease_end" = Some v ->
               (exists d, v = VDate d /\ calendar_date d
                          /\ 2000 <= d_year d <= 2030)
               /\ r !! "lease_start" <> None).
Proof.
  exists (_extract_table_data text).
  split; [apply extract_structured_data_table |].
  intros r Hin. apply table_data_rows in Hin as (line & H).
  destruct (parse_table_row_dates line r H) as (pd & Ep & Es & Ee).
  pose proof (parse_dates_all _ _ Ep) as F.
  destruct pd as [| d0 pd]; cbn [head tail option_map] in Es, Ee.
  - split; intros v Hv; [rewrite Es in Hv | rewrite Ee in Hv]; discriminate.
  - apply Forall_cons in F as ((C0 & Y0) & F). split.
    + intros v Hv. rewrite Es in Hv. injection Hv as <-. eauto.
    + intros v Hv. rewrite Ee in Hv. destruct pd as [| d1 pd];
        [discriminate |].
      apply Forall_cons in F as ((C1 & Y1) & _).
      injection Hv as <-. split; [eauto |]. rewrite Es. discriminate.
Qed.

(** ** What consolidation keeps *)

Lemma merge_point_truthy (acc p : pydict) :
  all_truthy acc -> all_truthy (merge_point acc p).
Proof.
  intros H k v. rewrite merge_point_lookup. unfold merge_field.
  destruct (p !! k) as [value |]; [| apply H].
  destruct (truthy value) eqn:Hv; cbn [andb].
  - destruct (acc !! k) as [o |] eqn:Ho.
    + rewrite (H k o Ho). cbn [negb]. intros E. injection E as <-.
      exact (H k o Ho).
    + cbn [negb]. intros E. injection E as <-. exact Hv.
  - intros E. exact (H k v E).
Qed.

Lemma units_merge_truthy (u : pyval) (p : pydict) (U : units_dict) :
  Forall (fun e => all_truthy (snd e)) U ->
  Forall (fun e => all_truthy (snd e)) (units_merge u p U).
Proof.
  intros H. unfold units_merge. cbv zeta.
  assert (H' : Forall (fun e : pyval * pydict => all_truthy (snd e))
                 (if units_has u U then U else (U ++ [(u, ∅)])%list)).
  { destruct (units_has u U); [exact H |].
    apply Forall_app. split; [exact H |].
    constructor; [| constructor]. intros k v E.
    cbn [snd] in E. rewrite lookup_empty in E. discriminate. }
  revert H'. generalize (if units_has u U then U else (U ++ [(u, ∅)])%list).
  intros l Hl. induction l as [| e l IH]; [constructor |].
  apply Forall_cons in Hl as (He & Hl). cbn [map].
  constructor; [| exact (IH Hl)].
  destruct (py_eqb (fst e) u); [| exact He].
  cbn [snd]. apply merge_point_truthy. exact He.
Qed.

Lemma group_points_truthy (points : list pydict) (U U' : units_dict) :
  Forall (fun e => all_truthy (snd e)) U ->
  group_points points U = inr U' ->
  Forall (fun e => all_truthy (snd e)) U'.
Proof.
  revert U. induction points as [| p points IH]; intros U H E.
  - injection E as <-. exact H.
  - cbn [group_points] in E.
    destruct (p !! "unit_number") as [u |]; [| exact (IH U H E)].
    destruct (truthy u); [| exact (IH U H E)].
    destruct (hashable u); [| discriminate].
    exact (IH _ (units_merge_truthy u p U H) E).
Qed.

Lemma default_status_truthy (d : pydict) :
  all_truthy d ->
  all_truthy (default_status d) /\ get_truthy (default_status d) "status" = true.
Proof.
  intros H. unfold default_status.
  destruct (d !! "status") as [s |] eqn:Es.
  - split; [exact H |]. unfold get_truthy. rewrite Es. exact (H _ _ Es).
  - split.
    + intros k v. rewrite lookup_set_field.
      destruct (decide ("status" = k)) as [_ | _]; [| apply H].
      intros E. injection E as <-.
      destruct (get_truthy d "tenant_name"); reflexivity.
    + unfold get_truthy. rewrite lookup_set_field_eq.
      destruct (match d !! "tenant_name" with
                | Some v => truthy v | None => false end); reflexivity.
Qed.

(** X17. A record [_consolidate_data] returns has no empty value: every
    field it has counts as true, and among them are always the unit
    number and the status. *)
Theorem consolidated_records_truthy (points recs : list pydict) :
  _consolidate_data points = inr recs ->
  Forall (fun r => all_truthy r
                   /\ get_truthy r "unit_number" = true
                   /\ get_truthy r "status" = true) recs.
Proof.
  unfold _consolidate_data. intros H.
  apply bind_inr in H as (U & EU & H). injection H as <-.
  pose proof (group_points_truthy points [] U ltac:(constructor) EU) as F.
  clear EU. induction U as [| e U IH]; [constructor |].
  apply Forall_cons in F as (He & F). cbn [omap list_omap]. cbv zeta.
  destruct (get_truthy (snd e) "unit_number") eqn:Hu; [| exact (IH F)].
  constructor; [| exact (IH F)].
  destruct (default_status_truthy (snd e) He) as (Ha & Hs).
  split; [exact Ha |]. split; [| exact Hs].
  destruct (get_truthy_lookup _ _ Hu) as (v & Ev & Hv).
  unfold get_truthy. rewrite (default_status_lookup _ _ _ Ev). exact Hv.
Qed.

Lemma consolidated_records_truthy_witness :
  exists recs,
    _consolidate_data conflicting_points = inr recs
    /\ Forall (fun r => all_truthy r
                        /\ get_truthy r "unit_number" = true
                        /\ get_truthy r "status" = true) recs.
Proof.
  destruct (is_ok_true (_consolidate_data conflicting_points))
    as (recs & H); [vm_compute; reflexivity |].
  exists recs. split; [exact H |].
  exact (consolidated_records_truthy conflicting_points recs H).
Defined.

(** ** The pages pdfplumber keeps *)

Lemma drop_while_spaces_app (sp l : chars) :
  forallb is_space sp = true ->
  drop_while is_space (sp ++ l) = drop_while is_space l.
Proof.
  induction sp as [| c sp IH]; intros H; [reflexivity |].
  cbn [forallb] in H. apply andb_true_iff in H as (Hc & H).
  cbn [app drop_while]. rewrite Hc. exact (IH H).
Qed.

Lemma forallb_rev_space (l : chars) :
  forallb is_space (rev l) = forallb is_space l.
Proof.
  induction l as [| c l IH]; [reflexivity |].
  cbn [rev forallb]. rewrite forallb_app, IH. cbn [forallb].
  rewrite andb_true_r. apply andb_comm.
Qed.

Lemma drop_while_length (l : chars) :
  (length (drop_while is_space l) <= length l)%nat.
Proof.
  induction l as [| c l IH]; [reflexivity |].
  cbn [drop_while]. destruct (is_space c); cbn [length]; lia.
Qed.

Lemma drop_while_keeps (l : chars) :
  forallb is_space l = false ->
  drop_while is_space (rev l) <> [] /\
  exists c t, drop_while is_space (rev l) = c :: t /\ is_space c = false.
Proof.
  intros H. rewrite <- forallb_rev_space in H.
  induction (rev l) as [| c r IH]; [discriminate |].
  cbn [forallb drop_while] in *. destruct (is_space c) eqn:Hc.
  - exact (IH H).
  - split; [discriminate | eauto].
Qed.

Lemma strip_l_app_iff (c d : ascii) (l y : chars) :
  is_space c = false -> is_space d = false ->
  strip_l ((c :: l ++ [d]) ++ y) = (c :: l ++ [d])%list
  <-> forallb is_space y = true.
Proof.
  intros Hc Hd. unfold strip_l.
  change ((c :: l ++ [d]) ++ y)%list with (c :: (l ++ [d]) ++ y)%list.
  cbn [drop_while]. rewrite Hc.
  change (c :: (l ++ [d]) ++ y)%list with ((c :: l ++ [d]) ++ y)%list.
  set (a := (c :: l ++ [d])%list).
  assert (Ha : rev a = d :: rev (c :: l)).
  { subst a. change (c :: l ++ [d])%list with ((c :: l) ++ [d])%list.
    rewrite rev_app_distr. reflexivity. }
  rewrite rev_app_distr. split.
  - intros H.
    destruct (forallb is_space y) eqn:Hy; [reflexivity |]. exfalso.
    assert (L : (length (drop_while is_space (rev y ++ rev a))
                 = length a)%nat).
    { rewrite <- (length_rev (drop_while _ _)), H. reflexivity. }
    clear H. rewrite <- forallb_rev_space in Hy.
    induction (rev y) as [| x r IH]; [discriminate |].
    cbn [forallb app drop_while] in *. destruct (is_space x).
    + exact (IH Hy L).
    + cbn [length] in L. rewrite length_app, length_rev in L. lia.
  - intros Hy. rewrite drop_while_spaces_app
      by (rewrite forallb_rev_space; exact Hy).
    rewrite Ha. cbn [drop_while]. rewrite Hd. rewrite <- Ha.
    apply rev_involutive.
Qed.

Lemma is_blank_spaces (s : string) :
  is_blank s = true <-> forallb is_space (s2l s) = true.
Proof.
  unfold is_blank. split.
  - intros H. apply strip_l_nil.
    destruct (strip_l (s2l s)); [reflexivity | discriminate].
  - intros H. unfold strip_l.
    assert (D : forall l, forallb is_space l = true ->
                          drop_while is_space l = []).
    { clear. induction l as [| c l IH]; [reflexivity |].
      cbn [forallb drop_while]. intros H.
      apply andb_true_iff in H as (-> & H). exact (IH H). }
    rewrite (D _ H). reflexivity.
Qed.

Lemma str_app_nil (s : string) : s ++ "" = s.
Proof.
  induction s as [| c s IH]; [reflexivity |].
  change (String c (s ++ "") = String c s). f_equal. exact IH.
Qed.

Lemma fold_app_prefix {A} (f : string -> A -> string) (l : list A)
    (init : string) :
  (forall acc x, exists r, f acc x = acc ++ r) ->
  exists rest, fold_left f l init = init ++ rest.
Proof.
  intros Hf. revert init. induction l as [| x l IH]; intros init.
  - exists "". symmetry. apply str_app_nil.
  - cbn [fold_left]. destruct (Hf init x) as (r & ->).
    destruct (IH (init ++ r)) as (rest & ->).
    exists (r ++ rest). apply str_app_assoc.
Qed.

Lemma tables_text_spaces (tables : list (list (list (option string)))) :
  forallb is_space (s2l (tables_text tables)) = true <-> tables = [].
Proof.
  split; [| intros ->; reflexivity].
  destruct tables as [| tb tbs]; [reflexivity |]. intros H. exfalso.
  unfold tables_text in H.
  match type of H with
  | context [fold_left ?f ?l ?init] =>
      destruct (fold_app_prefix f l init) as (rest & E)
  end.
  { intros acc [i tbl]. eexists. reflexivity. }
  rewrite E in H. discriminate.
Qed.

Lemma plumber_page_skipped_iff (i : nat) (page : plumber_page) :
  strip (plumber_page_content i page) = page_marker (i + 1)
  <-> plumber_page_empty page.
Proof.
  destruct (page_marker_chars (i + 1)) as (t & Et & _).
  assert (S : forall y : string,
            strip (page_marker (i + 1) ++ y) = page_marker (i + 1)
            <-> forallb is_space (s2l y) = true).
  { intros y. unfold strip. rewrite s2l_app, Et.
    rewrite <- (strip_l_app_iff "-" "-" t (s2l y)) by reflexivity.
    split.
    - intros H. apply (f_equal s2l) in H. rewrite s2l_l2s, Et in H.
      exact H.
    - intros H. rewrite H, <- Et. apply l2s_s2l. }
  unfold plumber_page_content, plumber_page_empty. cbv zeta.
  destruct (pp_text page) as [text |].
  - destruct (String.eqb text "") eqn:Ee.
    + apply String.eqb_eq in Ee. subst text.
      rewrite str_app_assoc, S, s2l_app, forallb_app, andb_true_iff,
        tables_text_spaces.
      cbn. tauto.
    + rewrite !str_app_assoc, S, !s2l_app, !forallb_app, !andb_true_iff,
        tables_text_spaces, is_blank_spaces.
      cbn. tauto.
  - rewrite str_app_assoc, S, s2l_app, forallb_app, andb_true_iff,
      tables_text_spaces.
    cbn. tauto.
Qed.

Lemma plumber_kept_nil (pages : list plumber_page) (n : nat) :
  omap (fun '(i, page) =>
          let page_content := plumber_page_content i page in
          if String.eqb (strip page_content) (page_marker (i + 1))
          then None else Some page_content)
       (enumerate_from n pages) = []
  <-> Forall plumber_page_empty pages.
Proof.
  revert n. induction pages as [| page pages IH]; intros n.
  - split; [constructor | reflexivity].
  - cbn [enumerate_from omap list_omap]. cbv zeta.
    destruct (String.eqb (strip (plumber_page_content n page))
                         (page_marker (n + 1))) eqn:E.
    + apply String.eqb_eq, plumber_page_skipped_iff in E.
      rewrite IH. split; [intros H; constructor; assumption |].
      intros H. apply Forall_cons in H as (_ & H). exact H.
    + split; [discriminate |]. intros H.
      apply Forall_cons in H as (H & _).
      apply (plumber_page_skipped_iff n) in H.
      apply String.eqb_eq in H. congruence.
Qed.

(** X18. [extract_text_pdfplumber] leaves a page out exactly when the
    page has no table and its text is missing or blank; a page with a
    table, even one without rows, is kept. The whole text is blank
    exactly when pdfplumber fails or every page is left out. *)
Theorem pdfplumber_keeps_pages (env : pdf_env) :
  (forall i page,
     strip (plumber_page_content i page) = page_marker (i + 1)
     <-> plumber_page_empty page)
  /\ (is_blank (extract_text_pdfplumber env) = true
      <-> forall pages, plumber_pages env = Some pages ->
            Forall plumber_page_empty pages).
Proof.
  split; [apply plumber_page_skipped_iff |].
  unfold extract_text_pdfplumber.
  destruct (plumber_pages env) as [pages |];
    [| split; [discriminate | reflexivity]].
  rewrite join_blank_iff.
  - rewrite plumber_kept_nil. split.
    + intros H ps E. injection E as <-. exact H.
    + intros H. exact (H pages eq_refl).
  - apply omap_Forall_out. intros [i page] y E. cbv zeta in E.
    destruct (String.eqb _ _); [discriminate |].
    injection E as <-. apply plumber_page_marked.
Qed.

(** ** The records for the database *)







Lemma create_lease_records_spec (unit_mapping : gmap string Z)
    (data : list pydict) :
  Forall pipeline_record data ->
  exists leases,
    create_lease_records data unit_mapping = inr leases
    /\ Forall (fun lease => exists r, In r data
                                      /\ lease_of unit_mapping r lease) leases.
Proof.
  induction data as [| r data IH]; intros H.
  - exists []. split; [reflexivity | constructor].
  - apply Forall_cons in H as (Hr & H).
    destruct (IH H) as (leases & E & F).
    assert (F' : Forall (fun lease => exists r0, In r0 (r :: data)
                           /\ lease_of unit_mapping r0 lease) leases).
    { eapply Forall_impl; [exact F |].
      intros l (r0 & Hin & Hl). exists r0. split; [right; exact Hin |].
      exact Hl. }
    cbn [create_lease_records]. cbv zeta. rewrite E.
    destruct Hr as ((c & t & Eu & _) & _).
    assert (Ht0 : truthy (VStr (l2s (c :: t))) = true)
      by (apply truthy_str, l2s_cons_nonempty).
    revert Eu Ht0. generalize (l2s (c :: t)). intros u Eu Hut.
    assert (Hu : field_or_none r "unit_number" = VStr u)
      by (unfold field_or_none; rewrite Eu; reflexivity).
    rewrite Hu, Hut. cbn [andb].
    destruct (truthy (field_or_none r "tenant_name")) eqn:Ht;
      cbn [mapping_get bind ret].
    + destruct (unit_mapping !! u) as [id |] eqn:Em.
      * eexists. split; [reflexivity |]. constructor; [| exact F'].
        exists r. split; [left; reflexivity |].
        unfold lease_of. cbn [lc_unit_id lc_tenant_name lc_lease_start
                               lc_lease_end lc_status].
        split; [exists u; split; [exact Eu | exact Em] |].
        auto.
      * eexists. split; [reflexivity | exact F'].
    + eexists. split; [reflexivity | exact F'].
Qed.

(** X21. For the records of [process_document], [create_lease_records]
    never raises, and every lease it makes belongs to a record whose
    status is 'occupied': the tenant is that record's name, more than two
    characters of letters and spaces, and the unit id is the one the
    mapping gives for its unit number. *)
Theorem create_lease_records_of_pipeline (repr_other : pyval -> string)
    (env : pdf_env) (text : string) (data : list pydict)
    (unit_mapping : gmap string Z) :
  process_document repr_other env = inr (text, data) ->
  exists leases,
    create_lease_records data unit_mapping = inr leases
    /\ Forall (fun lease =>
                 exists r s,
                   In r data
                   /\ lease_of unit_mapping r lease
                   /\ r !! "status" = Some (VStr "occupied")
                   /\ lc_tenant_name lease = VStr s
                   /\ name_ok s = true) leases.
Proof.
  intros H.
  pose proof (process_document_records_aux repr_other env text data H) as P.
  destruct (create_lease_records_spec unit_mapping data P)
    as (leases & E & F).
  exists leases. split; [exact E |].
  eapply Forall_impl; [exact F |].
  intros lease (r & Hin & Hl). cbv beta.
  rewrite Forall_forall in P.
  destruct (P r (proj2 (list_elem_of_In _ _) Hin)) as (_ & _ & _ & _ & Ht).
  pose proof Hl as (_ & En & Hn & _).
  unfold field_or_none in En.
  destruct (r !! "tenant_name") as [v |] eqn:Ev;
    [| rewrite En in Hn; discriminate].
  rewrite En in Hn. destruct (Ht v eq_refl Hn) as (Hs & s & -> & Hok).
  exists r, s. auto.
Qed.

Lemma create_lease_records_of_pipeline_witness :
  exists text data leases,
    process_document no_repr rent_roll_env = inr (text, data)
    /\ create_lease_records data example_mapping = inr leases.
Proof.
  destruct (is_ok_true (process_document no_repr rent_roll_env))
    as ([text data] & H); [vm_compute; reflexivity |].
  destruct (create_lease_records_of_pipeline no_repr rent_roll_env text data
              example_mapping H) as (leases & E & _).
  exists text, data, leases. auto.
Defined.
(** ** The area of the line-by-line strategy *)















(** ** Validated tenant names *)










(** ** Totals and averages of the summary *)





(** ** The chunks of the recovered text *)

Lemma strip_l_length (l : chars) : (length (strip_l l) <= length l)%nat.
Proof.
  unfold strip_l. rewrite length_rev.
  etransitivity; [apply drop_while_length |].
  rewrite length_rev. apply drop_while_length.
Qed.

Lemma py_slice_length (l : chars) (start stop : Z) :
  0 <= start <= stop ->
  Z.of_nat (length (py_slice l start stop)) <= stop - start.
Proof.
  intros H. unfold py_slice, py_index. cbv zeta.
  destruct (start <? 0)%Z eqn:Es; [apply Z.ltb_lt in Es; lia |].
  destruct (stop <? 0)%Z eqn:Ee; [apply Z.ltb_lt in Ee; lia |].
  rewrite length_firstn. lia.
Qed.

Lemma rfind_from_bound (c : ascii) (l : chars) (i found : Z) :
  found < i + Z.of_nat (length l) ->
  rfind_from c l i found < i + Z.of_nat (length l).
Proof.
  revert i found. induction l as [| x l IH]; intros i found H.
  - exact H.
  - cbn [rfind_from]. cbn [length] in *.
    specialize (IH (i + 1) (if ascii_dec x c then i else found)).
    destruct (ascii_dec x c); lia.
Qed.

Lemma rfind_bound (c : ascii) (l : chars) :
  rfind c l < Z.of_nat (length l) \/ (l = [] /\ rfind c l = -1).
Proof.
  destruct l as [| x l]; [right; split; reflexivity |]. left.
  unfold rfind. apply (rfind_from_bound c (x :: l) 0 (-1)).
  cbn [length]. lia.
Qed.

Lemma threshold_default (p : Z) :
  Qlt_bool (Qz 1000 * (7 # 10)) (Qz p) = true <-> 700 < p.
Proof.
  rewrite Qlt_bool_true. unfold Qz, Qlt. simpl. lia.
Qed.

(** The end of the chunk that starts at [start], for the defaults. *)
Lemma chunk_end_bounds (text : chars) (start : Z) :
  0 <= start ->
  let len := Z.of_nat (length text) in
  let end_ :=
    if (start + 1000 <? len)%Z then
      if Qlt_bool (Qz 1000 * (7 # 10))
                  (Qz (rfind "." (py_slice text start (start + 1000))))
      then start + rfind "." (py_slice text start (start + 1000)) + 1
      else start + 1000
    else start + 1000 in
  start + 702 <= end_ <= start + 1000.
Proof.
  intros Hs. cbv zeta.
  destruct (start + 1000 <? Z.of_nat (length text))%Z; [| lia].
  destruct (Qlt_bool _ _) eqn:E; [| lia].
  apply threshold_default in E.
  pose proof (py_slice_length text start (start + 1000) ltac:(lia)) as L.
  destruct (rfind_bound "." (py_slice text start (start + 1000)))
    as [B | (_ & B)]; lia.
Qed.

Lemma split_loop_default (fuel : nat) (text : chars) (start : Z)
    (chunks : list string) :
  0 <= start ->
  Z.max 0 (Z.of_nat (length text) - start) < Z.of_nat fuel ->
  Forall (fun c => (length (s2l c) <= 1000)%nat) chunks ->
  exists out,
    split_loop fuel text 1000 200 start chunks = Some out
    /\ Forall (fun c => (length (s2l c) <= 1000)%nat) out
    /\ (length chunks <= length out)%nat
    /\ 502 * (Z.of_nat (length out) - Z.of_nat (length chunks))
       <= Z.max 0 (Z.of_nat (length text) - start + 501)
    /\ (Z.of_nat (length text) <= start -> out = chunks).
Proof.
  revert start chunks. induction fuel as [| fuel IH]; intros start chunks Hs Hf Hc.
  - simpl in Hf. lia.
  - cbn [split_loop]. cbv zeta.
    destruct (Z.ltb_spec start (Z.of_nat (length text))) as [Hlt | Hge].
    2: { exists chunks. split; [reflexivity |]. split; [exact Hc |].
         split; [lia |]. split; [lia | reflexivity]. }
    pose proof (chunk_end_bounds text start Hs) as B. cbv zeta in B.
    set (end_ := if (start + 1000 <? Z.of_nat (length text))%Z then _ else _) in *.
    assert (Hk : Forall (fun c => (length (s2l c) <= 1000)%nat)
                   (chunks ++ [l2s (strip_l (py_slice text start end_))])).
    { apply Forall_app. split; [exact Hc |]. constructor; [| constructor].
      rewrite s2l_l2s.
      pose proof (strip_l_length (py_slice text start end_)).
      pose proof (py_slice_length text start end_ ltac:(lia)). lia. }
    destruct (Z.leb_spec (Z.of_nat (length text)) (end_ - 200)) as [Hd | Hd].
    + eexists. split; [reflexivity |]. split; [exact Hk |].
      rewrite length_app. cbn [length]. split; [lia |]. split; [lia |]. lia.
    + destruct (IH (end_ - 200) _ ltac:(lia) ltac:(lia) Hk)
        as (out & E & Ho & Hl & Hn & _).
      exists out. split; [exact E |]. split; [exact Ho |].
      rewrite length_app in Hl, Hn. cbn [length] in Hl, Hn.
      split; [lia |]. split; [lia |]. lia.
Qed.

Lemma split_loop_more_fuel (fuel fuel' : nat) (text : chars)
    (chunk_size overlap start : Z) (chunks out : list string) :
  (fuel <= fuel')%nat ->
  split_loop fuel text chunk_size overlap start chunks = Some out ->
  split_loop fuel' text chunk_size overlap start chunks = Some out.
Proof.
  revert fuel' start chunks. induction fuel as [| fuel IH];
    intros fuel' start chunks Hle H; [discriminate |].
  destruct fuel' as [| fuel']; [lia |].
  cbn [split_loop] in *. cbv zeta in *.
  destruct (start <? Z.of_nat (length text))%Z; [| exact H].
  match type of H with
  | (if ?b then _ else _) = _ => destruct b; [exact H |]
  end.
  apply IH; [lia | exact H].
Qed.

(** X25. With the default size and overlap [_split_text] always ends:
    each turn of its loop moves the start forward by at least 502
    characters, so the loop takes at most one turn per 502 characters of
    the text, and every chunk has at most 1000 characters. *)
Theorem split_text_terminates (text : string) :
  exists chunks,
    (forall fuel, (length (s2l text) < fuel)%nat ->
                  split_text_default fuel text = Some chunks)
    /\ Forall (fun c => (length (s2l c) <= 1000)%nat) chunks
    /\ 502 * Z.of_nat (length chunks) <= Z.of_nat (length (s2l text)) + 501.
Proof.
  destruct (split_loop_default (S (length (s2l text))) (s2l text) 0 []
              ltac:(lia) ltac:(lia) ltac:(constructor))
    as (out & E & Ho & _ & Hn & _).
  exists out. split; [| split; [exact Ho |]].
  - intros fuel Hf. unfold split_text_default, _split_text.
    apply (split_loop_more_fuel (S (length (s2l text)))); [lia | exact E].
  - cbn [length] in Hn. lia.
Qed.

Lemma py_slice_tail (l : chars) (s stop : Z) :
  0 <= s <= Z.of_nat (length l) -> Z.of_nat (length l) <= stop ->
  py_slice l s stop = skipn (Z.to_nat s) l.
Proof.
  intros Hs He. unfold py_slice, py_index. cbv zeta.
  destruct (Z.ltb_spec s 0); [lia |].
  destruct (Z.ltb_spec stop 0); [lia |].
  rewrite (Z.min_l s), (Z.min_r stop) by lia.
  apply firstn_all2. rewrite length_skipn. lia.
Qed.

(** X26. With the defaults, a text of at most 800 characters is one
    chunk, the stripped text. A text of 801 to 1000 characters gives two
    chunks: the stripped text, and once more its stripped tail from
    position 800, which the first chunk already holds. *)
Theorem split_text_short (text : string) (fuel : nat) :
  (2 <= fuel)%nat ->
  ((0 < length (s2l text) <= 800)%nat ->
   split_text_default fuel text = Some [strip text])
  /\ ((800 < length (s2l text) <= 1000)%nat ->
      split_text_default fuel text
      = Some [strip text; l2s (strip_l (skipn 800 (s2l text)))]).
Proof.
  intros Hf.
  destruct fuel as [| [| fuel]]; [lia | lia |].
  assert (Step : (0 < length (s2l text) <= 1000)%nat ->
            split_text_default (S (S fuel)) text
            = if (Z.of_nat (length (s2l text)) <=? 800)%Z
              then Some [strip text]
              else split_loop (S fuel) (s2l text) 1000 200 800
                              [strip text]).
  { intros Hn. unfold split_text_default, _split_text.
    cbn [split_loop]. cbv zeta.
    destruct (Z.ltb_spec 0 (Z.of_nat (length (s2l text)))); [| lia].
    destruct (Z.ltb_spec (0 + 1000) (Z.of_nat (length (s2l text))));
      [lia |].
    rewrite (py_slice_tail (s2l text) 0 (0 + 1000)) by lia.
    cbn [Z.to_nat skipn app]. change (drop 0 (s2l text)) with (s2l text).
    fold (strip text). reflexivity. }
  split; intros Hn.
  - rewrite Step by lia.
    destruct (Z.leb_spec (Z.of_nat (length (s2l text))) 800); [| lia].
    reflexivity.
  - rewrite Step by lia.
    destruct (Z.leb_spec (Z.of_nat (length (s2l text))) 800); [lia |].
    cbn [split_loop]. cbv zeta.
    destruct (Z.ltb_spec 800 (Z.of_nat (length (s2l text)))); [| lia].
    destruct (Z.ltb_spec (800 + 1000) (Z.of_nat (length (s2l text))));
      [lia |].
    rewrite (py_slice_tail (s2l text) 800 (800 + 1000)) by lia.
    destruct (Z.leb_spec (Z.of_nat (length (s2l text))) (800 + 1000 - 200));
      [| lia].
    reflexivity.
Qed.

Lemma split_text_short_witness :
  split_text_default 2 (letters 900) = Some [letters 900; letters 100].
Proof.
  destruct (split_text_short (letters 900) 2 ltac:(lia)) as (_ & H).
  rewrite H.
  - vm_compute. reflexivity.
  - vm_compute. split; lia.
Defined.
